(** * Jumanji: specs, wrappers and the Connector action mask

    A shallow embedding of
    - [jumanji/specs.py] and [jumanji/jax/specs.py] (array specs and their
      validation), [jumanji/connect4/specs.py] (a nested observation spec),
    - [jumanji/wrappers.py] (wrapper composition),
    - [jumanji/environments/routing/connector/env.py] (reset, step and the
      action mask of the Connector environment),
    over a small model of the part of [jax.numpy] that this code calls.

    It goes on with the rest of these files: pickling and [replace] of
    the specs, the conversions to [gym], the adapters
    [JumanjiToDMEnvWrapper] and [JumanjiToGymWrapper], and the specs of
    the Connector environment. *)

From Stdlib Require Import ZArith Bool Lia.
From Stdlib Require Import Floats.SpecFloat.
From stdpp Require Import base decidable option list numbers strings.

Local Open Scope string_scope.

(** ** Arrays: the values of [jax.numpy] *)

Module np.

(** Array element types. [bool], [int] and [float] of Python denote
    [bool_], [int64] and [float64]. Complex types do not occur. *)
Inductive DType : Set :=
| bool_
| int8 | int16 | int32 | int64
| uint8 | uint16 | uint32 | uint64
| bfloat16 | float16 | float32 | float64.

#[global] Instance DType_eq_dec : EqDecision DType.
Proof. solve_decision. Defined.

(** [jax.dtypes.canonicalize_dtype]: without 64-bit mode every array
    creation routine narrows a 64-bit type to its 32-bit counterpart. *)
Definition canonicalize_dtype (x64 : bool) (d : DType) : DType :=
  if x64 then d
  else match d with
       | int64 => int32
       | uint64 => uint32
       | float64 => float32
       | _ => d
       end.

(** [jnp.issubdtype(d, jnp.integer)] *)
Definition is_integer (d : DType) : bool :=
  match d with
  | int8 | int16 | int32 | int64 | uint8 | uint16 | uint32 | uint64 => true
  | _ => false
  end.

(** Inclusive range of an integer type. *)
Definition int_bounds (d : DType) : option (Z * Z) :=
  match d with
  | int8 => Some (-2 ^ 7, 2 ^ 7 - 1)
  | int16 => Some (-2 ^ 15, 2 ^ 15 - 1)
  | int32 => Some (-2 ^ 31, 2 ^ 31 - 1)
  | int64 => Some (-2 ^ 63, 2 ^ 63 - 1)
  | uint8 => Some (0, 2 ^ 8 - 1)
  | uint16 => Some (0, 2 ^ 16 - 1)
  | uint32 => Some (0, 2 ^ 32 - 1)
  | uint64 => Some (0, 2 ^ 64 - 1)
  | _ => None
  end%Z.

(** Precision and maximal exponent of a floating-point type. *)
Definition float_format (d : DType) : option (Z * Z) :=
  match d with
  | bfloat16 => Some (8, 128)
  | float16 => Some (11, 16)
  | float32 => Some (24, 128)
  | float64 => Some (53, 1024)
  | _ => None
  end%Z.

(** One array element. Floats are IEEE 754 values ([spec_float] has the
    signed zeros, the infinities and NaN). *)
Inductive scalar : Set :=
| SBool (b : bool)
| SInt (z : Z)
| SFloat (f : spec_float).

#[global] Instance spec_float_eq_dec : EqDecision spec_float.
Proof. solve_decision. Defined.
#[global] Instance scalar_eq_dec : EqDecision scalar.
Proof. solve_decision. Defined.

(** An array: its shape, its element type and its elements in row-major
    order. *)
Record ndarray : Set := mk_ndarray {
  shape : list nat;
  dtype : DType;
  data : list scalar;
}.

#[global] Instance ndarray_eq_dec : EqDecision ndarray.
Proof. solve_decision. Defined.

(** Number of elements of an array of a given shape. *)
Definition size (shp : list nat) : nat := foldr Nat.mul 1 shp.

(** [x] is a value of element type [d]. *)
Definition has_dtype (d : DType) (x : scalar) : bool :=
  match x with
  | SBool _ => bool_decide (d = bool_)
  | SInt z =>
      match int_bounds d with
      | Some (lo, hi) => (lo <=? z)%Z && (z <=? hi)%Z
      | None => false
      end
  | SFloat f =>
      match float_format d with
      | Some (prec, emax) => valid_binary prec emax f
      | None => false
      end
  end.

(** The invariant of every array that JAX hands out: it has as many
    elements as its shape says, each one of its element type. *)
Definition sized (a : ndarray) : Prop := length (data a) = size (shape a).

Definition wf (a : ndarray) : Prop :=
  sized a /\ Forall (fun x => has_dtype (dtype a) x = true) (data a).

End np.

(** ** Exceptions

    A Python exception is its class, the text of its message and the values
    interpolated into the text (the source builds its messages with
    f-strings; each [{}] of the text stands for the next argument). *)

Inductive fmt_arg : Set :=
| AStr (s : string)
| AInt (z : Z)
| AShape (shp : list nat)
| ADType (d : np.DType)
| AArray (a : np.ndarray).

Inductive exn : Set :=
| ValueError (text : string) (args : list fmt_arg)
| TypeError (text : string) (args : list fmt_arg)
| AttributeError (text : string) (args : list fmt_arg).

Inductive result (A : Type) : Type :=
| Ok (a : A)
| Raise (e : exn).
Arguments Ok {A} a.
Arguments Raise {A} e.

#[global] Instance result_ret : MRet result := fun A a => Ok a.
#[global] Instance result_bind : MBind result :=
  fun A B f r => match r with Ok a => f a | Raise e => Raise e end.

(** A line break followed by a tabulator, as some messages have them. *)
Definition nl_tab : string :=
  String (Ascii.ascii_of_nat 10) (String (Ascii.ascii_of_nat 9) EmptyString).

(** [except ValueError: raise ValueError(text)] around a call *)
Definition reraise_ValueError {A} (text : string) (r : result A) : result A :=
  match r with
  | Raise (ValueError _ _) => Raise (ValueError text [])
  | _ => r
  end.

(** ** The array substrate: what the code uses of [jax.numpy] *)

Module jnp.
Import np.

(** *** Configuration and conversions

    What depends on the JAX configuration or on its conversion tables and
    is not fixed by the code under study. *)
Class Jax := {
  (** the [jax_enable_x64] flag *)
  jax_enable_x64 : bool;
  (** [jnp.promote_types] *)
  promote_types : DType -> DType -> DType;
  (** conversion of one element from a type to another one *)
  convert_scalar : DType -> DType -> scalar -> scalar;
  (** the reductions [jnp.sum] and [jnp.max] over all elements *)
  sum : ndarray -> ndarray;
  max : ndarray -> ndarray;
}.

Section WithJax.
Context {J : Jax}.

Definition canonicalize : DType -> DType :=
  canonicalize_dtype jax_enable_x64.

(** [lax.convert_element_type] *)
Definition convert_element_type (a : ndarray) (d : DType) : ndarray :=
  {| shape := shape a; dtype := d;
     data := map (convert_scalar (dtype a) d) (data a) |}.

(** [jnp.asarray(a)] of a jax array. *)
Definition asarray (a : ndarray) : ndarray := a.

(** [jnp.asarray(a, dtype)] *)
Definition asarray_dtype (a : ndarray) (d : DType) : ndarray :=
  if decide (dtype a = canonicalize d) then a
  else convert_element_type a (canonicalize d).

(** The array that JAX makes of a Python [int]. *)
Definition of_int (z : Z) : ndarray :=
  {| shape := []; dtype := canonicalize int64; data := [SInt z] |}.

Definition zero (d : DType) : scalar :=
  match d with
  | bool_ => SBool false
  | bfloat16 | float16 | float32 | float64 => SFloat (S754_zero false)
  | _ => SInt 0
  end.

Definition one (d : DType) : scalar :=
  match d with
  | bool_ => SBool true
  | _ =>
      match float_format d with
      | Some (prec, emax) => SFloat (SFone prec emax)
      | None => SInt 1
      end
  end.

(** [jnp.zeros(shape, dtype)] and [jnp.ones(shape, dtype)] *)
Definition zeros (shp : list nat) (d : DType) : ndarray :=
  let d := canonicalize d in
  {| shape := shp; dtype := d; data := replicate (size shp) (zero d) |}.

Definition ones (shp : list nat) (d : DType) : ndarray :=
  let d := canonicalize d in
  {| shape := shp; dtype := d; data := replicate (size shp) (one d) |}.

(** [jnp.arange(start, stop)] for natural bounds *)
Definition arange (start stop : nat) : list nat := seq start (stop - start).

(** *** Arithmetic and comparison of elements of one type *)

(** Wrap-around of integer arithmetic. *)
Definition wrap (d : DType) (z : Z) : Z :=
  match int_bounds d with
  | Some (lo, hi) => ((z - lo) mod (hi - lo + 1) + lo)%Z
  | None => z
  end.

Definition scalar_mul (d : DType) (x y : scalar) : scalar :=
  match x, y with
  | SBool a, SBool b => SBool (a && b)
  | SInt a, SInt b => SInt (wrap d (a * b))
  | SFloat a, SFloat b =>
      match float_format d with
      | Some (prec, emax) => SFloat (SFmul prec emax a b)
      | None => x
      end
  | _, _ => x
  end.

(** [x < y]; every comparison with NaN is false. *)
Definition scalar_lt (x y : scalar) : bool :=
  match x, y with
  | SBool a, SBool b => negb a && b
  | SInt a, SInt b => (a <? b)%Z
  | SFloat a, SFloat b =>
      match SFcompare a b with Some Lt => true | _ => false end
  | _, _ => false
  end.

(** [x > y] *)
Definition scalar_gt (x y : scalar) : bool :=
  match x, y with
  | SBool a, SBool b => a && negb b
  | SInt a, SInt b => (a >? b)%Z
  | SFloat a, SFloat b =>
      match SFcompare a b with Some Gt => true | _ => false end
  | _, _ => false
  end.

(** [x <= y] *)
Definition scalar_le (x y : scalar) : bool :=
  match x, y with
  | SBool a, SBool b => implb a b
  | SInt a, SInt b => (a <=? b)%Z
  | SFloat a, SFloat b =>
      match SFcompare a b with Some (Lt | Eq) => true | _ => false end
  | _, _ => false
  end.

(** Two elements of one kind, none of them NaN, are ordered. *)
Definition comparable (x y : scalar) : bool :=
  match x, y with
  | SBool _, SBool _ | SInt _, SInt _ => true
  | SFloat a, SFloat b =>
      match SFcompare a b with Some _ => true | None => false end
  | _, _ => false
  end.

(** Truth value of an element. *)
Definition truthy (x : scalar) : bool :=
  match x with
  | SBool b => b
  | SInt z => negb (z =? 0)%Z
  | SFloat (S754_zero _) => false
  | SFloat _ => true
  end.

(** *** Broadcasting *)

(** Shapes are aligned at their last dimension; the shorter one is
    extended with dimensions of size one. *)
Definition pad_shape (shp : list nat) (rank : nat) : list nat :=
  replicate (rank - length shp) 1 ++ shp.

(** A shape of the same rank can be stretched to [sout] where it agrees
    with it or has size one. *)
Fixpoint compatible (sin sout : list nat) : bool :=
  match sin, sout with
  | [], [] => true
  | n :: sin', m :: sout' =>
      (bool_decide (n = m) || bool_decide (n = 1)) && compatible sin' sout'
  | _, _ => false
  end.

(** The first [k] consecutive blocks of [n] elements. *)
Fixpoint chunks {A} (k n : nat) (l : list A) : list (list A) :=
  match k with
  | 0 => []
  | S k' => take n l :: chunks k' n (drop n l)
  end.

(** Elements of the stretched array, both shapes having one rank. *)
Fixpoint broadcast_data {A} (sin sout : list nat) (l : list A) : list A :=
  match sin, sout with
  | n :: sin', m :: sout' =>
      if decide (n = m)
      then concat (map (broadcast_data sin' sout') (chunks n (size sin') l))
      else concat (replicate m (broadcast_data sin' sout' l))
  | _, _ => l
  end.

(** The common shape of two shapes of one rank: where the sizes differ,
    one of them is one and the other one is taken. *)
Fixpoint join_dims (s1 s2 : list nat) : option (list nat) :=
  match s1, s2 with
  | [], [] => Some []
  | n :: s1', m :: s2' =>
      d ← (if decide (n = m) then Some n
            else if decide (n = 1) then Some m
            else if decide (m = 1) then Some n
            else None);
      r ← join_dims s1' s2';
      Some (d :: r)
  | _, _ => None
  end.

(** [jnp.broadcast_shapes] *)
Definition broadcast_shapes (s1 s2 : list nat) : option (list nat) :=
  let rank := Nat.max (length s1) (length s2) in
  join_dims (pad_shape s1 rank) (pad_shape s2 rank).

(** [jnp.broadcast_to(a, shape)] *)
Definition broadcast_to (a : ndarray) (shp : list nat) : result ndarray :=
  let sin := pad_shape (shape a) (length shp) in
  if bool_decide (length (shape a) <= length shp) && compatible sin shp
  then Ok {| shape := shp; dtype := dtype a;
             data := broadcast_data sin shp (data a) |}
  else Raise (ValueError "Incompatible shapes for broadcasting: {} and requested shape {}"
                [AShape (shape a); AShape shp]).

(** Operands of different element types are first converted to their
    common type. *)
Definition promote_operands (a b : ndarray) : ndarray * ndarray :=
  if decide (dtype a = dtype b) then (a, b)
  else let d := promote_types (dtype a) (dtype b) in
       (convert_element_type a d, convert_element_type b d).

(** An elementwise binary operation with broadcasting. *)
Definition binary_op (f : DType -> scalar -> scalar -> scalar)
    (out : DType -> DType) (a b : ndarray) : result ndarray :=
  let '(a, b) := promote_operands a b in
  match broadcast_shapes (shape a) (shape b) with
  | None =>
      Raise (ValueError "Incompatible shapes for broadcasting: {} and {}"
               [AShape (shape a); AShape (shape b)])
  | Some shp =>
      a' ← broadcast_to a shp;
      b' ← broadcast_to b shp;
      Ok {| shape := shp; dtype := out (dtype a);
            data := zip_with (f (dtype a)) (data a') (data b') |}
  end.

(** [a * b], [a < b] and [a > b] *)
Definition multiply : ndarray -> ndarray -> result ndarray :=
  binary_op scalar_mul (fun d => d).

Definition less : ndarray -> ndarray -> result ndarray :=
  binary_op (fun _ x y => SBool (scalar_lt x y)) (fun _ => bool_).

Definition greater : ndarray -> ndarray -> result ndarray :=
  binary_op (fun _ x y => SBool (scalar_gt x y)) (fun _ => bool_).

(** [jnp.any(a)], [a.any()] *)
Definition any (a : ndarray) : bool := existsb truthy (data a).

(** [a.at[idx].set(vals)] for an array of one dimension: the updates are
    applied in order, one out of range is dropped. *)
Definition at_set (a : ndarray) (idx : list nat) (vals : list scalar) : ndarray :=
  {| shape := shape a; dtype := dtype a;
     data := foldl (fun l iv => <[iv.1 := iv.2]> l) (data a) (zip idx vals) |}.

End WithJax.
End jnp.

(** ** [jumanji/types.py]

    The module is not among the sources; what the code under study takes
    from it is declared here. *)

Module types.

(** [get_valid_dtype] is a parameter: the specs only store what it
    returns. *)
Class Helpers := {
  get_valid_dtype : np.DType -> np.DType;
}.

(** Modelled from the spec: [StepType] of [jumanji/types.py], which is not
    among the sources; the three step types of an episode. *)
Inductive StepType : Set := FIRST | MID | LAST.

#[global] Instance StepType_eq_dec : EqDecision StepType.
Proof. solve_decision. Defined.

(** Modelled from the spec: [TimeStep] of [jumanji/types.py], which is not
    among the sources; its fields are those that [wrappers.py] reads and
    writes, [extras] is optional. *)
Record TimeStep (Observation Extras : Type) : Type := mk_TimeStep {
  step_type : StepType;
  reward : np.ndarray;
  discount : np.ndarray;
  observation : Observation;
  extras : option Extras;
}.
Arguments mk_TimeStep {Observation Extras}.
Arguments step_type {Observation Extras}.
Arguments reward {Observation Extras}.
Arguments discount {Observation Extras}.
Arguments observation {Observation Extras}.
Arguments extras {Observation Extras}.

(** Modelled from the spec: [TimeStep.last] of [jumanji/types.py], which
    is not among the sources; a timestep is the last one of its episode
    when its step type is [LAST]. *)
Definition last {O X} (timestep : TimeStep O X) : bool :=
  bool_decide (step_type timestep = LAST).

End types.

(** ** [dm_env.specs]: the records that the conversion builds *)

Module dm_env.

Record Array : Set := mk_Array {
  shape : list nat;
  dtype : np.DType;
  name : option string;
}.

Record BoundedArray : Set := mk_BoundedArray {
  b_shape : list nat;
  b_dtype : np.DType;
  minimum : np.ndarray;
  maximum : np.ndarray;
  b_name : option string;
}.

Record DiscreteArray : Set := mk_DiscreteArray {
  num_values : Z;
  d_dtype : np.DType;
  d_name : option string;
}.

Inductive spec : Set :=
| OfArray (a : Array)
| OfBoundedArray (b : BoundedArray)
| OfDiscreteArray (d : DiscreteArray).

(** [dm_env.TimeStep] and [dm_env.restart] *)
Record TimeStep (Observation : Type) : Type := mk_TimeStep {
  step_type : types.StepType;
  reward : option np.ndarray;
  discount : option np.ndarray;
  observation : Observation;
}.
Arguments mk_TimeStep {Observation}.
Arguments step_type {Observation}.
Arguments reward {Observation}.
Arguments discount {Observation}.
Arguments observation {Observation}.

Definition restart {O} (observation : O) : TimeStep O :=
  mk_TimeStep types.FIRST None None observation.

End dm_env.

(** ** [jumanji/specs.py] *)

Module specs.

(** *** [class Array(Spec)] *)
Module Array.

Record t : Set := mk {
  _name : string;
  _shape : list nat;
  _dtype : np.DType;
}.

Section Methods.
Context {J : jnp.Jax} {H : types.Helpers}.

(** The dimensions of a shape are natural numbers, [int(dim)] is [dim]. *)
Definition __init__ (shape : list nat) (dtype : np.DType) (name : string) : t :=
  {| _name := name; _shape := shape; _dtype := types.get_valid_dtype dtype |}.

Definition name (self : t) : string := _name self.
Definition shape (self : t) : list nat := _shape self.
Definition dtype (self : t) : np.DType := _dtype self.

Definition _fail_validation {A} (self : t) (message : string)
    (args : list fmt_arg) : result A :=
  if bool_decide (name self <> "")
  then Raise (ValueError (message +:+ " for spec {}.") (args ++ [AStr (name self)]))
  else Raise (ValueError (message +:+ ".") args).

Definition validate (self : t) (value : np.ndarray) : result np.ndarray :=
  let value := jnp.asarray value in
  _ ← (if bool_decide (np.shape value <> shape self)
       then _fail_validation self "Expected shape {} but found {}"
              [AShape (shape self); AShape (np.shape value)]
       else Ok ());
  _ ← (if bool_decide (np.dtype value <> dtype self)
       then _fail_validation self "Expected dtype {} but found {}"
              [ADType (dtype self); ADType (np.dtype value)]
       else Ok ());
  Ok value.

Definition generate_value (self : t) : np.ndarray :=
  jnp.zeros (shape self) (dtype self).

End Methods.
End Array.

(** *** [class BoundedArray(Array)] *)
Module BoundedArray.

Record t : Set := mk {
  super : Array.t;
  _minimum : np.ndarray;
  _maximum : np.ndarray;
}.

(** The message for bounds that cross; its two [{}] stand for
    [repr(minimum)] and [repr(maximum)]. *)
Definition crossing_bounds : string :=
  "All values in `minimum` must be less than or equal to their corresponding value in `maximum`, got: "
  +:+ nl_tab +:+ "minimum={}" +:+ nl_tab +:+ "maximum={}".

Section Methods.
Context {J : jnp.Jax} {H : types.Helpers}.

Definition __init__ (shape : list nat) (dtype : np.DType)
    (minimum maximum : np.ndarray) (name : string) : result t :=
  let self := Array.__init__ shape dtype name in
  let minimum := jnp.asarray_dtype minimum dtype in
  let maximum := jnp.asarray_dtype maximum dtype in
  bcast_minimum ← reraise_ValueError "`minimum` is incompatible with `shape`"
                    (jnp.broadcast_to minimum shape);
  bcast_maximum ← reraise_ValueError "`maximum` is incompatible with `shape`"
                    (jnp.broadcast_to maximum shape);
  above ← jnp.greater bcast_minimum bcast_maximum;
  if jnp.any above
  then Raise (ValueError crossing_bounds [AArray minimum; AArray maximum])
  else Ok {| super := self; _minimum := minimum; _maximum := maximum |}.

Definition name (self : t) : string := Array.name (super self).
Definition shape (self : t) : list nat := Array.shape (super self).
Definition dtype (self : t) : np.DType := Array.dtype (super self).
Definition minimum (self : t) : np.ndarray := _minimum self.
Definition maximum (self : t) : np.ndarray := _maximum self.

Definition validate (self : t) (value : np.ndarray) : result np.ndarray :=
  value ← Array.validate (super self) value;
  below ← jnp.less value (minimum self);
  outside ← (if jnp.any below then Ok true
             else above ← jnp.greater value (maximum self); Ok (jnp.any above));
  if outside : bool
  then Array._fail_validation (super self)
         "Values were not all within bounds {} <= {} <= {}"
         [AArray (minimum self); AArray value; AArray (maximum self)]
  else Ok value.

Definition generate_value (self : t) : result np.ndarray :=
  jnp.multiply (jnp.ones (shape self) (dtype self)) (minimum self).

End Methods.
End BoundedArray.

(** *** [class DiscreteArray(BoundedArray)] *)
Module DiscreteArray.

Record t : Set := mk {
  super : BoundedArray.t;
  _num_values : Z;
}.

Section Methods.
Context {J : jnp.Jax} {H : types.Helpers}.

(** [num_values] is a Python [int] here, so that the test of its type is
    passed. *)
Definition __init__ (num_values : Z) (dtype : np.DType) (name : string) : result t :=
  if bool_decide (num_values <= 0)%Z
  then Raise (ValueError "`num_values` must be a positive integer, got {}."
                [AInt num_values])
  else if negb (np.is_integer dtype)
  then Raise (ValueError "`dtype` must be integral, got {}." [ADType dtype])
  else
    let maximum := (num_values - 1)%Z in
    self ← BoundedArray.__init__ [] dtype (jnp.of_int 0) (jnp.of_int maximum) name;
    Ok {| super := self; _num_values := num_values |}.

Definition name (self : t) : string := BoundedArray.name (super self).
Definition shape (self : t) : list nat := BoundedArray.shape (super self).
Definition dtype (self : t) : np.DType := BoundedArray.dtype (super self).
Definition minimum (self : t) : np.ndarray := BoundedArray.minimum (super self).
Definition maximum (self : t) : np.ndarray := BoundedArray.maximum (super self).
Definition num_values (self : t) : Z := _num_values self.

End Methods.
End DiscreteArray.

(** An instance of [Array]: of the class itself or of a subclass. Method
    calls go to the most specific definition. *)
Inductive ArraySpec : Set :=
| IsArray (a : Array.t)
| IsBoundedArray (b : BoundedArray.t)
| IsDiscreteArray (d : DiscreteArray.t).

Definition as_BoundedArray (s : ArraySpec) : option BoundedArray.t :=
  match s with
  | IsArray _ => None
  | IsBoundedArray b => Some b
  | IsDiscreteArray d => Some (DiscreteArray.super d)
  end.

Definition as_Array (s : ArraySpec) : Array.t :=
  match s with
  | IsArray a => a
  | IsBoundedArray b => BoundedArray.super b
  | IsDiscreteArray d => BoundedArray.super (DiscreteArray.super d)
  end.

Section Dispatch.
Context {J : jnp.Jax} {H : types.Helpers}.

Definition name (s : ArraySpec) : string := Array.name (as_Array s).

Definition validate (s : ArraySpec) (value : np.ndarray) : result np.ndarray :=
  match as_BoundedArray s with
  | Some b => BoundedArray.validate b value
  | None => Array.validate (as_Array s) value
  end.

Definition generate_value (s : ArraySpec) : result np.ndarray :=
  match as_BoundedArray s with
  | Some b => BoundedArray.generate_value b
  | None => Ok (Array.generate_value (as_Array s))
  end.

End Dispatch.

(** A [Spec]: an instance of [Array] or of another subclass of [Spec], a
    nested spec, whose class is left open. *)
Inductive Spec (Nested : Type) : Type :=
| Leaf (s : ArraySpec)
| Nest (n : Nested).
Arguments Leaf {Nested} s.
Arguments Nest {Nested} n.

(** [isinstance(spec, DiscreteArray)], [isinstance(spec, BoundedArray)] and
    [isinstance(spec, Array)], with the instance seen at that class. *)
Definition isinstance_DiscreteArray {N} (spec : Spec N) : option DiscreteArray.t :=
  match spec with
  | Leaf (IsDiscreteArray d) => Some d
  | _ => None
  end.

Definition isinstance_BoundedArray {N} (spec : Spec N) : option BoundedArray.t :=
  match spec with
  | Leaf s => as_BoundedArray s
  | Nest _ => None
  end.

Definition isinstance_Array {N} (spec : Spec N) : option Array.t :=
  match spec with
  | Leaf s => Some (as_Array s)
  | Nest _ => None
  end.

Section Conversion.
Context {J : jnp.Jax} {H : types.Helpers} {Nested : Type}.

(** [x if x else None] *)
Definition or_None (x : string) : option string :=
  if bool_decide (x <> "") then Some x else None.

(** The message of the last branch also shows the spec and its class. *)
Definition jumanji_specs_to_dm_env_specs (spec : Spec Nested) : result dm_env.spec :=
  match isinstance_DiscreteArray spec with
  | Some spec =>
      Ok (dm_env.OfDiscreteArray
            (dm_env.mk_DiscreteArray
               (DiscreteArray.num_values spec)
               (DiscreteArray.dtype spec)
               (or_None (DiscreteArray.name spec))))
  | None =>
  match isinstance_BoundedArray spec with
  | Some spec =>
      Ok (dm_env.OfBoundedArray
            (dm_env.mk_BoundedArray
               (BoundedArray.shape spec)
               (BoundedArray.dtype spec)
               (BoundedArray.minimum spec)
               (BoundedArray.maximum spec)
               (or_None (BoundedArray.name spec))))
  | None =>
  match isinstance_Array spec with
  | Some spec =>
      Ok (dm_env.OfArray
            (dm_env.mk_Array
               (Array.shape spec)
               (Array.dtype spec)
               (or_None (Array.name spec))))
  | None =>
      Raise (ValueError
               "spec {} of type {} is not available in a deepmind environment. Please override the observation_spec or action_spec method to output spec of type `dm_env.specs.Array`."
               [])
  end end end.

End Conversion.

End specs.

(** ** [jumanji/jax/specs.py]: the earlier copy of [Array] *)

Module jax_specs.
Module Array.

Record t : Set := mk {
  _name : string;
  _shape : list nat;
  _dtype : np.DType;
}.

Section Methods.
Context {J : jnp.Jax}.

(** [jnp.dtype(dtype)] keeps the type as it is given. *)
Definition __init__ (shape : list nat) (dtype : np.DType) (name : string) : t :=
  {| _name := name; _shape := shape; _dtype := dtype |}.

Definition name (self : t) : string := _name self.
Definition shape (self : t) : list nat := _shape self.
Definition dtype (self : t) : np.DType := _dtype self.

Definition _fail_validation {A} (self : t) (message : string)
    (args : list fmt_arg) : result A :=
  if bool_decide (name self <> "")
  then Raise (ValueError (message +:+ " for spec {}.") (args ++ [AStr (name self)]))
  else Raise (ValueError (message +:+ ".") args).

Definition validate (self : t) (value : np.ndarray) : result np.ndarray :=
  let value := jnp.asarray value in
  _ ← (if bool_decide (np.shape value <> shape self)
       then _fail_validation self "Expected shape {} but found {}"
              [AShape (shape self); AShape (np.shape value)]
       else Ok ());
  _ ← (if bool_decide (np.dtype value <> dtype self)
       then _fail_validation self "Expected dtype {} but found {}"
              [ADType (dtype self); ADType (np.dtype value)]
       else Ok ());
  Ok value.

Definition generate_value (self : t) : np.ndarray :=
  jnp.zeros (shape self) (dtype self).

End Methods.
End Array.
End jax_specs.

(** ** [jumanji/connect4/specs.py] *)

Module connect4.

(** Modelled from the spec: [Observation] of [jumanji/connect4/types.py],
    which is not among the sources; its two fields are those that
    [specs.py] reads and writes. *)
Record Observation : Set := mk_Observation {
  board : np.ndarray;
  action_mask : np.ndarray;
}.

Module ObservationSpec.

Record t : Set := mk {
  _name : string;
  board_obs : specs.ArraySpec;
  action_mask : specs.ArraySpec;
}.

Section Methods.
Context {J : jnp.Jax} {H : types.Helpers}.

Definition nl : string := String (Ascii.ascii_of_nat 10) EmptyString.
Definition tab : string := String (Ascii.ascii_of_nat 9) EmptyString.

Definition __init__ (board_obs action_mask : specs.ArraySpec) : t :=
  let name :=
    "Observation(" +:+ nl +:+
    tab +:+ "board: " +:+ specs.name board_obs +:+ "," +:+ nl +:+
    tab +:+ "action_mask: " +:+ specs.name action_mask +:+ "," +:+ nl +:+
    ")" in
  {| _name := name; board_obs := board_obs; action_mask := action_mask |}.

Definition generate_value (self : t) : result Observation :=
  board ← specs.generate_value (board_obs self);
  action_mask ← specs.generate_value (action_mask self);
  Ok (mk_Observation board action_mask).

Definition validate (self : t) (value : Observation) : result Observation :=
  board ← specs.validate (board_obs self) (connect4.board value);
  action_mask ← specs.validate (action_mask self) (connect4.action_mask value);
  let observation := mk_Observation board action_mask in
  Ok observation.

End Methods.
End ObservationSpec.
End connect4.

(** ** [jumanji/env.py]: the environment interface

    The module is not among the sources. An environment is seen through
    the methods that [wrappers.py] calls. *)

Module env.

(** The types that an environment fixes, the field [key] of its states,
    and the JAX routines over them. *)
Class Signature := {
  State : Type;
  Observation : Type;
  Action : Type;
  PRNGKey : Type;
  Extras : Type;
  NestedSpec : Type;
  (** [state.key] *)
  key : State -> PRNGKey;
  (** the [extras] of a [TimeStep] built without them *)
  default_extras : option Extras;
  (** [jax.random.PRNGKey] and [jax.random.split] *)
  random_PRNGKey : Z -> PRNGKey;
  random_split : PRNGKey -> PRNGKey * PRNGKey;
  (** [jax.vmap] of a [reset] and of a [step] *)
  vmap_reset :
    (PRNGKey -> State * types.TimeStep Observation Extras) ->
    PRNGKey -> State * types.TimeStep Observation Extras;
  vmap_step :
    (State -> Action -> State * types.TimeStep Observation Extras) ->
    State -> Action -> State * types.TimeStep Observation Extras;
}.

Section Environment.
Context {S : Signature}.

Definition TimeStep : Type := types.TimeStep Observation Extras.

(** An instance of a subclass of [Environment] that is not a [Wrapper]:
    its four methods are parameters. *)
Record Environment : Type := mk_Environment {
  reset : PRNGKey -> State * TimeStep;
  step : State -> Action -> State * TimeStep;
  observation_spec : specs.Spec NestedSpec;
  action_spec : specs.Spec NestedSpec;
}.

End Environment.
End env.

(** ** [jumanji/wrappers.py] *)

Module wrappers.
Section Wrappers.
Context {J : jnp.Jax} {H : types.Helpers} {S : env.Signature}.

Local Abbreviation State := env.State.
Local Abbreviation Action := env.Action.
Local Abbreviation PRNGKey := env.PRNGKey.
Local Abbreviation TimeStep := env.TimeStep.

(** An environment object: an environment of its own, or an instance of
    [Wrapper] or of one of its subclasses around another one ([_env]); a
    [MultiToSingleWrapper] also stores its two aggregators. *)
Inductive Env : Type :=
| Base (e : env.Environment)
| Wrapper (_env : Env)
| MultiToSingleWrapper (_env : Env)
    (_reward_aggregator _discount_aggregator : np.ndarray -> np.ndarray)
| VmapWrapper (_env : Env)
| AutoResetWrapper (_env : Env).

(** [MultiToSingleWrapper(env)] with the default aggregators. *)
Definition MultiToSingleWrapper__init__ (env : Env) : Env :=
  MultiToSingleWrapper env jnp.sum jnp.max.

(** [MultiToSingleWrapper._aggregate_timestep] *)
Definition _aggregate_timestep
    (_reward_aggregator _discount_aggregator : np.ndarray -> np.ndarray)
    (timestep : TimeStep) : TimeStep :=
  {| types.step_type := types.step_type timestep;
     types.observation := types.observation timestep;
     types.reward := _reward_aggregator (types.reward timestep);
     types.discount := _discount_aggregator (types.discount timestep);
     types.extras := env.default_extras |}.

(** [AutoResetWrapper.auto_reset], over the [reset] of the wrapped
    environment. *)
Definition auto_reset (env_reset : PRNGKey -> State * TimeStep)
    (state : State) (timestep : TimeStep) : State * TimeStep :=
  let '(state, reset_timestep) := env_reset (env.key state) in
  let timestep :=
    {| types.step_type := types.step_type reset_timestep;
       types.observation := types.observation reset_timestep;
       types.reward := types.reward timestep;
       types.discount := types.discount timestep;
       types.extras := types.extras timestep |} in
  (state, timestep).

(** [jax.lax.cond(pred, true_fun, false_fun, *operands)] *)
Definition cond {A B C} (pred : bool) (true_fun false_fun : A -> B -> C)
    (x : A) (y : B) : C :=
  if pred then true_fun x y else false_fun x y.

(** [reset]: of [Wrapper], overridden by [MultiToSingleWrapper] and by
    [VmapWrapper], inherited by [AutoResetWrapper]. *)
Fixpoint reset (self : Env) (key : PRNGKey) : State * TimeStep :=
  match self with
  | Base e => env.reset e key
  | Wrapper _env => reset _env key
  | MultiToSingleWrapper _env ra da =>
      let '(state, timestep) := reset _env key in
      let timestep := _aggregate_timestep ra da timestep in
      (state, timestep)
  | VmapWrapper _env =>
      let '(state, timestep) := env.vmap_reset (reset _env) key in
      (state, timestep)
  | AutoResetWrapper _env => reset _env key
  end.

(** [step]: of [Wrapper], overridden by the three subclasses. *)
Fixpoint step (self : Env) (state : State) (action : Action) : State * TimeStep :=
  match self with
  | Base e => env.step e state action
  | Wrapper _env => step _env state action
  | MultiToSingleWrapper _env ra da =>
      let '(state, timestep) := step _env state action in
      let timestep := _aggregate_timestep ra da timestep in
      (state, timestep)
  | VmapWrapper _env =>
      let '(state, timestep) := env.vmap_step (step _env) state action in
      (state, timestep)
  | AutoResetWrapper _env =>
      let '(state, timestep) := step _env state action in
      let '(state, timestep) :=
        cond (types.last timestep) (auto_reset (reset _env)) (fun x y => (x, y))
          state timestep in
      (state, timestep)
  end.

(** [observation_spec] and [action_spec] of [Wrapper], inherited by every
    subclass. *)
Fixpoint observation_spec (self : Env) : specs.Spec env.NestedSpec :=
  match self with
  | Base e => env.observation_spec e
  | Wrapper _env | MultiToSingleWrapper _env _ _ | VmapWrapper _env
  | AutoResetWrapper _env => observation_spec _env
  end.

Fixpoint action_spec (self : Env) : specs.Spec env.NestedSpec :=
  match self with
  | Base e => env.action_spec e
  | Wrapper _env | MultiToSingleWrapper _env _ _ | VmapWrapper _env
  | AutoResetWrapper _env => action_spec _env
  end.

(** [unwrapped] of [Wrapper], over the property of the same name of
    [Environment], which is a parameter. *)
Section Unwrapped.
Variable Environment_unwrapped : env.Environment -> Env.

Fixpoint unwrapped (self : Env) : Env :=
  match self with
  | Base e => Environment_unwrapped e
  | Wrapper _env | MultiToSingleWrapper _env _ _ | VmapWrapper _env
  | AutoResetWrapper _env => unwrapped _env
  end.

End Unwrapped.

(** The environment at the bottom of a stack of wrappers. *)
Fixpoint innermost (self : Env) : env.Environment :=
  match self with
  | Base e => e
  | Wrapper _env | MultiToSingleWrapper _env _ _ | VmapWrapper _env
  | AutoResetWrapper _env => innermost _env
  end.

(** *** [class JumanjiToDMEnvWrapper(dm_env.Environment)]

    The object keeps a key and the current state, which [reset] and [step]
    overwrite: a method returns its result and the object after the call.
    [_state] is unset until the first [reset]. *)
Record JumanjiToDMEnvWrapper : Type := mk_JumanjiToDMEnvWrapper {
  dm_env_ : Env;
  dm_key : PRNGKey;
  dm_state : option State;
}.

Definition JumanjiToDMEnvWrapper__init__ (env : Env) (key : option PRNGKey)
    : JumanjiToDMEnvWrapper :=
  {| dm_env_ := env;
     dm_key := match key with
               | None => env.random_PRNGKey 0
               | Some key => key
               end;
     dm_state := None |}.

(** [jit(f)] computes what [f] computes. *)
Definition jit {A} (f : A) : A := f.

Definition dm_reset (self : JumanjiToDMEnvWrapper)
    : dm_env.TimeStep env.Observation * JumanjiToDMEnvWrapper :=
  let '(reset_key, _key) := env.random_split (dm_key self) in
  let '(_state, timestep) := jit (reset (dm_env_ self)) reset_key in
  (dm_env.restart (types.observation timestep),
   {| dm_env_ := dm_env_ self; dm_key := _key; dm_state := Some _state |}).

Definition dm_step (self : JumanjiToDMEnvWrapper) (action : Action)
    : result (dm_env.TimeStep env.Observation * JumanjiToDMEnvWrapper) :=
  match dm_state self with
  | None =>
      Raise (AttributeError "'JumanjiToDMEnvWrapper' object has no attribute '_state'" [])
  | Some state =>
      let '(_state, timestep) := jit (step (dm_env_ self)) state action in
      Ok (dm_env.mk_TimeStep
            (types.step_type timestep)
            (Some (types.reward timestep))
            (Some (types.discount timestep))
            (types.observation timestep),
          {| dm_env_ := dm_env_ self; dm_key := dm_key self;
             dm_state := Some _state |})
  end.

Definition dm_observation_spec (self : JumanjiToDMEnvWrapper) : result dm_env.spec :=
  specs.jumanji_specs_to_dm_env_specs (observation_spec (dm_env_ self)).

Definition dm_action_spec (self : JumanjiToDMEnvWrapper) : result dm_env.spec :=
  specs.jumanji_specs_to_dm_env_specs (action_spec (dm_env_ self)).

Definition dm_unwrapped (self : JumanjiToDMEnvWrapper) : Env := dm_env_ self.

End Wrappers.
End wrappers.

(** ** [jumanji/environments/routing/connector/env.py] *)

Module connector.

(** What [env.py] imports from the modules [types], [utils], [generator]
    of the connector environment and from [jumanji.types], none of which is
    among the sources. *)
Class Deps := {
  PRNGKey : Type;
  Grid : Type;
  Agent : Type;
  Position : Type;
  Extras : Type;
  (** [agent.position] *)
  position : Agent -> Position;
  (** [utils.move], [utils.is_valid_position], [utils.switch_perspective] *)
  move : Position -> nat -> Position;
  is_valid_position : Grid -> Agent -> Position -> bool;
  switch_perspective : Grid -> nat -> nat -> Grid;
  (** [jax.random.split] *)
  random_split : PRNGKey -> PRNGKey * PRNGKey;
  (** [jumanji.types.restart(observation, shape)] *)
  restart : forall Observation : Type,
    Observation -> list nat -> types.TimeStep Observation Extras;
}.

Section Connector.
Context {J : jnp.Jax} {D : Deps}.

(** [types.State]; [agents] holds one [Agent] for each agent. *)
Record State : Type := mk_State {
  key : PRNGKey;
  grid : Grid;
  step_count : np.ndarray;
  agents : list Agent;
}.

(** [types.Observation]: one grid and one action mask for each agent. *)
Record Observation : Type := mk_Observation {
  obs_grid : list Grid;
  action_mask : list np.ndarray;
  obs_step : np.ndarray;
}.

Definition TimeStep : Type := types.TimeStep Observation Extras.

(** The attributes of a [Connector] that its methods read; [_generator]
    is the instance generator. *)
Record t : Type := mk {
  _size : nat;
  _num_agents : nat;
  _horizon : Z;
  _generator : PRNGKey -> State;
}.

Definition agent_ids (self : t) : list nat := jnp.arange 0 (_num_agents self).

(** [Connector._get_action_mask] *)
Definition _get_action_mask (self : t) (agent : Agent) (grid : Grid) : np.ndarray :=
  let actions := jnp.arange 1 5 in
  let is_valid_action (action : nat) : np.scalar :=
    let agent_pos := move (position agent) action in
    np.SBool (is_valid_position grid agent agent_pos) in
  let mask := jnp.ones [5] np.bool_ in
  let mask := jnp.at_set mask actions (map is_valid_action actions) in
  mask.

(** [Connector._obs_from_grid] *)
Definition _obs_from_grid (self : t) (grid : Grid) : list Grid :=
  map (fun agent_id => switch_perspective grid agent_id (_num_agents self))
    (agent_ids self).

(** [jnp.int32(0)] *)
Definition int32_0 : np.ndarray :=
  {| np.shape := []; np.dtype := np.int32; np.data := [np.SInt 0] |}.

(** [Connector.reset] *)
Definition reset (self : t) (key : PRNGKey) : State * TimeStep :=
  let '(generator_key, key) := random_split key in
  let state := _generator self generator_key in
  let action_mask :=
    map (fun agent => _get_action_mask self agent (grid state)) (agents state) in
  let observation :=
    {| obs_grid := _obs_from_grid self (grid state);
       action_mask := action_mask;
       obs_step := step_count state |} in
  let timestep := restart Observation observation [_num_agents self] in
  ({| key := key; grid := grid state; step_count := int32_0;
      agents := agents state |},
   timestep).

(** [Connector.step]: the body of the method is [pass], the call returns
    [None]. *)
Definition step (self : t) (state : State) (action : np.ndarray)
    : option (State * TimeStep) :=
  None.

End Connector.
End connector.

(** ** Instances for the examples *)

Module examples.

(** JAX without 64-bit mode. For the examples a conversion keeps a value
    that fits the new type and the reductions are those of integer
    arrays. *)
Definition int_of (x : np.scalar) : Z :=
  match x with np.SInt z => z | np.SBool b => Z.b2z b | np.SFloat _ => 0%Z end.

Definition jax32 : jnp.Jax :=
  {| jnp.jax_enable_x64 := false;
     jnp.promote_types := fun a b => if np.is_integer a then b else a;
     jnp.convert_scalar := fun _ d x => if np.has_dtype d x then x else jnp.zero d;
     jnp.sum := fun a =>
       {| np.shape := []; np.dtype := np.dtype a;
          np.data := [np.SInt (foldr Z.add 0%Z (map int_of (np.data a)))] |};
     jnp.max := fun a =>
       {| np.shape := []; np.dtype := np.dtype a;
          np.data := [np.SInt (foldr Z.max 0%Z (map int_of (np.data a)))] |} |}.

Definition helpers : types.Helpers :=
  {| types.get_valid_dtype := np.canonicalize_dtype false |}.

(** A counting environment: states, keys, actions and observations are
    integers, the key of a state is the state itself; an episode ends when
    the count reaches 3. *)
Definition counting : env.Signature :=
  {| env.State := Z; env.Observation := Z; env.Action := Z; env.PRNGKey := Z;
     env.Extras := unit; env.NestedSpec := Empty_set;
     env.key := fun s => s;
     env.default_extras := None;
     env.random_PRNGKey := fun seed => seed;
     env.random_split := fun k => (2 * k, 2 * k + 1)%Z;
     env.vmap_reset := fun f => f;
     env.vmap_step := fun f => f |}.

Definition scalar_array (d : np.DType) (x : np.scalar) : np.ndarray :=
  {| np.shape := []; np.dtype := d; np.data := [x] |}.

Definition mk_ndarray_int32 (z : Z) : np.ndarray :=
  {| np.shape := []; np.dtype := np.int32; np.data := [np.SInt z] |}.

Definition int32_array (l : list Z) : np.ndarray :=
  {| np.shape := [length l]; np.dtype := np.int32; np.data := map np.SInt l |}.

Definition counter : env.Environment (S := counting) :=
  env.mk_Environment (S := counting)
    (fun k : Z =>
       (k, types.mk_TimeStep types.FIRST (int32_array [0; 0]%Z) (int32_array [1; 1]%Z)
             k None))
    (fun s a : Z =>
       ((s + a)%Z,
        types.mk_TimeStep (if (3 <=? s + a)%Z then types.LAST else types.MID)
          (int32_array [a; 1%Z]) (int32_array [1; 0]%Z) (s + a)%Z (Some ())))
    (specs.Leaf (specs.IsArray (specs.Array.mk "count" [] np.int32)))
    (specs.Leaf (specs.IsArray (specs.Array.mk "action" [] np.int32))).

(** A square grid seen through its side; an agent is its position, row
    and column; a position is valid when it lies on the grid. *)
Definition on_grid : connector.Deps :=
  {| connector.PRNGKey := Z; connector.Grid := Z; connector.Agent := Z * Z;
     connector.Position := Z * Z; connector.Extras := unit;
     connector.position := fun agent => agent;
     connector.move := fun '(row, col) action =>
       match action with
       | 1 => (row - 1, col)%Z | 2 => (row, col + 1)%Z
       | 3 => (row + 1, col)%Z | 4 => (row, col - 1)%Z
       | _ => (row, col)
       end;
     connector.is_valid_position := fun side _ '(row, col) =>
       (0 <=? row)%Z && (row <? side)%Z && (0 <=? col)%Z && (col <? side)%Z;
     connector.switch_perspective := fun grid _ _ => grid;
     connector.random_split := fun k => (2 * k, 2 * k + 1)%Z;
     connector.restart := fun _ observation shp =>
       types.mk_TimeStep types.FIRST (jnp.zeros (J := jax32) shp np.float64)
         (jnp.ones (J := jax32) shp np.float64) observation None |}.

Definition corner_connector : connector.t (D := on_grid) :=
  connector.mk (D := on_grid) 8 1 50%Z
    (fun k : Z =>
       connector.mk_State (D := on_grid) k 8%Z
         (mk_ndarray_int32 0) [(0, 0)%Z]).

End examples.

(** ** Vocabulary of the statements *)

Module conformance.
Section Conformance.
Context {J : jnp.Jax} {H : types.Helpers}.

(** [p] holds of the elements of [a] and [b] at every place. *)
Definition pointwise (p : np.scalar -> np.scalar -> bool) (a b : np.ndarray) : Prop :=
  forall i x y,
    np.data a !! i = Some x -> np.data b !! i = Some y -> p x y = true.

(** No element of [v] is below the element of [lo] at its place or above
    the one of [hi]: what [BoundedArray.validate] tests. *)
Definition within (v lo hi : np.ndarray) : Prop :=
  pointwise (fun x l => negb (jnp.scalar_lt x l)) v lo /\
  pointwise (fun x h => negb (jnp.scalar_gt x h)) v hi.

(** [lo <= v <= hi] at every place. *)
Definition between (v lo hi : np.ndarray) : Prop :=
  pointwise jnp.scalar_le lo v /\ pointwise jnp.scalar_le v hi.

(** Every element of [v] is ordered with its two bounds: they are of one
    kind and none of them is NaN. *)
Definition ordered (v lo hi : np.ndarray) : Prop :=
  pointwise jnp.comparable v lo /\ pointwise jnp.comparable v hi.

(** Some element of [lo] exceeds the element of [hi] at its place. *)
Definition exceeds (lo hi : np.ndarray) : Prop :=
  exists i l h,
    np.data lo !! i = Some l /\ np.data hi !! i = Some h /\
    jnp.scalar_gt l h = true.

(** A positive element, as the discount of an agent that is alive. *)
Definition positive (x : np.scalar) : bool :=
  match x with
  | np.SBool b => b
  | np.SInt z => (0 <? z)%Z
  | np.SFloat f =>
      match SFcompare (S754_zero false) f with Some Lt => true | _ => false end
  end.

(** [m] holds one element, ordered with every element of [a] and below
    none of them: what the maximum of [a] is. *)
Definition maximum_of (m a : np.ndarray) : Prop :=
  exists y, np.data m = [y] /\
            forall x, x ∈ np.data a ->
                      jnp.comparable y x = true /\ jnp.scalar_lt y x = false.

(** [m] holds one element, which is not zero. *)
Definition nonzero (m : np.ndarray) : Prop :=
  exists y, np.data m = [y] /\ jnp.truthy y = true.

(** The specs that the constructors make from arrays that are well
    formed. *)
Inductive constructed : specs.ArraySpec -> Prop :=
| constructed_Array shape dtype name :
    constructed (specs.IsArray (specs.Array.__init__ shape dtype name))
| constructed_BoundedArray shape dtype minimum maximum name b :
    np.wf minimum -> np.wf maximum ->
    specs.BoundedArray.__init__ shape dtype minimum maximum name = Ok b ->
    constructed (specs.IsBoundedArray b)
| constructed_DiscreteArray num_values dtype name d :
    np.wf (jnp.of_int (num_values - 1)) ->
    specs.DiscreteArray.__init__ num_values dtype name = Ok d ->
    constructed (specs.IsDiscreteArray d).

(** Validation accepts the value that the spec generates and returns
    it. *)
Definition generates_conforming (s : specs.ArraySpec) : Prop :=
  exists v, specs.generate_value s = Ok v /\ specs.validate s v = Ok v.

(** What the statements take for granted of the parameters:
    [get_valid_dtype] returns the type that JAX makes of the one asked
    for, and a conversion yields a value of the type converted to. *)
Definition valid_dtypes : Prop :=
  forall d, types.get_valid_dtype d = jnp.canonicalize d.

Definition conversions_typed : Prop :=
  forall d d' x, np.has_dtype d x = true ->
                 np.has_dtype d' (jnp.convert_scalar d d' x) = true.

End Conformance.
End conformance.

(** ** [jumanji/specs.py], continued: pickling and [replace] *)

Module pickling.
Section Pickling.
Context {J : jnp.Jax} {H : types.Helpers}.

(** What [__reduce__] returns: a class and the arguments of a call of
    it. *)
Inductive reduced : Set :=
| Reduce_Array (shape : list nat) (dtype : np.DType) (name : string)
| Reduce_BoundedArray (shape : list nat) (dtype : np.DType)
    (minimum maximum : np.ndarray) (name : string)
| Reduce_DiscreteArray (num_values : Z) (dtype : np.DType) (name : string).

Definition Array__reduce__ (self : specs.Array.t) : reduced :=
  Reduce_Array (specs.Array._shape self) (specs.Array._dtype self)
    (specs.Array._name self).

Definition BoundedArray__reduce__ (self : specs.BoundedArray.t) : reduced :=
  Reduce_BoundedArray
    (specs.Array._shape (specs.BoundedArray.super self))
    (specs.Array._dtype (specs.BoundedArray.super self))
    (specs.BoundedArray._minimum self)
    (specs.BoundedArray._maximum self)
    (specs.Array._name (specs.BoundedArray.super self)).

Definition DiscreteArray__reduce__ (self : specs.DiscreteArray.t) : reduced :=
  Reduce_DiscreteArray
    (specs.DiscreteArray._num_values self)
    (specs.Array._dtype (specs.BoundedArray.super (specs.DiscreteArray.super self)))
    (specs.Array._name (specs.BoundedArray.super (specs.DiscreteArray.super self))).

Definition __reduce__ (s : specs.ArraySpec) : reduced :=
  match s with
  | specs.IsArray a => Array__reduce__ a
  | specs.IsBoundedArray b => BoundedArray__reduce__ b
  | specs.IsDiscreteArray d => DiscreteArray__reduce__ d
  end.

(** Unpickling calls the class on the arguments. *)
Definition reconstruct (r : reduced) : result specs.ArraySpec :=
  match r with
  | Reduce_Array shape dtype name =>
      Ok (specs.IsArray (specs.Array.__init__ shape dtype name))
  | Reduce_BoundedArray shape dtype minimum maximum name =>
      b ← specs.BoundedArray.__init__ shape dtype minimum maximum name;
      Ok (specs.IsBoundedArray b)
  | Reduce_DiscreteArray num_values dtype name =>
      d ← specs.DiscreteArray.__init__ num_values dtype name;
      Ok (specs.IsDiscreteArray d)
  end.

(** [Array.replace] with keyword arguments: they are those of the
    constructor of the class of [self], each one given or not;
    [_get_constructor_kwargs] reads the others from the attributes of
    [self], and the class is called on the whole. *)
Definition Array_replace (self : specs.Array.t)
    (shape : option (list nat)) (dtype : option np.DType) (name : option string)
    : specs.Array.t :=
  specs.Array.__init__
    (default (specs.Array.shape self) shape)
    (default (specs.Array.dtype self) dtype)
    (default (specs.Array.name self) name).

Definition BoundedArray_replace (self : specs.BoundedArray.t)
    (shape : option (list nat)) (dtype : option np.DType)
    (minimum maximum : option np.ndarray) (name : option string)
    : result specs.BoundedArray.t :=
  specs.BoundedArray.__init__
    (default (specs.BoundedArray.shape self) shape)
    (default (specs.BoundedArray.dtype self) dtype)
    (default (specs.BoundedArray.minimum self) minimum)
    (default (specs.BoundedArray.maximum self) maximum)
    (default (specs.BoundedArray.name self) name).

Definition DiscreteArray_replace (self : specs.DiscreteArray.t)
    (num_values : option Z) (dtype : option np.DType) (name : option string)
    : result specs.DiscreteArray.t :=
  specs.DiscreteArray.__init__
    (default (specs.DiscreteArray.num_values self) num_values)
    (default (specs.DiscreteArray.dtype self) dtype)
    (default (specs.DiscreteArray.name self) name).

End Pickling.
End pickling.

(** ** [jumanji/connect4/specs.py], continued: [replace] *)

Module connect4_replace.
Section Replace.
Context {J : jnp.Jax} {H : types.Helpers}.

Definition replace (self : connect4.ObservationSpec.t)
    (board_obs action_mask : option specs.ArraySpec) : connect4.ObservationSpec.t :=
  connect4.ObservationSpec.__init__
    (default (connect4.ObservationSpec.board_obs self) board_obs)
    (default (connect4.ObservationSpec.action_mask self) action_mask).

End Replace.
End connect4_replace.

(** ** [jumanji/specs.py], continued: conversion to [gym] spaces *)

Module gym.

(** What a space of [gym.spaces] holds. A bound of a [Box] that is a
    Python [float] is the array of no dimension that holds it. *)
#[warnings="-register-all"]
Inductive Space : Set :=
| Discrete (n start : Z)
| Box (low high : np.ndarray) (shape : list nat) (dtype : np.DType)
| Dict (spaces : list (string * Space)).

(** The classes of [gym.spaces], which are no part of this repository:
    a call of one of them returns a space or raises ([Box] does for
    bounds that its dtype cannot hold), and the space is what the class
    makes of its arguments ([Box] may replace its bounds, [Dict] may
    order its entries). [Discrete] is called with [n] and [start], [Box]
    with [low], [high], [shape] and [dtype], [Dict] with the entries of a
    dictionary in the order of their insertion. *)
Class Constructors := {
  spaces_Discrete : Z -> Z -> result Space;
  spaces_Box : np.ndarray -> np.ndarray -> list nat -> np.DType -> result Space;
  spaces_Dict : list (string * Space) -> result Space;
}.

(** A spec as the conversion sees it: an instance of [Array], or an
    instance of another subclass of [Spec] with its attributes
    ([vars(spec)], in the order of their assignment), each of which is a
    [Spec] or is not. *)
#[warnings="-register-all"]
Inductive SpecObject : Set :=
| OfArraySpec (s : specs.ArraySpec)
| OfNested (vars : list (string * option SpecObject)).

Definition minus_inf : np.ndarray :=
  {| np.shape := []; np.dtype := np.float64;
     np.data := [np.SFloat (S754_infinity true)] |}.

Definition plus_inf : np.ndarray :=
  {| np.shape := []; np.dtype := np.float64;
     np.data := [np.SFloat (S754_infinity false)] |}.

(** [np.broadcast_to] stretches an array as [jnp.broadcast_to] does; the
    message of its [ValueError] is its own. *)
Definition np_broadcast_to (a : np.ndarray) (shape : list nat) : result np.ndarray :=
  match jnp.broadcast_to a shape with
  | Ok a => Ok a
  | Raise _ =>
      Raise (ValueError
               "operands could not be broadcast together with remapped shapes [original->remapped]: {} and requested shape {}"
               [AShape (np.shape a); AShape shape])
  end.

Section Conversion.
Context {J : jnp.Jax} {H : types.Helpers} {G : Constructors}.

(** The dictionary comprehension over [vars(spec).items()]: the
    attributes that are specs are converted, the others are left out. *)
Definition convert_vars (convert : SpecObject -> result Space)
    : list (string * option SpecObject) -> result (list (string * Space)) :=
  fix items l :=
    match l with
    | [] => Ok []
    | (key, Some value) :: l =>
        space ← convert value;
        rest ← items l;
        Ok ((key, space) :: rest)
    | (_, None) :: l => items l
    end.

Fixpoint jumanji_specs_to_gym_spaces (spec : SpecObject) : result Space :=
  match spec with
  | OfArraySpec (specs.IsDiscreteArray spec) =>
      spaces_Discrete (specs.DiscreteArray.num_values spec) 0
  | OfArraySpec s =>
      match specs.as_BoundedArray s with
      | Some spec =>
          low ← np_broadcast_to (specs.BoundedArray.minimum spec)
                  (specs.BoundedArray.shape spec);
          high ← np_broadcast_to (specs.BoundedArray.maximum spec)
                   (specs.BoundedArray.shape spec);
          spaces_Box low high (specs.BoundedArray.shape spec)
            (specs.BoundedArray.dtype spec)
      | None =>
          let spec := specs.as_Array s in
          spaces_Box minus_inf plus_inf (specs.Array.shape spec)
            (specs.Array.dtype spec)
      end
  | OfNested vars =>
      spaces ← convert_vars jumanji_specs_to_gym_spaces vars;
      spaces_Dict spaces
  end.

(** The conversion to [gym] agrees with a spec of [dm_env]: it is the
    call of the class of the same kind on the fields of that spec, a
    positive number of values counted from 0, or a shape and a dtype with
    the bounds stretched to the shape and not crossing, or with no
    bounds. *)
Definition agree (d : dm_env.spec) (converted : result Space) : Prop :=
  match d with
  | dm_env.OfDiscreteArray d =>
      (0 < dm_env.num_values d)%Z
      /\ converted = spaces_Discrete (dm_env.num_values d) 0
  | dm_env.OfBoundedArray b =>
      exists low high,
        np_broadcast_to (dm_env.minimum b) (dm_env.b_shape b) = Ok low
        /\ np_broadcast_to (dm_env.maximum b) (dm_env.b_shape b) = Ok high
        /\ ~ conformance.exceeds low high
        /\ converted = spaces_Box low high (dm_env.b_shape b) (dm_env.b_dtype b)
  | dm_env.OfArray a =>
      converted = spaces_Box minus_inf plus_inf (dm_env.shape a) (dm_env.dtype a)
  end.

(** The names of the attributes that are specs. *)
Definition spec_keys (vars : list (string * option SpecObject)) : list string :=
  omap (fun kv => match kv.2 with Some _ => Some kv.1 | None => None end) vars.

End Conversion.

End gym.

(** An instance for the examples: classes that keep their arguments as
    they are given, as [gym.spaces] does for a float dtype. *)
Module gym_examples.

Definition spaces : gym.Constructors :=
  {| gym.spaces_Discrete := fun n start => Ok (gym.Discrete n start);
     gym.spaces_Box := fun low high shape dtype => Ok (gym.Box low high shape dtype);
     gym.spaces_Dict := fun spaces => Ok (gym.Dict spaces) |}.

End gym_examples.

(** ** [jumanji/wrappers.py], continued: [jumanji_to_gym_obs] *)

Module gym_obs.

(** A Python object as the conversion sees it: a jax array, an object
    with a [__dict__] (its [vars]), an object with [_asdict] and no
    [__dict__] (its fields), or another object. *)
#[warnings="-register-all"]
Inductive PyObject : Set :=
| JaxArray (a : np.ndarray)
| HasDict (vars : list (string * PyObject))
| HasAsdict (fields : list (string * PyObject))
| Other.

(** A numpy array or a nested dictionary of them. *)
#[warnings="-register-all"]
Inductive GymObservation : Set :=
| Array (a : np.ndarray)
| Dictionary (items : list (string * GymObservation)).

(** The result of the conversion, or [NotImplementedError]. *)
Inductive converted (A : Type) : Type :=
| Converted (a : A)
| NotImplementedError (text : string).
Arguments Converted {A} a.
Arguments NotImplementedError {A} text.

Definition not_implemented : string :=
  "Conversion only implemented for JAX pytrees with (possibly nested) containers that either have the `__dict__` or `_asdict` methods implemented.".

(** The dictionary comprehension over the items of a container. *)
Definition convert_items (convert : PyObject -> converted GymObservation)
    : list (string * PyObject) -> converted (list (string * GymObservation)) :=
  fix items l :=
    match l with
    | [] => Converted []
    | (key, value) :: l =>
        match convert value with
        | Converted v =>
            match items l with
            | Converted rest => Converted ((key, v) :: rest)
            | NotImplementedError text => NotImplementedError text
            end
        | NotImplementedError text => NotImplementedError text
        end
    end.

Fixpoint jumanji_to_gym_obs (observation : PyObject) : converted GymObservation :=
  match observation with
  | JaxArray a => Converted (Array a)
  | HasDict vars =>
      match convert_items jumanji_to_gym_obs vars with
      | Converted d => Converted (Dictionary d)
      | NotImplementedError text => NotImplementedError text
      end
  | HasAsdict fields =>
      match convert_items jumanji_to_gym_obs fields with
      | Converted d => Converted (Dictionary d)
      | NotImplementedError text => NotImplementedError text
      end
  | Other => NotImplementedError not_implemented
  end.

(** The arrays of an object, each with the names that lead to it, in
    order; likewise for an observation of [gym]. *)
Definition leaves_under {A} (leaves : A -> list (list string * np.ndarray))
    : list (string * A) -> list (list string * np.ndarray) :=
  fix under l :=
    match l with
    | [] => []
    | (key, value) :: l =>
        (map (fun pa => (key :: pa.1, pa.2)) (leaves value) ++ under l)%list
    end.

Fixpoint leaves (o : PyObject) : list (list string * np.ndarray) :=
  match o with
  | JaxArray a => [([], a)]
  | HasDict vars => leaves_under leaves vars
  | HasAsdict fields => leaves_under leaves fields
  | Other => []
  end.

Fixpoint gym_leaves (o : GymObservation) : list (list string * np.ndarray) :=
  match o with
  | Array a => [([], a)]
  | Dictionary items => leaves_under gym_leaves items
  end.

(** No part of the object is of a kind that the conversion does not
    know. *)
Definition all_items (p : PyObject -> bool) : list (string * PyObject) -> bool :=
  fix all l :=
    match l with
    | [] => true
    | (_, value) :: l => p value && all l
    end.

Fixpoint supported (o : PyObject) : bool :=
  match o with
  | JaxArray _ => true
  | HasDict vars => all_items supported vars
  | HasAsdict fields => all_items supported fields
  | Other => false
  end.

(** Induction on an object and on the objects that it holds. *)
Fixpoint PyObject_nested_ind (P : PyObject -> Prop)
    (Harray : forall a, P (JaxArray a))
    (Hdict : forall vars, Forall (fun kv => P kv.2) vars -> P (HasDict vars))
    (Hasdict : forall fields, Forall (fun kv => P kv.2) fields ->
                              P (HasAsdict fields))
    (Hother : P Other)
    (o : PyObject) : P o :=
  let all :=
    fix all (l : list (string * PyObject)) : Forall (fun kv => P kv.2) l :=
      match l with
      | [] => List.Forall_nil _
      | (key, value) :: l =>
          List.Forall_cons _ (key, value) l
            (PyObject_nested_ind P Harray Hdict Hasdict Hother value) (all l)
      end in
  match o with
  | JaxArray a => Harray a
  | HasDict vars => Hdict vars (all vars)
  | HasAsdict fields => Hasdict fields (all fields)
  | Other => Hother
  end.

End gym_obs.

(** ** Vocabulary of the statements, continued *)

Module conversions.
Section Conversions.
Context {J : jnp.Jax}.

(** A conversion keeps an integer that the type converted to holds. *)
Definition keeps_integers : Prop :=
  forall d d' z, np.has_dtype d' (np.SInt z) = true ->
                 jnp.convert_scalar d d' (np.SInt z) = np.SInt z.

End Conversions.
End conversions.

(** ** [jumanji/wrappers.py], continued: episodes through
    [JumanjiToDMEnvWrapper] *)

Module episodes.
Section Episodes.
Context {J : jnp.Jax} {H : types.Helpers} {S : env.Signature}.

(** The state that an environment reaches from [state] under a list of
    actions, and the timesteps on the way. *)
Definition run (e : wrappers.Env) (state : env.State) (actions : list env.Action)
    : env.State :=
  foldl (fun state action => (wrappers.step e state action).1) state actions.

Fixpoint trace (e : wrappers.Env) (state : env.State) (actions : list env.Action)
    : list env.TimeStep :=
  match actions with
  | [] => []
  | action :: actions =>
      let '(state, timestep) := wrappers.step e state action in
      timestep :: trace e state actions
  end.

(** The [dm_env.TimeStep] that [JumanjiToDMEnvWrapper.step] makes of a
    timestep. *)
Definition dm_timestep (timestep : env.TimeStep) : dm_env.TimeStep env.Observation :=
  dm_env.mk_TimeStep
    (types.step_type timestep)
    (Some (types.reward timestep))
    (Some (types.discount timestep))
    (types.observation timestep).

(** Calls of [step] on one wrapper, one for each action; the first
    exception ends them. *)
Fixpoint dm_steps (self : wrappers.JumanjiToDMEnvWrapper) (actions : list env.Action)
    : result (list (dm_env.TimeStep env.Observation) * wrappers.JumanjiToDMEnvWrapper) :=
  match actions with
  | [] => Ok ([], self)
  | action :: actions =>
      r ← wrappers.dm_step self action;
      rest ← dm_steps r.2 actions;
      Ok (r.1 :: rest.1, rest.2)
  end.

End Episodes.
End episodes.

(** ** [jumanji/wrappers.py], continued: [JumanjiToGymWrapper] *)

Module gym_wrapper.
Section GymWrapper.
Context {J : jnp.Jax} {H : types.Helpers} {S : env.Signature}
  {G : gym.Constructors}.

(** How Python sees the values of the environment: the attributes of a
    nested spec and the container that an observation is. *)
Variable vars : env.NestedSpec -> list (string * option gym.SpecObject).
Variable py_object : env.Observation -> gym_obs.PyObject.

Definition spec_object (spec : specs.Spec env.NestedSpec) : gym.SpecObject :=
  match spec with
  | specs.Leaf s => gym.OfArraySpec s
  | specs.Nest n => gym.OfNested (vars n)
  end.

(** The attributes of the object. [_state] is [None] until the first
    [reset]; [_reset] and [_step] are the jitted methods of [_env]. *)
Record JumanjiToGymWrapper : Type := mk {
  _env : wrappers.Env;
  metadata : list (string * string);
  _key : env.PRNGKey;
  backend : option string;
  _state : option env.State;
  observation_space : gym.Space;
  action_space : gym.Space;
}.

Definition __init__ (env : wrappers.Env) (seed : Z) (backend : option string)
    : result JumanjiToGymWrapper :=
  let _key := env.random_PRNGKey seed in
  observation_space ← gym.jumanji_specs_to_gym_spaces
                        (spec_object (wrappers.observation_spec env));
  action_space ← gym.jumanji_specs_to_gym_spaces
                   (spec_object (wrappers.action_spec env));
  Ok {| _env := env; metadata := []; _key := _key; backend := backend;
        _state := None; observation_space := observation_space;
        action_space := action_space |}.

(** [seed] returns nothing and overwrites the key. *)
Definition seed (self : JumanjiToGymWrapper) (seed : Z) : JumanjiToGymWrapper :=
  {| _env := _env self; metadata := metadata self;
     _key := env.random_PRNGKey seed; backend := backend self;
     _state := _state self; observation_space := observation_space self;
     action_space := action_space self |}.

(** The function that [__init__] jits as [_reset]. *)
Definition _reset (self : JumanjiToGymWrapper) (key : env.PRNGKey)
    : env.State * env.Observation * option env.Extras :=
  let '(state, timestep) := wrappers.reset (_env self) key in
  (state, types.observation timestep, types.extras timestep).

(** What [reset] returns: the observation, with [info] when [return_info]
    is set. [np.asarray] keeps the content of the arrays of [extras]. *)
Inductive reset_result : Type :=
| Obs (obs : gym_obs.GymObservation)
| ObsInfo (obs : gym_obs.GymObservation) (info : option env.Extras).

(** [reset(seed, return_info, options)]: the result or the exception, and
    the object after the call; the key and the state are overwritten
    before the observation is converted. *)
Definition reset (self : JumanjiToGymWrapper) (seed_ : option Z) (return_info : bool)
    : gym_obs.converted reset_result * JumanjiToGymWrapper :=
  let self := match seed_ with
              | Some s => seed self s
              | None => self
              end in
  let '(key, _key) := env.random_split (_key self) in
  let '(_state, obs, extras) := wrappers.jit (_reset self) key in
  let self := {| _env := _env self; metadata := metadata self;
                 _key := _key; backend := backend self;
                 _state := Some _state;
                 observation_space := observation_space self;
                 action_space := action_space self |} in
  match gym_obs.jumanji_to_gym_obs (py_object obs) with
  | gym_obs.NotImplementedError text => (gym_obs.NotImplementedError text, self)
  | gym_obs.Converted obs =>
      if return_info
      then let info := extras in
           (gym_obs.Converted (ObsInfo obs info), self)
      else (gym_obs.Converted (Obs obs), self)
  end.

Definition unwrapped (self : JumanjiToGymWrapper) : wrappers.Env := _env self.

End GymWrapper.
End gym_wrapper.

(** ** [connector/env.py], continued: the specs of the environment *)

Module connector_specs.

(** The array that JAX makes of [False] or [True]. *)
Definition of_bool (b : bool) : np.ndarray :=
  {| np.shape := []; np.dtype := np.bool_; np.data := [np.SBool b] |}.

Section Specs.
Context {J : jnp.Jax} {H : types.Helpers} {D : connector.Deps}.

(** The arrays that JAX makes of the Python floats [0.0] and [1.0]: the
    zero and the one of its default float type. *)
Definition float_0 : np.ndarray :=
  {| np.shape := []; np.dtype := jnp.canonicalize np.float64;
     np.data := [jnp.zero (jnp.canonicalize np.float64)] |}.

Definition float_1 : np.ndarray :=
  {| np.shape := []; np.dtype := jnp.canonicalize np.float64;
     np.data := [jnp.one (jnp.canonicalize np.float64)] |}.

(** [AGENT_INITIAL_VALUE] of the module [constants], which is not among
    the sources. *)
Variable AGENT_INITIAL_VALUE : Z.

(** [Connector.observation_spec]: the three specs that it builds, in the
    order in which it builds them, which it passes to [ObservationSpec];
    that class is not among the sources. *)
Definition grid_spec (self : connector.t) : result specs.BoundedArray.t :=
  specs.BoundedArray.__init__
    [connector._num_agents self; connector._size self; connector._size self]
    np.int64
    (jnp.of_int 0)
    (jnp.of_int (Z.of_nat (connector._num_agents self) * 3 + AGENT_INITIAL_VALUE))
    "observation".

Definition action_mask_spec (self : connector.t) : result specs.BoundedArray.t :=
  specs.BoundedArray.__init__
    [connector._num_agents self; 5]
    np.bool_
    (of_bool false)
    (of_bool true)
    "action_mask".

Definition step_spec (self : connector.t) : result specs.BoundedArray.t :=
  specs.BoundedArray.__init__
    []
    np.int64
    (jnp.of_int 0)
    (jnp.of_int (connector._horizon self))
    "step".

Definition observation_spec (self : connector.t)
    : result (specs.BoundedArray.t * specs.BoundedArray.t * specs.BoundedArray.t) :=
  grid_spec ← grid_spec self;
  action_mask_spec ← action_mask_spec self;
  step_spec ← step_spec self;
  Ok (grid_spec, action_mask_spec, step_spec).

(** [Connector.reward_spec] and [Connector.discount_spec] *)
Definition reward_spec (self : connector.t) : specs.Array.t :=
  specs.Array.__init__ [connector._num_agents self] np.float64 "reward".

Definition discount_spec (self : connector.t) : result specs.BoundedArray.t :=
  specs.BoundedArray.__init__
    [connector._num_agents self]
    np.float64
    float_0
    float_1
    "discount".

(** The array that [jax.vmap] makes of the arrays that a function
    returns for the elements of a batch: they are put one after the
    other under a new first dimension, and their shape and dtype are
    kept. Of an empty batch the list does not tell them. *)
Definition stack (l : list np.ndarray) : option np.ndarray :=
  match l with
  | [] => None
  | a :: _ =>
      Some {| np.shape := length l :: np.shape a;
              np.dtype := np.dtype a;
              np.data := concat (map np.data l) |}
  end.

(** The array of the action masks of an observation. *)
Definition stacked_action_mask (observation : connector.Observation)
    : option np.ndarray :=
  stack (connector.action_mask observation).

End Specs.
End connector_specs.

(** ** [jumanji/wrappers.py] and [connector/env.py] with their effects

    The methods of the environments once more, with what a call does to
    the objects that it is given written out. *)

Module effects.

(** What a call of a method leaves: its result, and the object that it
    was called on and its arguments as they are after the call. A method
    that assigns to an attribute of [self] or of an argument, or that
    calls a method that does, leaves another object than it was given. *)
Record call (Self Args Result : Type) : Type := mk_call {
  result : Result;
  self_after : Self;
  args_after : Args;
}.
Arguments mk_call {Self Args Result}.
Arguments result {Self Args Result}.
Arguments self_after {Self Args Result}.
Arguments args_after {Self Args Result}.

(** The call has left the object and the arguments as they were. *)
Definition untouched {Self Args Result} (c : call Self Args Result)
    (self : Self) (args : Args) : Prop :=
  self_after c = self /\ args_after c = args.

Section Wrappers.
Context {J : jnp.Jax} {H : types.Helpers} {S : env.Signature}.

(** An environment that is no wrapper; its class is not among the
    sources. [Attributes] is what an instance holds, and a method is
    given by what a call of it leaves. *)
Variable Attributes : Type.
Variable env_reset :
  Attributes -> env.PRNGKey -> call Attributes env.PRNGKey (env.State * env.TimeStep).
Variable env_step :
  Attributes -> env.State -> env.Action ->
  call Attributes (env.State * env.Action) (env.State * env.TimeStep).

(** An environment object: an environment of its own, or a wrapper with
    the object that its attribute [_env] refers to. *)
Inductive Object : Type :=
| Base (attributes : Attributes)
| Wrapper (_env : Object)
| MultiToSingleWrapper (_env : Object)
    (_reward_aggregator _discount_aggregator : np.ndarray -> np.ndarray)
| VmapWrapper (_env : Object)
| AutoResetWrapper (_env : Object).

(** [reset]. No method assigns to [self] or to [key]: the object after
    the call is the wrapper around what the call of [self._env.reset]
    has left of [self._env]. [jax.vmap] calls the method that it is given
    once, on the batch, to trace it. *)
Fixpoint reset (self : Object) (key : env.PRNGKey)
    : call Object env.PRNGKey (env.State * env.TimeStep) :=
  match self with
  | Base attributes =>
      let c := env_reset attributes key in
      mk_call (result c) (Base (self_after c)) (args_after c)
  | Wrapper _env =>
      let c := reset _env key in
      mk_call (result c) (Wrapper (self_after c)) (args_after c)
  | MultiToSingleWrapper _env ra da =>
      let c := reset _env key in
      let '(state, timestep) := result c in
      let timestep := wrappers._aggregate_timestep ra da timestep in
      mk_call (state, timestep) (MultiToSingleWrapper (self_after c) ra da)
        (args_after c)
  | VmapWrapper _env =>
      let c := reset _env key in
      let '(state, timestep) :=
        env.vmap_reset (fun key => result (reset _env key)) key in
      mk_call (state, timestep) (VmapWrapper (self_after c)) (args_after c)
  | AutoResetWrapper _env =>
      let c := reset _env key in
      mk_call (result c) (AutoResetWrapper (self_after c)) (args_after c)
  end.

(** [AutoResetWrapper.auto_reset] on the object that [_env] refers to:
    the key is read off [state], and [timestep.replace] makes a new
    timestep. *)
Definition auto_reset (_env : Object) (state : env.State) (timestep : env.TimeStep)
    : call Object (env.State * env.TimeStep) (env.State * env.TimeStep) :=
  let c := reset _env (env.key state) in
  let '(state', reset_timestep) := result c in
  let timestep' :=
    {| types.step_type := types.step_type reset_timestep;
       types.observation := types.observation reset_timestep;
       types.reward := types.reward timestep;
       types.discount := types.discount timestep;
       types.extras := types.extras timestep |} in
  mk_call (state', timestep') (self_after c) (state, timestep).

(** [step]. [jax.lax.cond] traces its two branches: [auto_reset] is
    called whatever the predicate is, and the predicate chooses the
    result. *)
Fixpoint step (self : Object) (state : env.State) (action : env.Action)
    : call Object (env.State * env.Action) (env.State * env.TimeStep) :=
  match self with
  | Base attributes =>
      let c := env_step attributes state action in
      mk_call (result c) (Base (self_after c)) (args_after c)
  | Wrapper _env =>
      let c := step _env state action in
      mk_call (result c) (Wrapper (self_after c)) (args_after c)
  | MultiToSingleWrapper _env ra da =>
      let c := step _env state action in
      let '(state', timestep) := result c in
      let timestep := wrappers._aggregate_timestep ra da timestep in
      mk_call (state', timestep) (MultiToSingleWrapper (self_after c) ra da)
        (args_after c)
  | VmapWrapper _env =>
      let c := step _env state action in
      let '(state', timestep) :=
        env.vmap_step (fun state action => result (step _env state action))
          state action in
      mk_call (state', timestep) (VmapWrapper (self_after c)) (args_after c)
  | AutoResetWrapper _env =>
      let c := step _env state action in
      let '(state', timestep) := result c in
      let r := auto_reset (self_after c) state' timestep in
      let '(state', timestep) :=
        wrappers.cond (types.last timestep)
          (fun _ _ => result r) (fun x y => (x, y)) state' timestep in
      mk_call (state', timestep) (AutoResetWrapper (self_after r)) (args_after c)
  end.

End Wrappers.

Section Connector.
Context {J : jnp.Jax} {D : connector.Deps}.

(** The instance generator of a [Connector]; its class is not among the
    sources. [__call__] is given by what a call of it leaves. *)
Variable Generator : Type.
Variable generate :
  Generator -> connector.PRNGKey ->
  call Generator connector.PRNGKey connector.State.

(** A [Connector] with the object that [_generator] refers to. *)
Record Connector : Type := mk_Connector {
  _size : nat;
  _num_agents : nat;
  _horizon : Z;
  _generator : Generator;
}.

(** The attributes that the other methods read. *)
Definition attributes (self : Connector) : connector.t :=
  connector.mk (_size self) (_num_agents self) (_horizon self)
    (fun key => result (generate (_generator self) key)).

(** [Connector.reset]: [key] is bound anew to the second half of the
    split, the array that the caller has passed is not written to. *)
Definition connector_reset (self : Connector) (key : connector.PRNGKey)
    : call Connector connector.PRNGKey (connector.State * connector.TimeStep) :=
  let '(generator_key, key') := connector.random_split key in
  let c := generate (_generator self) generator_key in
  let state := result c in
  let action_mask :=
    map (fun agent =>
           connector._get_action_mask (attributes self) agent (connector.grid state))
      (connector.agents state) in
  let observation :=
    {| connector.obs_grid :=
         connector._obs_from_grid (attributes self) (connector.grid state);
       connector.action_mask := action_mask;
       connector.obs_step := connector.step_count state |} in
  let timestep :=
    connector.restart connector.Observation observation [_num_agents self] in
  mk_call
    ({| connector.key := key'; connector.grid := connector.grid state;
        connector.step_count := connector.int32_0;
        connector.agents := connector.agents state |},
     timestep)
    {| _size := _size self; _num_agents := _num_agents self;
       _horizon := _horizon self; _generator := self_after c |}
    key.

End Connector.

(** Instances for the examples: the counting environment and the
    generator of the corner, which leave everything as it is, and an
    environment that counts the calls of its [reset] in an attribute. *)
Definition counter_reset (attributes : unit) (key : Z)
    : call unit Z (Z * env.TimeStep (S := examples.counting)) :=
  mk_call (env.reset examples.counter key) attributes key.

Definition counter_step (attributes : unit) (state action : Z)
    : call unit (Z * Z) (Z * env.TimeStep (S := examples.counting)) :=
  mk_call (env.step examples.counter state action) attributes (state, action).

Definition corner_generate (generator : unit) (key : Z)
    : call unit Z (connector.State (D := examples.on_grid)) :=
  mk_call (connector._generator examples.corner_connector key) generator key.

Definition tally_reset (calls : Z) (key : Z)
    : call Z Z (Z * env.TimeStep (S := examples.counting)) :=
  mk_call (env.reset examples.counter (key + calls)%Z) (calls + 1)%Z key.

End effects.

(** * Properties *)

(** ** The model on small inputs *)

Example broadcast_to_rows :
  jnp.broadcast_to (examples.int32_array [1; 2; 3]%Z) [2; 3] =
  Ok {| np.shape := [2; 3]; np.dtype := np.int32;
        np.data := map np.SInt [1; 2; 3; 1; 2; 3]%Z |}.
Proof. reflexivity. Qed.

Example broadcast_to_columns :
  jnp.broadcast_to
    {| np.shape := [2; 1]; np.dtype := np.int32; np.data := map np.SInt [1; 2]%Z |}
    [2; 3] =
  Ok {| np.shape := [2; 3]; np.dtype := np.int32;
        np.data := map np.SInt [1; 1; 1; 2; 2; 2]%Z |}.
Proof. reflexivity. Qed.

Example broadcast_to_incompatible :
  jnp.broadcast_to (examples.int32_array [1; 2; 3]%Z) [2] =
  Raise (ValueError "Incompatible shapes for broadcasting: {} and requested shape {}"
           [AShape [3]; AShape [2]]).
Proof. reflexivity. Qed.

Example broadcast_shapes_mixed :
  jnp.broadcast_shapes [4; 1; 3] [2; 1] = Some [4; 2; 3]
  /\ jnp.broadcast_shapes [4; 3] [2] = None.
Proof. split; reflexivity. Qed.

Example less_scalar_bound :
  jnp.less (J := examples.jax32) (examples.int32_array [1; 7]%Z)
    (examples.scalar_array np.int32 (np.SInt 5)) =
  Ok {| np.shape := [2]; np.dtype := np.bool_;
        np.data := [np.SBool true; np.SBool false] |}.
Proof. reflexivity. Qed.

Example float32_one_times_one :
  jnp.scalar_mul np.float32 (jnp.one np.float32) (jnp.one np.float32) =
  np.SFloat (S754_finite false 8388608 (-23)).
Proof. reflexivity. Qed.

Example validate_wrong_shape :
  specs.Array.validate (specs.Array.mk "board" [2; 2] np.int32)
    (examples.int32_array [1; 2]%Z) =
  Raise (ValueError "Expected shape {} but found {} for spec {}."
           [AShape [2; 2]; AShape [2]; AStr "board"]).
Proof. reflexivity. Qed.

(** An agent in the upper left corner can move right and down only. *)
Example action_mask_in_corner :
  np.data (connector._get_action_mask (J := examples.jax32)
             examples.corner_connector (0, 0)%Z 8%Z) =
  map np.SBool [true; false; true; true; false].
Proof. reflexivity. Qed.

Example auto_reset_at_the_end :
  let e := wrappers.AutoResetWrapper (S := examples.counting)
             (wrappers.Base examples.counter) in
  (wrappers.step e 1%Z 1%Z).1 = 2%Z
  /\ types.step_type (wrappers.step e 1%Z 1%Z).2 = types.MID
  /\ (wrappers.step e 2%Z 1%Z).1 = 3%Z
  /\ types.step_type (wrappers.step e 2%Z 1%Z).2 = types.FIRST
  /\ types.reward (wrappers.step e 2%Z 1%Z).2 = examples.int32_array [1; 1]%Z.
Proof. repeat split. Qed.

(** ** Validation against an [Array] spec *)

Section ArrayValidate.
Context {J : jnp.Jax} {H : types.Helpers}.

Lemma Array_fail_validation_ValueError {A} (s : specs.Array.t) text args :
  exists text' args',
    specs.Array._fail_validation (A := A) s text args = Raise (ValueError text' args').
Proof.
  unfold specs.Array._fail_validation.
  case_bool_decide; eauto.
Qed.

Lemma Array_validate_Ok (s : specs.Array.t) (v r : np.ndarray) :
  specs.Array.validate s v = Ok r <->
  r = v /\ np.shape v = specs.Array.shape s /\ np.dtype v = specs.Array.dtype s.
Proof.
  unfold specs.Array.validate, jnp.asarray, specs.Array._fail_validation.
  repeat case_bool_decide; simpl; split.
  all: try (intros [-> [? ?]]; congruence).
  all: try discriminate.
  all: try (intros [= <-]; done).
Qed.

Lemma Array_validate_Raise (s : specs.Array.t) (v : np.ndarray) :
  np.shape v <> specs.Array.shape s \/ np.dtype v <> specs.Array.dtype s ->
  exists text args, specs.Array.validate s v = Raise (ValueError text args).
Proof.
  intros Hne.
  unfold specs.Array.validate, jnp.asarray, specs.Array._fail_validation.
  repeat case_bool_decide; simpl; eauto.
  destruct Hne; tauto.
Qed.

Lemma jax_Array_validate_Ok (s : jax_specs.Array.t) (v r : np.ndarray) :
  jax_specs.Array.validate s v = Ok r <->
  r = v /\ np.shape v = jax_specs.Array.shape s /\ np.dtype v = jax_specs.Array.dtype s.
Proof.
  unfold jax_specs.Array.validate, jnp.asarray, jax_specs.Array._fail_validation.
  repeat case_bool_decide; simpl; split.
  all: try (intros [-> [? ?]]; congruence).
  all: try discriminate.
  all: try (intros [= <-]; done).
Qed.

Lemma jax_Array_validate_Raise (s : jax_specs.Array.t) (v : np.ndarray) :
  np.shape v <> jax_specs.Array.shape s \/ np.dtype v <> jax_specs.Array.dtype s ->
  exists text args, jax_specs.Array.validate s v = Raise (ValueError text args).
Proof.
  intros Hne.
  unfold jax_specs.Array.validate, jnp.asarray, jax_specs.Array._fail_validation.
  repeat case_bool_decide; simpl; eauto.
  destruct Hne; tauto.
Qed.

(** C1. [Array.validate], in [jumanji/specs.py] and in its copy in
    [jumanji/jax/specs.py]: when the shape and the dtype of the value (as a
    jax array) are those of the spec, it returns that array, unchanged;
    in every other case it raises [ValueError]. No value that does not
    conform is accepted. *)
Theorem C1_Array_validate (s : specs.Array.t) (s' : jax_specs.Array.t) (v : np.ndarray) :
  (if decide (np.shape (jnp.asarray v) = specs.Array.shape s /\
              np.dtype (jnp.asarray v) = specs.Array.dtype s)
   then specs.Array.validate s v = Ok (jnp.asarray v)
   else exists text args, specs.Array.validate s v = Raise (ValueError text args))
  /\
  (if decide (np.shape (jnp.asarray v) = jax_specs.Array.shape s' /\
              np.dtype (jnp.asarray v) = jax_specs.Array.dtype s')
   then jax_specs.Array.validate s' v = Ok (jnp.asarray v)
   else exists text args, jax_specs.Array.validate s' v = Raise (ValueError text args))
  /\ jnp.asarray v = v.
Proof.
  unfold jnp.asarray. split; [|split; [|done]].
  - case_decide as Hc.
    + by apply Array_validate_Ok.
    + apply Array_validate_Raise.
      destruct (decide (np.shape v = specs.Array.shape s)); [right|left]; tauto.
  - case_decide as Hc.
    + by apply jax_Array_validate_Ok.
    + apply jax_Array_validate_Raise.
      destruct (decide (np.shape v = jax_specs.Array.shape s')); [right|left]; tauto.
Qed.

End ArrayValidate.

(** ** Elements *)

Section Floats.

Lemma iter_pos_iter {A} (f : A -> A) (k : positive) (x : A) :
  SpecFloat.iter_pos f k x = Pos.iter f x k.
Proof.
  revert x. induction k as [k IH|k IH|]; intros x; simpl.
  - rewrite !IH. now rewrite <- !Pos.iter_swap.
  - now rewrite !IH.
  - reflexivity.
Qed.

Lemma mul_iter_xO (k m : positive) :
  (Pos.iter xO 1 k * m = Pos.iter xO m k)%positive.
Proof.
  induction k as [|k IH] using Pos.peano_ind.
  - reflexivity.
  - rewrite !Pos.iter_succ, <- IH. reflexivity.
Qed.

Lemma digits2_iter_xO (k m : positive) :
  Zpos (digits2_pos (Pos.iter xO m k)) = (Zpos (digits2_pos m) + Zpos k)%Z.
Proof.
  induction k as [|k IH] using Pos.peano_ind.
  - simpl. lia.
  - rewrite Pos.iter_succ. simpl. rewrite Pos2Z.inj_succ, IH. lia.
Qed.

Lemma shr_iter_xO (k m : positive) :
  Pos.iter shr_1 (Build_shr_record (Zpos (Pos.iter xO m k)) false false) k =
  Build_shr_record (Zpos m) false false.
Proof.
  induction k as [|k IH] using Pos.peano_ind.
  - reflexivity.
  - rewrite Pos.iter_succ_r, Pos.iter_succ. simpl. apply IH.
Qed.

Lemma SFmul_pow2_l (prec emax : Z) (k : positive) (s : bool) (m : positive) (e : Z) :
  bounded prec emax m e = true ->
  SFmul prec emax (S754_finite false (Pos.iter xO 1%positive k) (- Zpos k)) (S754_finite s m e) =
  S754_finite s m e.
Proof.
  intros Hb.
  unfold bounded, canonical_mantissa in Hb.
  apply andb_prop in Hb as [Hc He].
  apply Z.eqb_eq in Hc.
  unfold SFmul. rewrite mul_iter_xO. simpl xorb.
  unfold binary_round_aux, shr_fexp.
  unfold Zdigits2 at 1. rewrite digits2_iter_xO.
  replace (Zpos (digits2_pos m) + Zpos k + (- Zpos k + e))%Z
    with (Zpos (digits2_pos m) + e)%Z by lia.
  rewrite Hc.
  replace (e - (- Zpos k + e))%Z with (Zpos k) by lia.
  unfold shr at 1.
  rewrite iter_pos_iter.
  change (shr_record_of_loc (Z.pos (Pos.iter xO m k)) loc_Exact)
    with (Build_shr_record (Zpos (Pos.iter xO m k)) false false).
  rewrite shr_iter_xO.
  replace (- Zpos k + e + Zpos k)%Z with e by lia.
  cbn [shr_m round_nearest_even loc_of_shr_record Zdigits2 shr_record_of_loc].
  rewrite Hc, Z.sub_diag.
  cbn [shr shr_m].
  now rewrite He.
Qed.

Lemma SFcompare_refl (a : spec_float) :
  SFcompare a a = Some Eq \/ SFcompare a a = None.
Proof.
  destruct a as [s|s| |s m e]; simpl; auto; destruct s; auto.
  all: rewrite Z.compare_refl, Pos.compare_cont_refl; auto.
Qed.

Lemma SFcompare_antisym (a b : spec_float) (c : comparison) :
  SFcompare a b = Some c -> SFcompare b a = Some (CompOpp c).
Proof.
  destruct a as [s|s| |s m e], b as [s'|s'| |s' m' e']; simpl;
    try discriminate; intros [= <-]; try (by destruct s); try (by destruct s');
    try (by destruct s, s').
  destruct s, s'; try done; f_equal.
  all: rewrite (Z.compare_antisym e e'); destruct (e ?= e')%Z; simpl; try done.
  all: by rewrite (Pos.compare_cont_antisym m m' Eq).
Qed.

End Floats.

Section Scalars.
Context {J : jnp.Jax}.

Lemma scalar_lt_irrefl (x : np.scalar) : jnp.scalar_lt x x = false.
Proof.
  destruct x as [b|z|f]; simpl.
  - by destruct b.
  - apply Z.ltb_irrefl.
  - by destruct (SFcompare_refl f) as [-> | ->].
Qed.

Lemma not_lt_le (x l : np.scalar) :
  jnp.comparable x l = true ->
  jnp.scalar_lt x l = false <-> jnp.scalar_le l x = true.
Proof.
  destruct x as [a|a|a], l as [b|b|b]; simpl; try done; intros Hc.
  - destruct a, b; simpl; intuition.
  - rewrite Z.ltb_ge, Z.leb_le. done.
  - destruct (SFcompare a b) as [c|] eqn:E; [|done].
    rewrite (SFcompare_antisym _ _ _ E). destruct c; simpl; intuition.
Qed.

Lemma not_gt_le (x h : np.scalar) :
  jnp.comparable x h = true ->
  jnp.scalar_gt x h = false <-> jnp.scalar_le x h = true.
Proof.
  destruct x as [a|a|a], h as [b|b|b]; simpl; try done; intros Hc.
  - destruct a, b; simpl; intuition.
  - rewrite Z.gtb_ltb, Z.ltb_ge, Z.leb_le. done.
  - destruct (SFcompare a b) as [c|] eqn:E; [|done].
    destruct c; simpl; intuition.
Qed.

Lemma SFone_finite (d : np.DType) (prec emax : Z) :
  np.float_format d = Some (prec, emax) ->
  exists k, SFone prec emax = S754_finite false (Pos.iter xO 1%positive k) (- Zpos k).
Proof.
  destruct d; intros [= <- <-].
  - by exists 7%positive.
  - by exists 10%positive.
  - by exists 23%positive.
  - by exists 52%positive.
Qed.

Lemma SFmul_one_l (d : np.DType) (prec emax : Z) (f : spec_float) :
  np.float_format d = Some (prec, emax) ->
  valid_binary prec emax f = true ->
  SFmul prec emax (SFone prec emax) f = f.
Proof.
  intros Hd Hv. destruct (SFone_finite d prec emax Hd) as [k ->].
  destruct f as [s|s| |s m e]; try reflexivity.
  by apply SFmul_pow2_l.
Qed.

Lemma wrap_in_bounds (d : np.DType) (lo hi z : Z) :
  np.int_bounds d = Some (lo, hi) -> (lo <= z <= hi)%Z -> jnp.wrap d z = z.
Proof.
  intros Hb Hz. unfold jnp.wrap. rewrite Hb.
  rewrite Z.mod_small by lia. lia.
Qed.

(** Multiplying by the one of its type leaves a value as it is. *)
Lemma scalar_mul_one_l (d : np.DType) (x : np.scalar) :
  np.has_dtype d x = true -> jnp.scalar_mul d (jnp.one d) x = x.
Proof.
  destruct x as [b|z|f]; simpl.
  - intros Hd%bool_decide_eq_true. by subst d.
  - destruct (np.int_bounds d) as [[lo hi]|] eqn:Hb; [|done].
    intros [Hlo Hhi]%andb_true_iff. apply Z.leb_le in Hlo, Hhi.
    assert (jnp.one d = np.SInt 1) as -> by (by destruct d).
    simpl. f_equal. rewrite Z.mul_1_l. by eapply wrap_in_bounds.
  - destruct (np.float_format d) as [[prec emax]|] eqn:Hf; [|done].
    intros Hv.
    assert (jnp.one d = np.SFloat (SFone prec emax)) as ->.
    { unfold jnp.one. rewrite Hf. by destruct d. }
    simpl. rewrite Hf. f_equal. by eapply SFmul_one_l.
Qed.

End Scalars.

(** ** Broadcasting *)

Section Broadcasting.
Context {J : jnp.Jax}.

Lemma pad_shape_full (shp : list nat) : jnp.pad_shape shp (length shp) = shp.
Proof. unfold jnp.pad_shape. by rewrite Nat.sub_diag. Qed.

Lemma size_pad_shape (shp : list nat) (rank : nat) :
  np.size (jnp.pad_shape shp rank) = np.size shp.
Proof.
  unfold jnp.pad_shape. induction (rank - length shp) as [|k IH]; simpl; [done|].
  rewrite IH. lia.
Qed.

Lemma length_pad_shape (shp : list nat) (rank : nat) :
  length shp <= rank -> length (jnp.pad_shape shp rank) = rank.
Proof.
  intros Hle. unfold jnp.pad_shape. rewrite length_app, length_replicate. lia.
Qed.

Lemma compatible_refl (shp : list nat) : jnp.compatible shp shp = true.
Proof.
  induction shp as [|n shp IH]; simpl; [done|].
  rewrite IH. by rewrite bool_decide_eq_true_2.
Qed.

Lemma length_chunks {A} (k n : nat) (l : list A) :
  length (jnp.chunks k n l) = k.
Proof. revert l. induction k as [|k IH]; intros l; simpl; auto. Qed.

Lemma Forall_length_chunks {A} (k n : nat) (l : list A) :
  length l = k * n -> Forall (fun c => length c = n) (jnp.chunks k n l).
Proof.
  revert l. induction k as [|k IH]; intros l Hl; simpl; constructor.
  - rewrite length_take. lia.
  - apply IH. rewrite length_drop. lia.
Qed.

Lemma concat_chunks {A} (k n : nat) (l : list A) :
  length l = k * n -> concat (jnp.chunks k n l) = l.
Proof.
  revert l. induction k as [|k IH]; intros l Hl; simpl.
  - destruct l; [done|discriminate].
  - rewrite IH by (rewrite length_drop; lia). apply take_drop.
Qed.

Lemma Forall_chunks {A} (P : A -> Prop) (k n : nat) (l : list A) :
  Forall P l -> Forall (Forall P) (jnp.chunks k n l).
Proof.
  revert l. induction k as [|k IH]; intros l Hl; simpl; constructor.
  - by apply Forall_take.
  - apply IH. by apply Forall_drop.
Qed.

(** Stretching to the shape that an array has changes nothing. *)
Lemma broadcast_data_id {A} (shp : list nat) (l : list A) :
  length l = np.size shp -> jnp.broadcast_data shp shp l = l.
Proof.
  revert l. induction shp as [|n shp IH]; intros l Hl; simpl; [done|].
  rewrite decide_True by done.
  simpl in Hl.
  pose proof (Forall_length_chunks n (np.size shp) l Hl) as Hc.
  rewrite <- (concat_chunks n (np.size shp) l Hl) at 2.
  f_equal. rewrite <- (map_id (jnp.chunks _ _ _)) at 2.
  apply map_ext_Forall.
  eapply Forall_impl; [exact Hc|]. intros c Hlen. by apply IH.
Qed.

Lemma length_concat_const {A} (ls : list (list A)) (n : nat) :
  Forall (fun c => length c = n) ls -> length (concat ls) = length ls * n.
Proof.
  induction 1 as [|c ls Hc _ IH]; simpl; [done|].
  rewrite length_app, IH, Hc. done.
Qed.

Lemma length_broadcast_data {A} (sin sout : list nat) (l : list A) :
  jnp.compatible sin sout = true -> length l = np.size sin ->
  length (jnp.broadcast_data sin sout l) = np.size sout.
Proof.
  revert sout l. induction sin as [|n sin IH]; intros [|m sout] l Hc Hl;
    simpl in *; try done.
  apply andb_true_iff in Hc as [Hd Hc].
  destruct (decide (n = m)) as [<-|Hnm].
  - rewrite (length_concat_const _ (np.size sout)).
    + by rewrite length_map, length_chunks.
    + apply Forall_map.
      eapply Forall_impl; [exact (Forall_length_chunks n (np.size sin) l Hl)|].
      intros c Hlen. simpl. by apply IH.
  - apply orb_true_iff in Hd as [Hd|Hd]; apply bool_decide_eq_true in Hd; [done|].
    subst n.
    rewrite (length_concat_const _ (np.size sout)).
    + by rewrite length_replicate.
    + apply Forall_replicate. apply IH; [done|lia].
Qed.

Lemma Forall_broadcast_data {A} (P : A -> Prop) (sin sout : list nat) (l : list A) :
  Forall P l -> Forall P (jnp.broadcast_data sin sout l).
Proof.
  revert sout l. induction sin as [|n sin IH]; intros [|m sout] l Hl;
    simpl; try done.
  destruct (decide (n = m)) as [<-|Hnm].
  - apply Forall_concat, Forall_map.
    eapply Forall_impl; [exact (Forall_chunks P n (np.size sin) l Hl)|].
    intros c Hc. simpl. by apply IH.
  - apply Forall_concat, Forall_replicate. by apply IH.
Qed.

Lemma join_dims_compatible (sin sout : list nat) :
  jnp.compatible sin sout = true -> jnp.join_dims sout sin = Some sout.
Proof.
  revert sout. induction sin as [|n sin IH]; intros [|m sout] Hc;
    simpl in *; try done.
  apply andb_true_iff in Hc as [Hd Hc].
  rewrite (IH _ Hc).
  apply orb_true_iff in Hd as [Hd|Hd]; apply bool_decide_eq_true in Hd; subst.
  - by rewrite decide_True.
  - repeat case_decide; subst; done.
Qed.

Lemma broadcast_to_Ok (a b : np.ndarray) (shp : list nat) :
  jnp.broadcast_to a shp = Ok b ->
  length (np.shape a) <= length shp
  /\ jnp.compatible (jnp.pad_shape (np.shape a) (length shp)) shp = true
  /\ b = {| np.shape := shp; np.dtype := np.dtype a;
            np.data := jnp.broadcast_data (jnp.pad_shape (np.shape a) (length shp))
                         shp (np.data a) |}.
Proof.
  unfold jnp.broadcast_to.
  destruct (bool_decide _ && _) eqn:E; [|discriminate].
  apply andb_true_iff in E as [Hl Hc]. apply bool_decide_eq_true in Hl.
  intros [= <-]. done.
Qed.

Lemma broadcast_to_id (a : np.ndarray) :
  np.sized a -> jnp.broadcast_to a (np.shape a) = Ok a.
Proof.
  intros Hs. unfold jnp.broadcast_to.
  rewrite pad_shape_full, compatible_refl, bool_decide_eq_true_2 by done.
  simpl. rewrite broadcast_data_id by done. by destruct a.
Qed.

Lemma broadcast_to_sized (a b : np.ndarray) (shp : list nat) :
  np.sized a -> jnp.broadcast_to a shp = Ok b -> np.sized b /\ np.shape b = shp
  /\ np.dtype b = np.dtype a.
Proof.
  intros Hs Hb. apply broadcast_to_Ok in Hb as (Hl & Hc & ->).
  unfold np.sized. simpl. split; [|done].
  apply length_broadcast_data; [done|]. by rewrite size_pad_shape.
Qed.

Lemma broadcast_shapes_compatible (a b : np.ndarray) (shp : list nat) :
  jnp.broadcast_to a shp = Ok b ->
  jnp.broadcast_shapes shp (np.shape a) = Some shp.
Proof.
  intros Hb. apply broadcast_to_Ok in Hb as (Hl & Hc & _).
  unfold jnp.broadcast_shapes.
  rewrite Nat.max_l by done. rewrite pad_shape_full.
  by apply join_dims_compatible.
Qed.

(** An operation on an array and on another one of the same element type
    that stretches to its shape. *)
Lemma binary_op_broadcast f out (a b b' : np.ndarray) :
  np.dtype a = np.dtype b -> np.sized a ->
  jnp.broadcast_to b (np.shape a) = Ok b' ->
  jnp.binary_op f out a b =
  Ok {| np.shape := np.shape a; np.dtype := out (np.dtype a);
        np.data := zip_with (f (np.dtype a)) (np.data a) (np.data b') |}.
Proof.
  intros Hd Hs Hb. unfold jnp.binary_op, jnp.promote_operands.
  rewrite decide_True by done.
  rewrite (broadcast_shapes_compatible _ _ _ Hb).
  rewrite broadcast_to_id by done. simpl. by rewrite Hb.
Qed.

Lemma any_zip_with_false (p : np.scalar -> np.scalar -> bool) shp d (l1 l2 : list np.scalar) :
  jnp.any {| np.shape := shp; np.dtype := d;
             np.data := zip_with (fun x y => np.SBool (p x y)) l1 l2 |} = false
  <-> forall i x y, l1 !! i = Some x -> l2 !! i = Some y -> p x y = false.
Proof.
  unfold jnp.any. simpl. revert l2.
  induction l1 as [|x l1 IH]; intros [|y l2]; simpl.
  - split; [|done]. intros _ i x y Hx. by rewrite lookup_nil in Hx.
  - split; [|done]. intros _ i x' y' Hx. by rewrite lookup_nil in Hx.
  - split; [|done]. intros _ i x' y' _ Hy. by rewrite lookup_nil in Hy.
  - rewrite orb_false_iff, IH. split.
    + intros [Hp Hr] [|i] x' y' Hx Hy; simpl in *; [congruence|eauto].
    + intros Hall. split; [exact (Hall 0 x y eq_refl eq_refl)|].
      intros i x' y'. apply (Hall (S i)).
Qed.

End Broadcasting.

(** ** Bounded arrays *)

Section Bounded.
Context {J : jnp.Jax} {H : types.Helpers}.

Lemma canonicalize_idemp (d : np.DType) :
  jnp.canonicalize (jnp.canonicalize d) = jnp.canonicalize d.
Proof. unfold jnp.canonicalize. by destruct jnp.jax_enable_x64, d. Qed.

Lemma asarray_dtype_dtype (a : np.ndarray) (d : np.DType) :
  np.dtype (jnp.asarray_dtype a d) = jnp.canonicalize d.
Proof. unfold jnp.asarray_dtype. by case_decide. Qed.

Lemma asarray_dtype_sized (a : np.ndarray) (d : np.DType) :
  np.sized a -> np.sized (jnp.asarray_dtype a d).
Proof.
  unfold jnp.asarray_dtype, np.sized. case_decide; [done|].
  simpl. by rewrite length_map.
Qed.

Lemma asarray_dtype_wf (a : np.ndarray) (d : np.DType) :
  conformance.conversions_typed -> np.wf a -> np.wf (jnp.asarray_dtype a d).
Proof.
  intros Hc [Hs Ht]. split; [by apply asarray_dtype_sized|].
  unfold jnp.asarray_dtype. case_decide; [done|]. simpl.
  apply Forall_map. eapply Forall_impl; [exact Ht|]. intros x Hx. by apply Hc.
Qed.

Lemma pointwise_any_false (p : np.scalar -> np.scalar -> bool) shp d (a b : np.ndarray) :
  jnp.any {| np.shape := shp; np.dtype := d;
             np.data := zip_with (fun x y => np.SBool (p x y)) (np.data a) (np.data b) |}
  = false
  <-> conformance.pointwise (fun x y => negb (p x y)) a b.
Proof.
  rewrite any_zip_with_false. unfold conformance.pointwise.
  split; intros Hall i x y Hx Hy; specialize (Hall i x y Hx Hy).
  - by rewrite Hall.
  - by apply negb_true_iff.
Qed.

Lemma not_pointwise_exceeds (lo hi : np.ndarray) :
  conformance.exceeds lo hi ->
  ~ conformance.pointwise (fun l h => negb (jnp.scalar_gt l h)) lo hi.
Proof.
  intros (i & l & h & Hl & Hh & Hgt) Hall.
  specialize (Hall i l h Hl Hh). simpl in Hall. by rewrite Hgt in Hall.
Qed.

Lemma less_broadcast (a b b' : np.ndarray) :
  np.dtype a = np.dtype b -> np.sized a ->
  jnp.broadcast_to b (np.shape a) = Ok b' ->
  jnp.less a b =
  Ok {| np.shape := np.shape a; np.dtype := np.bool_;
        np.data := zip_with (fun x y => np.SBool (jnp.scalar_lt x y))
                     (np.data a) (np.data b') |}.
Proof. apply binary_op_broadcast. Qed.

Lemma greater_broadcast (a b b' : np.ndarray) :
  np.dtype a = np.dtype b -> np.sized a ->
  jnp.broadcast_to b (np.shape a) = Ok b' ->
  jnp.greater a b =
  Ok {| np.shape := np.shape a; np.dtype := np.bool_;
        np.data := zip_with (fun x y => np.SBool (jnp.scalar_gt x y))
                     (np.data a) (np.data b') |}.
Proof. apply binary_op_broadcast. Qed.

Lemma multiply_broadcast (a b b' : np.ndarray) :
  np.dtype a = np.dtype b -> np.sized a ->
  jnp.broadcast_to b (np.shape a) = Ok b' ->
  jnp.multiply a b =
  Ok {| np.shape := np.shape a; np.dtype := np.dtype a;
        np.data := zip_with (jnp.scalar_mul (np.dtype a)) (np.data a) (np.data b') |}.
Proof. apply binary_op_broadcast. Qed.

(** The comparison of the two stretched bounds in [__init__]. *)
Lemma greater_bounds (bmin bmax : np.ndarray) (shp : list nat) :
  np.sized bmin -> np.sized bmax -> np.shape bmin = shp -> np.shape bmax = shp ->
  np.dtype bmin = np.dtype bmax ->
  jnp.greater bmin bmax =
  Ok {| np.shape := shp; np.dtype := np.bool_;
        np.data := zip_with (fun x y => np.SBool (jnp.scalar_gt x y))
                     (np.data bmin) (np.data bmax) |}.
Proof.
  intros Hs1 Hs2 Hsh1 Hsh2 Hd.
  rewrite (greater_broadcast bmin bmax bmax Hd Hs1).
  - by rewrite Hsh1.
  - rewrite Hsh1, <- Hsh2. by apply broadcast_to_id.
Qed.

(** What a successful [__init__] has checked. *)
Lemma BoundedArray_init_Ok shp d minimum maximum name (b : specs.BoundedArray.t) :
  np.sized minimum -> np.sized maximum ->
  specs.BoundedArray.__init__ shp d minimum maximum name = Ok b ->
  exists bmin bmax,
    b = {| specs.BoundedArray.super := specs.Array.__init__ shp d name;
           specs.BoundedArray._minimum := jnp.asarray_dtype minimum d;
           specs.BoundedArray._maximum := jnp.asarray_dtype maximum d |}
    /\ jnp.broadcast_to (jnp.asarray_dtype minimum d) shp = Ok bmin
    /\ jnp.broadcast_to (jnp.asarray_dtype maximum d) shp = Ok bmax
    /\ conformance.pointwise (fun l h => negb (jnp.scalar_gt l h)) bmin bmax.
Proof.
  intros Hmin Hmax. unfold specs.BoundedArray.__init__.
  destruct (jnp.broadcast_to (jnp.asarray_dtype minimum d) shp) as [bmin|e] eqn:E1;
    [|by destruct e].
  destruct (jnp.broadcast_to (jnp.asarray_dtype maximum d) shp) as [bmax|e] eqn:E2;
    [|by destruct e].
  simpl.
  destruct (broadcast_to_sized _ _ _ (asarray_dtype_sized _ d Hmin) E1) as (S1 & Sh1 & D1).
  destruct (broadcast_to_sized _ _ _ (asarray_dtype_sized _ d Hmax) E2) as (S2 & Sh2 & D2).
  rewrite (greater_bounds bmin bmax shp) by
    (try done; by rewrite D1, D2, !asarray_dtype_dtype).
  simpl. destruct (jnp.any _) eqn:Ea; [done|].
  intros [= <-]. exists bmin, bmax. repeat split; try done.
  by apply pointwise_any_false in Ea.
Qed.

(** [__init__] raises nothing but [ValueError]. *)
Lemma BoundedArray_init_Raise shp d minimum maximum name e :
  np.sized minimum -> np.sized maximum ->
  specs.BoundedArray.__init__ shp d minimum maximum name = Raise e ->
  exists text args, e = ValueError text args.
Proof.
  intros Hmin Hmax. unfold specs.BoundedArray.__init__.
  destruct (jnp.broadcast_to (jnp.asarray_dtype minimum d) shp) as [bmin|e1] eqn:E1.
  2:{ unfold jnp.broadcast_to in E1. destruct (_ && _); [done|].
      injection E1 as <-. simpl. intros [= <-]. eauto. }
  destruct (jnp.broadcast_to (jnp.asarray_dtype maximum d) shp) as [bmax|e2] eqn:E2.
  2:{ unfold jnp.broadcast_to in E2. destruct (_ && _); [done|].
      injection E2 as <-. simpl. intros [= <-]. eauto. }
  simpl.
  destruct (broadcast_to_sized _ _ _ (asarray_dtype_sized _ d Hmin) E1) as (S1 & Sh1 & D1).
  destruct (broadcast_to_sized _ _ _ (asarray_dtype_sized _ d Hmax) E2) as (S2 & Sh2 & D2).
  rewrite (greater_bounds bmin bmax shp) by
    (try done; by rewrite D1, D2, !asarray_dtype_dtype).
  simpl. destruct (jnp.any _); [|done]. intros [= <-]. eauto.
Qed.

Lemma BoundedArray_init_exceeds shp d minimum maximum name bmin bmax :
  np.sized minimum -> np.sized maximum ->
  jnp.broadcast_to (jnp.asarray_dtype minimum d) shp = Ok bmin ->
  jnp.broadcast_to (jnp.asarray_dtype maximum d) shp = Ok bmax ->
  conformance.exceeds bmin bmax ->
  exists text args,
    specs.BoundedArray.__init__ shp d minimum maximum name = Raise (ValueError text args).
Proof.
  intros Hmin Hmax E1 E2 Hex.
  destruct (specs.BoundedArray.__init__ shp d minimum maximum name) as [b|e] eqn:E.
  - destruct (BoundedArray_init_Ok _ _ _ _ _ _ Hmin Hmax E)
      as (bmin' & bmax' & _ & E1' & E2' & Hall).
    rewrite E1 in E1'. rewrite E2 in E2'. injection E1' as <-. injection E2' as <-.
    by destruct (not_pointwise_exceeds _ _ Hex).
  - destruct (BoundedArray_init_Raise _ _ _ _ _ _ Hmin Hmax E) as (t & a & ->). eauto.
Qed.

(** [validate] of a spec that [__init__] has made. *)
Lemma BoundedArray_validate_built shp d minimum maximum name bmin bmax (v : np.ndarray) :
  let b := {| specs.BoundedArray.super := specs.Array.__init__ shp d name;
              specs.BoundedArray._minimum := jnp.asarray_dtype minimum d;
              specs.BoundedArray._maximum := jnp.asarray_dtype maximum d |} in
  conformance.valid_dtypes -> np.sized v ->
  jnp.broadcast_to (jnp.asarray_dtype minimum d) shp = Ok bmin ->
  jnp.broadcast_to (jnp.asarray_dtype maximum d) shp = Ok bmax ->
  (specs.BoundedArray.validate b v = Ok v /\
   np.shape v = shp /\ np.dtype v = jnp.canonicalize d /\
   conformance.within v bmin bmax)
  \/ ((exists text args, specs.BoundedArray.validate b v = Raise (ValueError text args)) /\
      ~ (np.shape v = shp /\ np.dtype v = jnp.canonicalize d /\
         conformance.within v bmin bmax)).
Proof.
  intros b Hv Hs E1 E2.
  unfold specs.BoundedArray.validate.
  destruct (specs.Array.validate (specs.BoundedArray.super b) v) as [r|e] eqn:Ev.
  2:{ right.
      destruct (decide (np.shape v = shp /\ np.dtype v = jnp.canonicalize d))
        as [[Hsh Hd]|Hn].
      - assert (specs.Array.validate (specs.BoundedArray.super b) v = Ok v) as Hok.
        { apply Array_validate_Ok. repeat split; [done|].
          simpl. unfold specs.Array.dtype. simpl. by rewrite Hv. }
        congruence.
      - split; [|tauto].
        destruct (Array_validate_Raise (specs.BoundedArray.super b) v) as (t & a & Hr).
        { simpl. unfold specs.Array.shape, specs.Array.dtype. simpl. rewrite Hv.
          destruct (decide (np.shape v = shp)); [right|left]; tauto. }
        rewrite Hr in Ev. injection Ev as <-. simpl. eauto. }
  apply Array_validate_Ok in Ev as (-> & Hsh & Hd).
  unfold specs.Array.shape, specs.Array.dtype in Hsh, Hd. simpl in Hsh, Hd.
  rewrite Hv in Hd. simpl.
  unfold specs.BoundedArray.minimum, specs.BoundedArray.maximum. simpl.
  rewrite (less_broadcast v _ bmin) by
    first [done | by rewrite asarray_dtype_dtype | by rewrite Hsh].
  simpl.
  destruct (jnp.any _) eqn:Elt.
  - right. simpl. split.
    + unfold specs.Array._fail_validation. case_bool_decide; eauto.
    + intros (_ & _ & Hw & _).
      rewrite (proj2 (pointwise_any_false _ _ _ _ _) Hw) in Elt. discriminate.
  - rewrite (greater_broadcast v _ bmax) by
      first [done | by rewrite asarray_dtype_dtype | by rewrite Hsh].
    simpl.
    match goal with |- context [jnp.any ?a] => destruct (jnp.any a) eqn:Egt end.
    + right. split.
      * simpl. unfold specs.Array._fail_validation. case_bool_decide; eauto.
      * intros (_ & _ & _ & Hw).
        rewrite (proj2 (pointwise_any_false _ _ _ _ _) Hw) in Egt. discriminate.
    + left. repeat split; try done; by eapply pointwise_any_false.
Qed.

End Bounded.

(** ** Generated values *)

Section Generate.
Context {J : jnp.Jax} {H : types.Helpers}.

Lemma within_between (v lo hi : np.ndarray) :
  conformance.ordered v lo hi ->
  conformance.within v lo hi <-> conformance.between v lo hi.
Proof.
  intros [Ho1 Ho2]. unfold conformance.within, conformance.between.
  split; intros [H1 H2]; split; intros i x y Hx Hy.
  - apply not_lt_le; [by eapply Ho1|]. apply negb_true_iff. by eapply (H1 i).
  - apply not_gt_le; [by eapply Ho2|]. apply negb_true_iff. by eapply (H2 i).
  - apply negb_true_iff, not_lt_le; [by eapply Ho1|]. by eapply (H1 i).
  - apply negb_true_iff, not_gt_le; [by eapply Ho2|]. by eapply (H2 i).
Qed.

Lemma ones_sized (shp : list nat) (d : np.DType) : np.sized (jnp.ones shp d).
Proof. unfold np.sized. simpl. by rewrite length_replicate. Qed.

(** A spec that [__init__] has made generates its stretched minimum. *)
Lemma BoundedArray_generate_built shp d minimum maximum name bmin :
  let b := {| specs.BoundedArray.super := specs.Array.__init__ shp d name;
              specs.BoundedArray._minimum := jnp.asarray_dtype minimum d;
              specs.BoundedArray._maximum := jnp.asarray_dtype maximum d |} in
  conformance.valid_dtypes -> conformance.conversions_typed -> np.wf minimum ->
  jnp.broadcast_to (jnp.asarray_dtype minimum d) shp = Ok bmin ->
  specs.BoundedArray.generate_value b = Ok bmin.
Proof.
  intros b Hv Hc Hmin E1. unfold specs.BoundedArray.generate_value.
  unfold specs.BoundedArray.shape, specs.BoundedArray.dtype,
    specs.BoundedArray.minimum, specs.Array.shape, specs.Array.dtype. simpl.
  rewrite Hv.
  pose proof (asarray_dtype_wf minimum d Hc Hmin) as [Hs Ht].
  rewrite asarray_dtype_dtype in Ht.
  destruct (broadcast_to_sized _ _ _ Hs E1) as (Sb & Shb & Db).
  rewrite (multiply_broadcast _ _ bmin); simpl.
  - f_equal. rewrite canonicalize_idemp.
    rewrite zip_with_replicate_l by (by rewrite Sb, Shb).
    apply broadcast_to_Ok in E1 as (_ & _ & ->). simpl.
    rewrite asarray_dtype_dtype. f_equal.
    rewrite <- (list_fmap_id (jnp.broadcast_data _ _ _)) at 2.
    apply Forall_fmap_ext_1, Forall_broadcast_data.
    eapply Forall_impl; [exact Ht|]. intros x Hx. by apply scalar_mul_one_l.
  - by rewrite canonicalize_idemp, asarray_dtype_dtype.
  - apply ones_sized.
  - done.
Qed.

Lemma pointwise_irrefl (a : np.ndarray) :
  conformance.pointwise (fun x l => negb (jnp.scalar_lt x l)) a a.
Proof.
  intros i x y Hx Hy. rewrite Hx in Hy. injection Hy as <-.
  by rewrite scalar_lt_irrefl.
Qed.

Lemma BoundedArray_generates_conforming shp d minimum maximum name b :
  conformance.valid_dtypes -> conformance.conversions_typed ->
  np.wf minimum -> np.wf maximum ->
  specs.BoundedArray.__init__ shp d minimum maximum name = Ok b ->
  exists v, specs.BoundedArray.generate_value b = Ok v
            /\ specs.BoundedArray.validate b v = Ok v.
Proof.
  intros Hv Hc Hmin Hmax Hb.
  destruct (BoundedArray_init_Ok _ _ _ _ _ _ (proj1 Hmin) (proj1 Hmax) Hb)
    as (bmin & bmax & -> & E1 & E2 & Hle).
  exists bmin. split; [by apply BoundedArray_generate_built|].
  destruct (broadcast_to_sized _ _ _ (asarray_dtype_sized _ d (proj1 Hmin)) E1)
    as (Sb & Shb & Db).
  destruct (BoundedArray_validate_built shp d minimum maximum name bmin bmax bmin
              Hv Sb E1 E2) as [(Hok & _)|(_ & Hn)]; [done|].
  destruct Hn. repeat split; try done.
  - by rewrite Db, asarray_dtype_dtype.
  - apply pointwise_irrefl.
Qed.

Lemma of_int_0_wf : np.wf (jnp.of_int 0).
Proof.
  split; [done|]. constructor; [|done].
  unfold jnp.of_int, jnp.canonicalize. cbn [np.dtype].
  destruct jnp.jax_enable_x64; vm_compute; reflexivity.
Qed.

Lemma Array_generates_conforming shp d name :
  conformance.valid_dtypes ->
  specs.Array.validate (specs.Array.__init__ shp d name)
    (specs.Array.generate_value (specs.Array.__init__ shp d name)) =
  Ok (specs.Array.generate_value (specs.Array.__init__ shp d name)).
Proof.
  intros Hv. apply Array_validate_Ok. repeat split.
  unfold specs.Array.generate_value, specs.Array.dtype. simpl.
  by rewrite Hv, canonicalize_idemp.
Qed.

Lemma constructed_generates_conforming (s : specs.ArraySpec) :
  conformance.valid_dtypes -> conformance.conversions_typed ->
  conformance.constructed s -> conformance.generates_conforming s.
Proof.
  intros Hv Hc [shp d name|shp d minimum maximum name b Hmin Hmax Hb
                |n d name x Hn Hx]; unfold conformance.generates_conforming,
    specs.generate_value, specs.validate; cbn [specs.as_BoundedArray specs.as_Array].
  - eexists. split; [done|]. by apply Array_generates_conforming.
  - exact (BoundedArray_generates_conforming _ _ _ _ _ _ Hv Hc Hmin Hmax Hb).
  - unfold specs.DiscreteArray.__init__ in Hx.
    case_bool_decide; [done|]. destruct (negb _); [done|].
    destruct (specs.BoundedArray.__init__ _ _ _ _ _) as [b|e] eqn:Hb; [|done].
    injection Hx as <-.
    exact (BoundedArray_generates_conforming _ _ _ _ _ _ Hv Hc of_int_0_wf Hn Hb).
Qed.

(** C6. Under the two assumptions on the parameters, every spec that a
    constructor has made of well-formed arrays generates a value that its
    own [validate] accepts and returns: an [Array], a [BoundedArray], a
    [DiscreteArray], and the observation spec of Connect4 built of two of
    them. *)
Theorem C6_generated_value_conforms
    (Hv : conformance.valid_dtypes) (Hc : conformance.conversions_typed) :
  (forall s, conformance.constructed s -> conformance.generates_conforming s)
  /\ (forall board_obs action_mask,
        conformance.constructed board_obs -> conformance.constructed action_mask ->
        let o := connect4.ObservationSpec.__init__ board_obs action_mask in
        exists v, connect4.ObservationSpec.generate_value o = Ok v
                  /\ connect4.ObservationSpec.validate o v = Ok v).
Proof.
  split; [intros s; by apply constructed_generates_conforming|].
  intros bo am Hbo Ham o.
  destruct (constructed_generates_conforming bo Hv Hc Hbo) as (vb & Gb & Vb).
  destruct (constructed_generates_conforming am Hv Hc Ham) as (va & Ga & Va).
  exists (connect4.mk_Observation vb va).
  unfold connect4.ObservationSpec.generate_value, connect4.ObservationSpec.validate.
  simpl. rewrite Gb, Ga, Vb, Va. done.
Qed.

(** X24. What the constructor and [validate] of [BoundedArray] test.
    The constructor returns a spec or raises [ValueError]; it raises it
    whenever an element of the stretched minimum exceeds the element of
    the stretched maximum at its place. On a spec that it has made,
    [validate] returns the value when the value has the shape and the
    dtype of the spec and none of its elements compares below its minimum
    or above its maximum, and raises [ValueError] in every other case.
    For elements that are ordered with their bounds the test is
    [m <= v <= M], and a value equal to a bound passes. *)
Theorem BoundedArray_validate_tests shp d minimum maximum name (v : np.ndarray)
    (Hv : conformance.valid_dtypes) (Hmin : np.sized minimum)
    (Hmax : np.sized maximum) (Hval : np.sized v) :
  match specs.BoundedArray.__init__ shp d minimum maximum name with
  | Ok b =>
      exists bmin bmax,
        jnp.broadcast_to (specs.BoundedArray.minimum b) (specs.BoundedArray.shape b) = Ok bmin
        /\ jnp.broadcast_to (specs.BoundedArray.maximum b) (specs.BoundedArray.shape b) = Ok bmax
        /\ ~ conformance.exceeds bmin bmax
        /\ (let conforms :=
              np.shape v = specs.BoundedArray.shape b
              /\ np.dtype v = specs.BoundedArray.dtype b
              /\ conformance.within v bmin bmax in
            (specs.BoundedArray.validate b v = Ok v /\ conforms)
            \/ ((exists text args,
                   specs.BoundedArray.validate b v = Raise (ValueError text args))
                /\ ~ conforms))
        /\ (conformance.ordered v bmin bmax ->
            conformance.within v bmin bmax <-> conformance.between v bmin bmax)
  | Raise e => exists text args, e = ValueError text args
  end
  /\ (forall bmin bmax,
        jnp.broadcast_to (jnp.asarray_dtype minimum d) shp = Ok bmin ->
        jnp.broadcast_to (jnp.asarray_dtype maximum d) shp = Ok bmax ->
        conformance.exceeds bmin bmax ->
        exists text args,
          specs.BoundedArray.__init__ shp d minimum maximum name =
          Raise (ValueError text args)).
Proof.
  split; [|intros bmin bmax; by apply BoundedArray_init_exceeds].
  destruct (specs.BoundedArray.__init__ shp d minimum maximum name) as [b|e] eqn:Hb;
    [|exact (BoundedArray_init_Raise _ _ _ _ _ _ Hmin Hmax Hb)].
  destruct (BoundedArray_init_Ok _ _ _ _ _ _ Hmin Hmax Hb)
    as (bmin & bmax & -> & E1 & E2 & Hle).
  exists bmin, bmax.
  split; [exact E1|]. split; [exact E2|].
  split; [intros Hex; by apply (not_pointwise_exceeds _ _ Hex)|].
  split; [|by apply within_between].
  cbv zeta.
  unfold specs.BoundedArray.shape, specs.BoundedArray.dtype,
    specs.Array.shape, specs.Array.dtype.
  cbn [specs.BoundedArray.super specs.Array.__init__ specs.Array._shape
       specs.Array._dtype].
  rewrite Hv.
  by apply BoundedArray_validate_built.
Qed.

End Generate.

Lemma examples_valid_dtypes :
  conformance.valid_dtypes (J := examples.jax32) (H := examples.helpers).
Proof. intros d. reflexivity. Qed.

Lemma zero_has_dtype (d : np.DType) : np.has_dtype d (jnp.zero d) = true.
Proof. by destruct d. Qed.

Lemma examples_conversions_typed :
  conformance.conversions_typed (J := examples.jax32).
Proof.
  intros d d' x _. simpl.
  destruct (np.has_dtype d' x) eqn:E; [done|]. apply zero_has_dtype.
Qed.

Lemma C6_generated_value_conforms_witness :
  (conformance.valid_dtypes (J := examples.jax32) (H := examples.helpers)
   /\ conformance.conversions_typed (J := examples.jax32))
  /\ conformance.generates_conforming (J := examples.jax32)
       (specs.IsArray
          (specs.Array.__init__ (H := examples.helpers) [2; 3] np.float64 "board")).
Proof.
  split; [split; [exact examples_valid_dtypes | exact examples_conversions_typed]|].
  apply (C6_generated_value_conforms (J := examples.jax32) (H := examples.helpers)
           examples_valid_dtypes examples_conversions_typed).
  constructor.
Defined.

Lemma BoundedArray_validate_tests_witness :
  let minimum := examples.int32_array [4; 0]%Z in
  let maximum := examples.scalar_array np.int32 (np.SInt 3) in
  let v := examples.int32_array [1; 2]%Z in
  (conformance.valid_dtypes (J := examples.jax32) (H := examples.helpers)
   /\ np.sized minimum /\ np.sized maximum /\ np.sized v)
  /\ exists text args,
       specs.BoundedArray.__init__ (J := examples.jax32) (H := examples.helpers)
         [2] np.int32 minimum maximum "action" = Raise (ValueError text args).
Proof.
  intros minimum maximum v.
  split; [repeat split; exact examples_valid_dtypes|].
  refine (proj2 (BoundedArray_validate_tests (J := examples.jax32) (H := examples.helpers)
                   [2] np.int32 minimum maximum "action" v
                   examples_valid_dtypes eq_refl eq_refl eq_refl)
            (examples.int32_array [4; 0]%Z) (examples.int32_array [3; 3]%Z)
            eq_refl eq_refl _).
  exists 0, (np.SInt 4), (np.SInt 3). repeat split.
Defined.

(** C2. [validate] misses the values that are not ordered with the
    bounds: a [float32] spec with the bounds 0 and 1 returns NaN as a
    valid value, although neither [0 <= NaN] nor [NaN <= 1] holds, where
    the message of its own error wants every value within
    [minimum <= value <= maximum]. *)
Theorem C2_validate_accepts_NaN :
  let zero := examples.scalar_array np.float32 (np.SFloat (S754_zero false)) in
  let one := examples.scalar_array np.float32 (np.SFloat (SFone 24 128)) in
  let nan := examples.scalar_array np.float32 (np.SFloat S754_nan) in
  exists b,
    specs.BoundedArray.__init__ (J := examples.jax32) (H := examples.helpers)
      [] np.float32 zero one "" = Ok b
    /\ jnp.broadcast_to (specs.BoundedArray.minimum b) [] = Ok zero
    /\ jnp.broadcast_to (specs.BoundedArray.maximum b) [] = Ok one
    /\ specs.BoundedArray.validate (J := examples.jax32) b nan = Ok nan
    /\ ~ conformance.between nan zero one.
Proof.
  intros zero one nan. eexists. split; [reflexivity|].
  split; [reflexivity|]. split; [reflexivity|]. split; [reflexivity|].
  intros [Hlo _]. specialize (Hlo 0 _ _ eq_refl eq_refl). discriminate Hlo.
Qed.

(** ** Conversion to [dm_env] specs *)

Section Conversion.
Context {J : jnp.Jax} {H : types.Helpers} {Nested : Type}.

Lemma or_None_empty : specs.or_None "" = None.
Proof. reflexivity. Qed.

Lemma or_None_nonempty (x : string) : x <> "" -> specs.or_None x = Some x.
Proof. intros Hx. unfold specs.or_None. by case_bool_decide. Qed.

(** C9. [jumanji_specs_to_dm_env_specs] raises [ValueError] on a nested
    spec and on nothing else. A [DiscreteArray] becomes a [dm_env]
    [DiscreteArray], although it is a [BoundedArray] and an [Array] as
    well; a [BoundedArray] that is not discrete becomes a [BoundedArray]
    and a plain [Array] an [Array]. Shape, dtype, bounds and [num_values]
    are kept and the empty name becomes [None]. *)
Theorem C9_jumanji_specs_to_dm_env_specs :
  (forall spec : specs.Spec Nested,
     (exists text args,
        specs.jumanji_specs_to_dm_env_specs spec = Raise (ValueError text args))
     <-> specs.isinstance_Array spec = None)
  /\ (forall spec : specs.Spec Nested,
        specs.isinstance_Array spec = None <-> exists n, spec = specs.Nest n)
  /\ (forall d : specs.DiscreteArray.t,
        specs.jumanji_specs_to_dm_env_specs (Nested := Nested)
          (specs.Leaf (specs.IsDiscreteArray d)) =
        Ok (dm_env.OfDiscreteArray
              {| dm_env.num_values := specs.DiscreteArray.num_values d;
                 dm_env.d_dtype := specs.DiscreteArray.dtype d;
                 dm_env.d_name := specs.or_None (specs.DiscreteArray.name d) |}))
  /\ (forall b : specs.BoundedArray.t,
        specs.jumanji_specs_to_dm_env_specs (Nested := Nested)
          (specs.Leaf (specs.IsBoundedArray b)) =
        Ok (dm_env.OfBoundedArray
              {| dm_env.b_shape := specs.BoundedArray.shape b;
                 dm_env.b_dtype := specs.BoundedArray.dtype b;
                 dm_env.minimum := specs.BoundedArray.minimum b;
                 dm_env.maximum := specs.BoundedArray.maximum b;
                 dm_env.b_name := specs.or_None (specs.BoundedArray.name b) |}))
  /\ (forall a : specs.Array.t,
        specs.jumanji_specs_to_dm_env_specs (Nested := Nested)
          (specs.Leaf (specs.IsArray a)) =
        Ok (dm_env.OfArray
              {| dm_env.shape := specs.Array.shape a;
                 dm_env.dtype := specs.Array.dtype a;
                 dm_env.name := specs.or_None (specs.Array.name a) |}))
  /\ specs.or_None "" = None
  /\ (forall x, x <> "" -> specs.or_None x = Some x).
Proof.
  repeat split; try reflexivity.
  - intros (text & args & Hr). destruct spec as [[a|b|d]|n]; try discriminate Hr.
    reflexivity.
  - intros Hn. destruct spec as [[a|b|d]|n]; try discriminate Hn.
    simpl. eauto.
  - intros Hn. destruct spec as [[a|b|d]|n]; try discriminate Hn. eauto.
  - intros [n ->]. reflexivity.
  - apply or_None_nonempty.
Qed.

End Conversion.

(** ** Wrappers *)

Section WrapperProperties.
Context {J : jnp.Jax} {H : types.Helpers} {S : env.Signature}.

Lemma last_true (timestep : env.TimeStep) :
  types.last timestep = true <-> types.step_type timestep = types.LAST.
Proof. unfold types.last. by rewrite bool_decide_eq_true. Qed.

Lemma step_AutoResetWrapper_not_last (e : wrappers.Env) state action :
  types.last (wrappers.step e state action).2 = false ->
  wrappers.step (wrappers.AutoResetWrapper e) state action =
  wrappers.step e state action.
Proof.
  simpl. destruct (wrappers.step e state action) as [s1 ts1]; simpl.
  intros ->. reflexivity.
Qed.

Lemma step_AutoResetWrapper_last (e : wrappers.Env) state action :
  types.last (wrappers.step e state action).2 = true ->
  wrappers.step (wrappers.AutoResetWrapper e) state action =
  wrappers.auto_reset (wrappers.reset e)
    (wrappers.step e state action).1 (wrappers.step e state action).2.
Proof.
  simpl. destruct (wrappers.step e state action) as [s1 ts1]; simpl.
  intros ->. simpl. by destruct (wrappers.auto_reset _ _ _).
Qed.

(** C4. [AutoResetWrapper.step] returns what the wrapped [step] returns
    when its timestep is not the last one of an episode. When it is, the
    state is the one that [reset] makes from the key of the state reached,
    observation and step type are those of the timestep of that [reset],
    and reward, discount and extras are those of the last transition. *)
Theorem C4_AutoResetWrapper_step (e : wrappers.Env) (state : env.State)
    (action : env.Action) :
  let inner := wrappers.step e state action in
  let outer := wrappers.step (wrappers.AutoResetWrapper e) state action in
  let fresh := wrappers.reset e (env.key inner.1) in
  if decide (types.step_type inner.2 = types.LAST)
  then outer.1 = fresh.1
       /\ types.observation outer.2 = types.observation fresh.2
       /\ types.step_type outer.2 = types.step_type fresh.2
       /\ types.reward outer.2 = types.reward inner.2
       /\ types.discount outer.2 = types.discount inner.2
       /\ types.extras outer.2 = types.extras inner.2
  else outer = inner.
Proof.
  intros inner outer fresh. subst outer.
  case_decide as Hl.
  - rewrite step_AutoResetWrapper_last by by apply last_true.
    fold inner. unfold wrappers.auto_reset. fold fresh.
    by destruct fresh.
  - apply step_AutoResetWrapper_not_last.
    fold inner. destruct (types.last inner.2) eqn:E; [|done].
    by apply last_true in E.
Qed.

(** A value that is not below a positive one is not zero. *)
Lemma not_below_positive_truthy (y x : np.scalar) :
  jnp.comparable y x = true -> jnp.scalar_lt y x = false ->
  conformance.positive x = true -> jnp.truthy y = true.
Proof.
  destruct y as [b|z|f], x as [b'|z'|f']; simpl; try done.
  - destruct b, b'; done.
  - intros _ Hlt%Z.ltb_ge Hpos%Z.ltb_lt. apply negb_true_iff, Z.eqb_neq. lia.
  - destruct f as [s|s| |s m e]; try done.
    destruct f' as [s'|s'| |s' m' e']; simpl; try done; by destruct s'.
Qed.

Lemma maximum_of_alive_nonzero (m a : np.ndarray) :
  conformance.maximum_of m a ->
  (exists x, x ∈ np.data a /\ conformance.positive x = true) ->
  conformance.nonzero m.
Proof.
  intros (y & Hy & Hmax) (x & Hx & Hpos). exists y. split; [done|].
  destruct (Hmax x Hx) as [Hc Hlt]. by eapply not_below_positive_truthy.
Qed.

(** C5. With the default aggregators, [reset] and [step] of a
    [MultiToSingleWrapper] return the state of the wrapped call and a
    timestep whose reward is [jnp.sum] of the rewards of the agents,
    whose discount is [jnp.max] of their discounts, and whose step type
    and observation are those of the wrapped timestep. The discount,
    being the maximum, is not zero as soon as the discount of one agent
    is positive. *)
Theorem C5_MultiToSingleWrapper (e : wrappers.Env) (key : env.PRNGKey)
    (state : env.State) (action : env.Action) :
  let w := wrappers.MultiToSingleWrapper__init__ e in
  let aggregated (inner outer : env.State * env.TimeStep) :=
    outer.1 = inner.1
    /\ types.reward outer.2 = jnp.sum (types.reward inner.2)
    /\ types.discount outer.2 = jnp.max (types.discount inner.2)
    /\ types.step_type outer.2 = types.step_type inner.2
    /\ types.observation outer.2 = types.observation inner.2
    /\ (conformance.maximum_of (jnp.max (types.discount inner.2))
          (types.discount inner.2) ->
        (exists x, x ∈ np.data (types.discount inner.2) /\
                   conformance.positive x = true) ->
        conformance.nonzero (types.discount outer.2)) in
  aggregated (wrappers.step e state action) (wrappers.step w state action)
  /\ aggregated (wrappers.reset e key) (wrappers.reset w key).
Proof.
  simpl. split.
  - destruct (wrappers.step e state action) as [s ts]. simpl.
    repeat split. apply maximum_of_alive_nonzero.
  - destruct (wrappers.reset e key) as [s ts]. simpl.
    repeat split. apply maximum_of_alive_nonzero.
Qed.

End WrapperProperties.

Section WrapperTransparency.
Context {J : jnp.Jax} {H : types.Helpers} {S : env.Signature}.
Variable Environment_unwrapped : env.Environment -> wrappers.Env.

Lemma unwrapped_innermost (e : wrappers.Env) :
  wrappers.unwrapped Environment_unwrapped e =
  Environment_unwrapped (wrappers.innermost e).
Proof. induction e; simpl; auto. Qed.

(** Wrappers stacked [n] deep around an environment. *)
Lemma unwrapped_nested (n : nat) (e : wrappers.Env) :
  wrappers.unwrapped Environment_unwrapped (Nat.iter n wrappers.Wrapper e) =
  wrappers.unwrapped Environment_unwrapped e.
Proof. induction n; simpl; auto. Qed.

(** C10. A [Wrapper] answers [reset], [step], [observation_spec] and
    [action_spec] with the answers of the environment it wraps, and its
    [unwrapped] is the [unwrapped] of that environment. Provided that an
    environment that is not a wrapper is its own [unwrapped], the
    [unwrapped] of any stack of wrappers is the environment at its
    bottom. *)
Theorem C10_Wrapper_transparent (e : wrappers.Env)
    (Hself : forall b, Environment_unwrapped b = wrappers.Base b) :
  (forall key, wrappers.reset (wrappers.Wrapper e) key = wrappers.reset e key)
  /\ (forall state action,
        wrappers.step (wrappers.Wrapper e) state action =
        wrappers.step e state action)
  /\ wrappers.observation_spec (wrappers.Wrapper e) = wrappers.observation_spec e
  /\ wrappers.action_spec (wrappers.Wrapper e) = wrappers.action_spec e
  /\ wrappers.unwrapped Environment_unwrapped (wrappers.Wrapper e) =
     wrappers.unwrapped Environment_unwrapped e
  /\ (forall n,
        wrappers.unwrapped Environment_unwrapped (Nat.iter n wrappers.Wrapper e) =
        wrappers.unwrapped Environment_unwrapped e)
  /\ wrappers.unwrapped Environment_unwrapped e =
     wrappers.Base (wrappers.innermost e).
Proof.
  repeat split; try reflexivity.
  - intros n. apply unwrapped_nested.
  - by rewrite unwrapped_innermost, Hself.
Qed.

End WrapperTransparency.

Lemma C10_Wrapper_transparent_witness :
  let stack :=
    wrappers.Wrapper (S := examples.counting)
      (wrappers.AutoResetWrapper (wrappers.Wrapper (wrappers.Base examples.counter))) in
  (forall b, wrappers.Base (S := examples.counting) b = wrappers.Base b)
  /\ wrappers.unwrapped wrappers.Base stack = wrappers.Base examples.counter
  /\ wrappers.reset (wrappers.Wrapper stack) 7%Z = wrappers.reset stack 7%Z.
Proof.
  intros stack.
  split; [reflexivity|].
  pose proof (C10_Wrapper_transparent (S := examples.counting)
                wrappers.Base stack (fun b => eq_refl)) as (Hr & _ & _ & _ & _ & _ & Hu).
  split; [exact Hu | exact (Hr 7%Z)].
Defined.

(** ** The Connector environment *)

Section ConnectorProperties.
Context {J : jnp.Jax} {D : connector.Deps}.

Lemma canonicalize_bool : jnp.canonicalize np.bool_ = np.bool_.
Proof. unfold jnp.canonicalize. by destruct jnp.jax_enable_x64. Qed.

(** C7. The action mask of an agent has five boolean entries. The one of
    the no-op is true; the one of action [i], for [i] from 1 to 4, is what
    [is_valid_position] answers for the grid, the agent and the position
    that [move] reaches from the position of the agent by action [i]. *)
Theorem C7_get_action_mask (self : connector.t) (agent : connector.Agent)
    (grid : connector.Grid) :
  let valid (i : nat) :=
    connector.is_valid_position grid agent
      (connector.move (connector.position agent) i) in
  connector._get_action_mask self agent grid =
  {| np.shape := [5]; np.dtype := np.bool_;
     np.data := [np.SBool true; np.SBool (valid 1); np.SBool (valid 2);
                 np.SBool (valid 3); np.SBool (valid 4)] |}.
Proof.
  intros valid. unfold connector._get_action_mask, jnp.at_set, jnp.ones.
  rewrite canonicalize_bool. reflexivity.
Qed.

(** C3. [Connector.step] returns [None] for every state and action: it
    returns no next state and no timestep. *)
Theorem C3_Connector_step_returns_None (self : connector.t)
    (state : connector.State) (action : np.ndarray) :
  connector.step self state action = None
  /\ forall next : connector.State * connector.TimeStep,
       connector.step self state action <> Some next.
Proof. split; [reflexivity | discriminate]. Qed.

End ConnectorProperties.

(** ** Purity *)

Section Purity.
Context {J : jnp.Jax} {H : types.Helpers} {S : env.Signature} {D : connector.Deps}.

(** The wrapped environment is never replaced. *)
Lemma dm_reset_env (w : wrappers.JumanjiToDMEnvWrapper) :
  wrappers.dm_env_ (wrappers.dm_reset w).2 = wrappers.dm_env_ w.
Proof.
  unfold wrappers.dm_reset, wrappers.jit.
  destruct (env.random_split _) as [reset_key k].
  by destruct (wrappers.reset _ _).
Qed.

Lemma dm_reset_state (w : wrappers.JumanjiToDMEnvWrapper) :
  wrappers.dm_state (wrappers.dm_reset w).2 =
  Some (wrappers.reset (wrappers.dm_env_ w) (env.random_split (wrappers.dm_key w)).1).1.
Proof.
  unfold wrappers.dm_reset, wrappers.jit.
  destruct (env.random_split _) as [reset_key k]. simpl.
  by destruct (wrappers.reset _ _).
Qed.

Lemma dm_reset_key (w : wrappers.JumanjiToDMEnvWrapper) :
  wrappers.dm_key (wrappers.dm_reset w).2 = (env.random_split (wrappers.dm_key w)).2.
Proof.
  unfold wrappers.dm_reset, wrappers.jit.
  destruct (env.random_split _) as [reset_key k]. simpl.
  by destruct (wrappers.reset _ _).
Qed.

Lemma dm_step_frame (w w' : wrappers.JumanjiToDMEnvWrapper) action timestep :
  wrappers.dm_step w action = Ok (timestep, w') ->
  wrappers.dm_env_ w' = wrappers.dm_env_ w /\ wrappers.dm_key w' = wrappers.dm_key w
  /\ exists state,
       wrappers.dm_state w = Some state /\
       wrappers.dm_state w' =
       Some (wrappers.step (wrappers.dm_env_ w) state action).1.
Proof.
  unfold wrappers.dm_step, wrappers.jit.
  destruct (wrappers.dm_state w) as [state|]; [|discriminate].
  destruct (wrappers.step _ _ _) as [s' ts] eqn:E.
  intros [= <- <-]. simpl. repeat split. exists state. by rewrite E.
Qed.

End Purity.

(** The adapter keeps a state: a [reset] changes the object, and a
    second [reset] returns another timestep. *)
Example dm_reset_twice :
  let w := wrappers.JumanjiToDMEnvWrapper__init__ (S := examples.counting)
             (wrappers.Base examples.counter) None in
  let first := wrappers.dm_reset w in
  let second := wrappers.dm_reset first.2 in
  first.2 <> w /\ first.1 <> second.1
  /\ dm_env.observation first.1 = 0%Z /\ dm_env.observation second.1 = 2%Z.
Proof.
  cbv zeta. repeat split.
  - intros Heq. apply (f_equal wrappers.dm_state) in Heq. discriminate Heq.
  - intros Heq. apply (f_equal dm_env.observation) in Heq. discriminate Heq.
Qed.

(** ** The operations of an environment are pure *)

Section PureOperations.
Context {J : jnp.Jax} {H : types.Helpers} {S : env.Signature} {D : connector.Deps}.
Variable Attributes : Type.
Variable env_reset :
  Attributes -> env.PRNGKey ->
  effects.call Attributes env.PRNGKey (env.State * env.TimeStep).
Variable env_step :
  Attributes -> env.State -> env.Action ->
  effects.call Attributes (env.State * env.Action) (env.State * env.TimeStep).
Variable Generator : Type.
Variable generate :
  Generator -> connector.PRNGKey ->
  effects.call Generator connector.PRNGKey connector.State.

Local Abbreviation Object := (effects.Object Attributes).
Local Abbreviation reset := (effects.reset Attributes env_reset).
Local Abbreviation step := (effects.step Attributes env_reset env_step).
Local Abbreviation connector_reset := (effects.connector_reset Generator generate).

Hypothesis Hreset : forall attributes key,
  effects.untouched (env_reset attributes key) attributes key.
Hypothesis Hstep : forall attributes state action,
  effects.untouched (env_step attributes state action) attributes (state, action).
Hypothesis Hgenerate : forall generator key,
  effects.untouched (generate generator key) generator key.

Lemma reset_untouched (self : Object) (key : env.PRNGKey) :
  effects.untouched (reset self key) self key.
Proof.
  induction self as [attributes|_env IH|_env IH ra da|_env IH|_env IH]; simpl.
  - destruct (Hreset attributes key) as [Hself Hargs]. split; simpl; congruence.
  - destruct IH as [Hself Hargs]. split; simpl; congruence.
  - destruct IH as [Hself Hargs].
    destruct (effects.result (reset _env key)) as [state timestep].
    split; simpl; congruence.
  - destruct IH as [Hself Hargs].
    destruct (env.vmap_reset _ key) as [state timestep].
    split; simpl; congruence.
  - destruct IH as [Hself Hargs]. split; simpl; congruence.
Qed.

Lemma auto_reset_untouched (_env : Object) state timestep :
  effects.untouched (effects.auto_reset Attributes env_reset _env state timestep)
    _env (state, timestep).
Proof.
  unfold effects.auto_reset.
  destruct (reset_untouched _env (env.key state)) as [Hself _].
  destruct (effects.result (reset _env (env.key state))) as [state' reset_timestep].
  by split.
Qed.

Lemma step_untouched (self : Object) (state : env.State) (action : env.Action) :
  effects.untouched (step self state action) self (state, action).
Proof.
  induction self as [attributes|_env IH|_env IH ra da|_env IH|_env IH]; simpl.
  - destruct (Hstep attributes state action) as [Hself Hargs].
    split; simpl; congruence.
  - destruct IH as [Hself Hargs]. split; simpl; congruence.
  - destruct IH as [Hself Hargs].
    destruct (effects.result (step _env state action)) as [state' timestep].
    split; simpl; congruence.
  - destruct IH as [Hself Hargs].
    destruct (env.vmap_step _ state action) as [state' timestep].
    split; simpl; congruence.
  - destruct IH as [Hself Hargs].
    destruct (effects.result (step _env state action)) as [state' timestep].
    destruct (auto_reset_untouched
                (effects.self_after (step _env state action)) state' timestep)
      as [Hself' _].
    destruct (wrappers.cond _ _ _ state' timestep) as [state'' timestep'].
    split; simpl; congruence.
Qed.

Lemma connector_reset_untouched (self : effects.Connector Generator)
    (key : connector.PRNGKey) :
  effects.untouched (connector_reset self key) self key.
Proof.
  unfold effects.connector_reset.
  destruct (connector.random_split key) as [generator_key key'].
  destruct (Hgenerate (effects._generator Generator self) generator_key)
    as [Hself _].
  split; simpl; [|done]. rewrite Hself. by destruct self.
Qed.


End PureOperations.


(** The statement is not one that holds of every method: an environment
    whose [reset] counts its calls in an attribute is changed by a call,
    and a second call with the same key returns another state. *)
Example a_tally_is_not_pure :
  let reset := effects.reset (S := examples.counting) Z effects.tally_reset in
  let stack := effects.AutoResetWrapper Z (effects.Base Z 0%Z) in
  let first := reset stack 5%Z in
  let second := reset (effects.self_after first) (effects.args_after first) in
  effects.self_after first <> stack
  /\ effects.args_after first = 5%Z
  /\ (effects.result first).1 = 5%Z
  /\ (effects.result second).1 = 6%Z.
Proof. cbv zeta. repeat split. discriminate. Qed.

(** * Further properties of the code *)

(** ** Pickling and [replace] *)

Section Pickling.
Context {J : jnp.Jax} {H : types.Helpers}.

Lemma asarray_dtype_canonicalize (a : np.ndarray) (d : np.DType) :
  jnp.asarray_dtype a (jnp.canonicalize d) = jnp.asarray_dtype a d.
Proof. unfold jnp.asarray_dtype. by rewrite canonicalize_idemp. Qed.

Lemma asarray_dtype_same (a : np.ndarray) (d : np.DType) :
  np.dtype a = jnp.canonicalize d -> jnp.asarray_dtype a d = a.
Proof. intros Hd. unfold jnp.asarray_dtype. by rewrite decide_True. Qed.

Lemma asarray_dtype_idemp (a : np.ndarray) (d : np.DType) :
  jnp.asarray_dtype (jnp.asarray_dtype a d) d = jnp.asarray_dtype a d.
Proof. apply asarray_dtype_same, asarray_dtype_dtype. Qed.

Lemma is_integer_canonicalize (d : np.DType) :
  np.is_integer (jnp.canonicalize d) = np.is_integer d.
Proof. unfold jnp.canonicalize. by destruct jnp.jax_enable_x64, d. Qed.

Lemma Array_init_canonicalize shp d name :
  conformance.valid_dtypes ->
  specs.Array.__init__ shp (jnp.canonicalize d) name = specs.Array.__init__ shp d name.
Proof.
  intros Hv. unfold specs.Array.__init__. by rewrite !Hv, canonicalize_idemp.
Qed.

(** The constructor sees its bounds and its dtype only through
    [jnp.asarray(bound, dtype)] and [get_valid_dtype]. *)
Lemma BoundedArray_init_canonicalize shp d minimum maximum name :
  conformance.valid_dtypes ->
  specs.BoundedArray.__init__ shp (jnp.canonicalize d)
    (jnp.asarray_dtype minimum d) (jnp.asarray_dtype maximum d) name =
  specs.BoundedArray.__init__ shp d minimum maximum name.
Proof.
  intros Hv. unfold specs.BoundedArray.__init__.
  rewrite !asarray_dtype_canonicalize, !asarray_dtype_idemp.
  by rewrite Array_init_canonicalize.
Qed.

Lemma BoundedArray_init_canonicalize_dtype shp d minimum maximum name :
  conformance.valid_dtypes ->
  specs.BoundedArray.__init__ shp (jnp.canonicalize d) minimum maximum name =
  specs.BoundedArray.__init__ shp d minimum maximum name.
Proof.
  intros Hv. unfold specs.BoundedArray.__init__.
  rewrite !asarray_dtype_canonicalize. by rewrite Array_init_canonicalize.
Qed.

Lemma DiscreteArray_init_canonicalize n d name :
  conformance.valid_dtypes -> np.is_integer d = true ->
  specs.DiscreteArray.__init__ n (jnp.canonicalize d) name =
  specs.DiscreteArray.__init__ n d name.
Proof.
  intros Hv Hi. unfold specs.DiscreteArray.__init__.
  rewrite is_integer_canonicalize, Hi. simpl.
  by rewrite (BoundedArray_init_canonicalize_dtype _ _ _ _ _ Hv).
Qed.

(** The fields of a spec that [BoundedArray.__init__] returns. *)
Lemma BoundedArray_init_fields shp d minimum maximum name b :
  specs.BoundedArray.__init__ shp d minimum maximum name = Ok b ->
  b = {| specs.BoundedArray.super := specs.Array.__init__ shp d name;
         specs.BoundedArray._minimum := jnp.asarray_dtype minimum d;
         specs.BoundedArray._maximum := jnp.asarray_dtype maximum d |}.
Proof.
  unfold specs.BoundedArray.__init__.
  destruct (reraise_ValueError _ (jnp.broadcast_to (jnp.asarray_dtype minimum d) shp))
    as [bmin|e]; [|done].
  destruct (reraise_ValueError _ (jnp.broadcast_to (jnp.asarray_dtype maximum d) shp))
    as [bmax|e]; [|done].
  simpl. destruct (jnp.greater bmin bmax) as [above|e]; [|done].
  simpl. destruct (jnp.any above); [done|]. by intros [= <-].
Qed.

Lemma DiscreteArray_init_fields n d name x :
  specs.DiscreteArray.__init__ n d name = Ok x ->
  (0 < n)%Z /\ np.is_integer d = true
  /\ specs.DiscreteArray._num_values x = n
  /\ specs.BoundedArray.__init__ [] d (jnp.of_int 0) (jnp.of_int (n - 1)) name =
     Ok (specs.DiscreteArray.super x).
Proof.
  unfold specs.DiscreteArray.__init__.
  case_bool_decide as Hn; [done|].
  destruct (np.is_integer d); [|done]. simpl.
  destruct (specs.BoundedArray.__init__ _ _ _ _ _) as [b|e]; [|done].
  intros [= <-]. simpl. repeat split. lia.
Qed.

(** X1. Pickling loses nothing: provided that [get_valid_dtype] returns
    the dtype that JAX makes of the one asked for, calling the class on
    the arguments that [__reduce__] returns gives back the spec, for
    every [Array], [BoundedArray] and [DiscreteArray] that its constructor
    has made. *)
Theorem pickle_round_trip (Hv : conformance.valid_dtypes) :
  (forall shp d name,
     let s := specs.IsArray (specs.Array.__init__ shp d name) in
     pickling.reconstruct (pickling.__reduce__ s) = Ok s)
  /\ (forall shp d minimum maximum name b,
        specs.BoundedArray.__init__ shp d minimum maximum name = Ok b ->
        pickling.reconstruct (pickling.__reduce__ (specs.IsBoundedArray b)) =
        Ok (specs.IsBoundedArray b))
  /\ (forall n d name x,
        specs.DiscreteArray.__init__ n d name = Ok x ->
        pickling.reconstruct (pickling.__reduce__ (specs.IsDiscreteArray x)) =
        Ok (specs.IsDiscreteArray x)).
Proof.
  repeat split.
  - intros shp d name. simpl. unfold pickling.Array__reduce__. simpl.
    rewrite Hv. by rewrite Array_init_canonicalize.
  - intros shp d minimum maximum name b Hb.
    pose proof (BoundedArray_init_fields _ _ _ _ _ _ Hb) as ->.
    simpl. unfold pickling.BoundedArray__reduce__. simpl.
    rewrite Hv, BoundedArray_init_canonicalize by done. by rewrite Hb.
  - intros n d name x Hx.
    destruct (DiscreteArray_init_fields _ _ _ _ Hx) as (_ & Hi & Hn & Hb).
    pose proof (BoundedArray_init_fields _ _ _ _ _ _ Hb) as Hf.
    simpl. unfold pickling.DiscreteArray__reduce__. rewrite Hn, Hf. simpl.
    rewrite Hv, DiscreteArray_init_canonicalize by done. by rewrite Hx.
Qed.

(** X2. [replace] is the constructor called anew: on the arguments that
    the spec was made of, each one replaced by the one given for it, if
    any. For the bounds of a [BoundedArray] these are the bounds as
    converted to the dtype of the spec, also when [replace] is given
    another dtype. *)
Theorem replace_is_construction (Hv : conformance.valid_dtypes) :
  (forall shp d name shape' dtype' name',
     pickling.Array_replace (specs.Array.__init__ shp d name) shape' dtype' name' =
     specs.Array.__init__ (default shp shape') (default d dtype') (default name name'))
  /\ (forall shp d minimum maximum name b shape' dtype' minimum' maximum' name',
        specs.BoundedArray.__init__ shp d minimum maximum name = Ok b ->
        pickling.BoundedArray_replace b shape' dtype' minimum' maximum' name' =
        specs.BoundedArray.__init__ (default shp shape') (default d dtype')
          (default (jnp.asarray_dtype minimum d) minimum')
          (default (jnp.asarray_dtype maximum d) maximum')
          (default name name'))
  /\ (forall n d name x num_values' dtype' name',
        specs.DiscreteArray.__init__ n d name = Ok x ->
        pickling.DiscreteArray_replace x num_values' dtype' name' =
        specs.DiscreteArray.__init__ (default n num_values') (default d dtype')
          (default name name')).
Proof.
  repeat split.
  - intros shp d name shape' dtype' name'. unfold pickling.Array_replace.
    unfold specs.Array.shape, specs.Array.dtype, specs.Array.name. simpl.
    destruct dtype' as [d'|]; simpl; [done|].
    rewrite Hv. by rewrite Array_init_canonicalize.
  - intros shp d minimum maximum name b shape' dtype' minimum' maximum' name' Hb.
    pose proof (BoundedArray_init_fields _ _ _ _ _ _ Hb) as ->.
    unfold pickling.BoundedArray_replace.
    unfold specs.BoundedArray.shape, specs.BoundedArray.dtype,
      specs.BoundedArray.name, specs.BoundedArray.minimum,
      specs.BoundedArray.maximum, specs.Array.shape, specs.Array.dtype,
      specs.Array.name. simpl.
    destruct dtype' as [d'|]; simpl; [done|].
    by rewrite Hv, BoundedArray_init_canonicalize_dtype.
  - intros n d name x num_values' dtype' name' Hx.
    destruct (DiscreteArray_init_fields _ _ _ _ Hx) as (_ & Hi & Hn & Hb).
    pose proof (BoundedArray_init_fields _ _ _ _ _ _ Hb) as Hf.
    unfold pickling.DiscreteArray_replace.
    unfold specs.DiscreteArray.num_values, specs.DiscreteArray.dtype,
      specs.DiscreteArray.name, specs.BoundedArray.dtype,
      specs.BoundedArray.name, specs.Array.dtype, specs.Array.name.
    rewrite Hn, Hf. simpl.
    destruct dtype' as [d'|]; simpl; [done|].
    by rewrite Hv, DiscreteArray_init_canonicalize.
Qed.

End Pickling.

(** ** Conversion of observations to [gym] *)

Section GymObservations.

Lemma convert_items_supported (l : list (string * gym_obs.PyObject)) :
  Forall (fun kv =>
            if gym_obs.supported kv.2
            then exists g, gym_obs.jumanji_to_gym_obs kv.2 = gym_obs.Converted g
                           /\ gym_obs.gym_leaves g = gym_obs.leaves kv.2
            else gym_obs.jumanji_to_gym_obs kv.2 =
                 gym_obs.NotImplementedError gym_obs.not_implemented) l ->
  if gym_obs.all_items gym_obs.supported l
  then exists d, gym_obs.convert_items gym_obs.jumanji_to_gym_obs l = gym_obs.Converted d
                 /\ gym_obs.leaves_under gym_obs.gym_leaves d =
                    gym_obs.leaves_under gym_obs.leaves l
  else gym_obs.convert_items gym_obs.jumanji_to_gym_obs l =
       gym_obs.NotImplementedError gym_obs.not_implemented.
Proof.
  induction 1 as [|[key value] l Hv _ IH]; simpl.
  - by exists [].
  - simpl in Hv. destruct (gym_obs.supported value); simpl.
    + destruct Hv as (g & -> & Hg).
      destruct (gym_obs.all_items gym_obs.supported l).
      * destruct IH as (d & -> & Hd). eexists. split; [done|].
        simpl. by rewrite Hg, Hd.
      * by rewrite IH.
    + by rewrite Hv.
Qed.

(** The conversion of an object, by induction on the objects that it
    holds. *)
Lemma to_gym_obs_cases (o : gym_obs.PyObject) :
  if gym_obs.supported o
  then exists g, gym_obs.jumanji_to_gym_obs o = gym_obs.Converted g
                 /\ gym_obs.gym_leaves g = gym_obs.leaves o
  else gym_obs.jumanji_to_gym_obs o =
       gym_obs.NotImplementedError gym_obs.not_implemented.
Proof.
  induction o as [a|vars IH|fields IH|] using gym_obs.PyObject_nested_ind; simpl.
  - by eexists.
  - apply convert_items_supported in IH.
    destruct (gym_obs.all_items gym_obs.supported vars).
    + destruct IH as (d & -> & Hd). by eexists.
    + by rewrite IH.
  - apply convert_items_supported in IH.
    destruct (gym_obs.all_items gym_obs.supported fields).
    + destruct IH as (d & -> & Hd). by eexists.
    + by rewrite IH.
  - done.
Qed.

(** X3. [jumanji_to_gym_obs] converts an object exactly when every part
    of it is a jax array or a container with [__dict__] or [_asdict]; it
    raises [NotImplementedError] otherwise. The result holds the same
    arrays under the same names, in the same order. *)
Theorem jumanji_to_gym_obs_supported (o : gym_obs.PyObject) :
  if gym_obs.supported o
  then exists g, gym_obs.jumanji_to_gym_obs o = gym_obs.Converted g
                 /\ gym_obs.gym_leaves g = gym_obs.leaves o
  else gym_obs.jumanji_to_gym_obs o =
       gym_obs.NotImplementedError gym_obs.not_implemented.
Proof. exact (to_gym_obs_cases o). Qed.

End GymObservations.

(** ** Conversion of specs to [gym] spaces *)

Section GymSpaces.
Context {J : jnp.Jax} {H : types.Helpers} {G : gym.Constructors}.

Lemma convert_vars_entries (convert : gym.SpecObject -> result gym.Space)
    (vars : list (string * option gym.SpecObject)) :
  match gym.convert_vars convert vars with
  | Ok spaces =>
      map fst spaces = gym.spec_keys vars
      /\ Forall2 (fun entry attribute =>
                    entry.1 = attribute.1
                    /\ exists value, attribute.2 = Some value
                                     /\ convert value = Ok entry.2)
           spaces (filter (fun attribute => is_Some attribute.2) vars)
  | Raise e =>
      exists key value, (key, Some value) ∈ vars /\ convert value = Raise e
  end.
Proof.
  induction vars as [|[key [value|]] vars IH]; simpl.
  - split; [done|]. constructor.
  - destruct (convert value) as [space|e] eqn:Evalue; simpl.
    + destruct (gym.convert_vars convert vars) as [rest|e]; simpl.
      * destruct IH as [Hkeys Hall]. split; [by rewrite Hkeys|].
        rewrite filter_cons_True by (by eexists). constructor; [|done].
        split; [done|]. by exists value.
      * destruct IH as (key' & value' & Hin & Hraise).
        exists key', value'. split; [by apply list_elem_of_further|done].
    + exists key, value. split; [apply list_elem_of_here|done].
  - rewrite filter_cons_False by (simpl; by intros [? ?]).
    destruct (gym.convert_vars convert vars) as [rest|e].
    + done.
    + destruct IH as (key' & value' & Hin & Hraise).
      exists key', value'. split; [by apply list_elem_of_further|done].
Qed.

(** X4. What [jumanji_specs_to_gym_spaces] passes to [gym.spaces.Dict]
    for a nested spec: one entry for each attribute of the spec that is
    a [Spec], under the name of the attribute and in the order of the
    attributes, holding the conversion of the attribute; the other
    attributes are left out. When the conversion of an attribute raises,
    that exception is raised and [Dict] is not called. *)
Theorem jumanji_specs_to_gym_spaces_nested
    (vars : list (string * option gym.SpecObject)) :
  match gym.convert_vars gym.jumanji_specs_to_gym_spaces vars with
  | Ok spaces =>
      gym.jumanji_specs_to_gym_spaces (gym.OfNested vars) = gym.spaces_Dict spaces
      /\ map fst spaces = gym.spec_keys vars
      /\ Forall2 (fun entry attribute =>
                    entry.1 = attribute.1
                    /\ exists value,
                         attribute.2 = Some value
                         /\ gym.jumanji_specs_to_gym_spaces value = Ok entry.2)
           spaces (filter (fun attribute => is_Some attribute.2) vars)
  | Raise e =>
      gym.jumanji_specs_to_gym_spaces (gym.OfNested vars) = Raise e
      /\ exists key value,
           (key, Some value) ∈ vars
           /\ gym.jumanji_specs_to_gym_spaces value = Raise e
  end.
Proof.
  pose proof (convert_vars_entries gym.jumanji_specs_to_gym_spaces vars) as Hentries.
  cbn [gym.jumanji_specs_to_gym_spaces].
  destruct (gym.convert_vars gym.jumanji_specs_to_gym_spaces vars) as [spaces|e].
  - by destruct Hentries.
  - done.
Qed.

Lemma gym_space_of_BoundedArray shp d minimum maximum name b :
  np.sized minimum -> np.sized maximum ->
  specs.BoundedArray.__init__ shp d minimum maximum name = Ok b ->
  exists low high,
    gym.np_broadcast_to (specs.BoundedArray.minimum b) shp = Ok low
    /\ gym.np_broadcast_to (specs.BoundedArray.maximum b) shp = Ok high
    /\ ~ conformance.exceeds low high
    /\ specs.BoundedArray.shape b = shp
    /\ gym.jumanji_specs_to_gym_spaces (gym.OfArraySpec (specs.IsBoundedArray b)) =
       gym.spaces_Box low high shp (specs.BoundedArray.dtype b).
Proof.
  intros Hmin Hmax Hb.
  destruct (BoundedArray_init_Ok _ _ _ _ _ _ Hmin Hmax Hb)
    as (bmin & bmax & -> & E1 & E2 & Hle).
  exists bmin, bmax. unfold gym.np_broadcast_to. simpl. rewrite E1, E2.
  repeat split; try done.
  - intros Hex. by apply (not_pointwise_exceeds _ _ Hex).
  - unfold gym.np_broadcast_to, specs.BoundedArray.minimum,
      specs.BoundedArray.maximum, specs.BoundedArray.shape, specs.Array.shape.
    simpl. by rewrite E1, E2.
Qed.

(** X5. The conversions to [dm_env] and to [gym] of a spec that its
    constructor has made agree. The one to [dm_env] succeeds, and the one
    to [gym] reaches the class of [gym.spaces] of the same kind and
    returns what that call returns or raises: [Discrete] on the same,
    positive number of values, counted from 0; [Box] on the same shape
    and dtype and on the bounds of the [dm_env] spec stretched to the
    shape, the lower ones not above the upper ones; [Box] on the same
    shape and dtype and on the bounds [-inf] and [inf]. *)
Theorem dm_env_and_gym_agree {Nested : Type} (s : specs.ArraySpec)
    (Hs : conformance.constructed s) :
  exists d,
    specs.jumanji_specs_to_dm_env_specs (Nested := Nested) (specs.Leaf s) = Ok d
    /\ gym.agree d (gym.jumanji_specs_to_gym_spaces (gym.OfArraySpec s)).
Proof.
  destruct Hs as [shp d name|shp d minimum maximum name b [Hmin _] [Hmax _] Hb
                 |n d name x [Hn _] Hx].
  - eexists. split; [reflexivity|]. done.
  - destruct (gym_space_of_BoundedArray _ _ _ _ _ _ Hmin Hmax Hb)
      as (low & high & E1 & E2 & Hle & Hsh & Hconv).
    eexists. split; [reflexivity|]. simpl. rewrite Hsh.
    exists low, high. repeat split; try done.
    by rewrite E1, E2.
  - destruct (DiscreteArray_init_fields _ _ _ _ Hx) as (Hpos & _ & Hnum & _).
    eexists. split; [reflexivity|]. simpl.
    unfold specs.DiscreteArray.num_values. by rewrite Hnum.
Qed.

End GymSpaces.

(** ** The constructors and their errors *)

Section Constructors.
Context {J : jnp.Jax} {H : types.Helpers}.

Lemma any_zip_with_true (p : np.scalar -> np.scalar -> bool) shp d (l1 l2 : list np.scalar) :
  jnp.any {| np.shape := shp; np.dtype := d;
             np.data := zip_with (fun x y => np.SBool (p x y)) l1 l2 |} = true
  <-> exists i x y, l1 !! i = Some x /\ l2 !! i = Some y /\ p x y = true.
Proof.
  unfold jnp.any. simpl. rewrite existsb_exists. split.
  - intros (s & Hin & Hs). apply list_elem_of_In, list_elem_of_lookup in Hin.
    destruct Hin as (i & Hi). apply lookup_zip_with_Some in Hi.
    destruct Hi as (x & y & -> & Hx & Hy). by exists i, x, y.
  - intros (i & x & y & Hx & Hy & Hp). exists (np.SBool (p x y)). split; [|done].
    apply list_elem_of_In, list_elem_of_lookup. exists i.
    apply lookup_zip_with_Some. by exists x, y.
Qed.

Lemma broadcast_to_Raise (a : np.ndarray) (shp : list nat) e :
  jnp.broadcast_to a shp = Raise e -> exists text args, e = ValueError text args.
Proof.
  unfold jnp.broadcast_to. destruct (_ && _); [done|]. intros [= <-]. by eexists _, _.
Qed.

(** The cases of [BoundedArray.__init__], in the order of its tests. *)
Lemma BoundedArray_init_cases shp d minimum maximum name
    (Hmin : np.sized minimum) (Hmax : np.sized maximum) :
  let lo := jnp.asarray_dtype minimum d in
  let hi := jnp.asarray_dtype maximum d in
  let made := specs.BoundedArray.__init__ shp d minimum maximum name in
  match jnp.broadcast_to lo shp, jnp.broadcast_to hi shp with
  | Raise _, _ =>
      made = Raise (ValueError "`minimum` is incompatible with `shape`" [])
  | Ok _, Raise _ =>
      made = Raise (ValueError "`maximum` is incompatible with `shape`" [])
  | Ok bmin, Ok bmax =>
      (conformance.exceeds bmin bmax /\
       made = Raise (ValueError specs.BoundedArray.crossing_bounds
                       [AArray lo; AArray hi]))
      \/ (~ conformance.exceeds bmin bmax /\
          made = Ok {| specs.BoundedArray.super := specs.Array.__init__ shp d name;
                       specs.BoundedArray._minimum := lo;
                       specs.BoundedArray._maximum := hi |})
  end.
Proof.
  intros lo hi made. unfold made, specs.BoundedArray.__init__. fold lo hi.
  destruct (jnp.broadcast_to lo shp) as [bmin|e] eqn:E1.
  2:{ destruct (broadcast_to_Raise _ _ _ E1) as (text & args & ->). done. }
  destruct (jnp.broadcast_to hi shp) as [bmax|e] eqn:E2.
  2:{ destruct (broadcast_to_Raise _ _ _ E2) as (text & args & ->). done. }
  simpl.
  destruct (broadcast_to_sized _ _ _ (asarray_dtype_sized _ d Hmin) E1)
    as (Hs1 & Hsh1 & Hd1).
  destruct (broadcast_to_sized _ _ _ (asarray_dtype_sized _ d Hmax) E2)
    as (Hs2 & Hsh2 & Hd2).
  rewrite (greater_bounds bmin bmax shp) by
    (try done; rewrite Hd1, Hd2; unfold lo, hi; by rewrite !asarray_dtype_dtype).
  simpl.
  match goal with |- context [jnp.any ?a] => destruct (jnp.any a) eqn:Eany end.
  - left. split; [|done]. apply any_zip_with_true in Eany.
    destruct Eany as (i & x & y & Hx & Hy & Hp). by exists i, x, y.
  - right. split; [|done]. intros (i & x & y & Hx & Hy & Hp).
    rewrite any_zip_with_false in Eany. by rewrite (Eany i x y Hx Hy) in Hp.
Qed.

(** X6. The outcome of [BoundedArray.__init__] and the order of its
    errors: bounds that cannot be stretched to the shape are reported
    first, [minimum] before [maximum], whatever the values are; then a
    lower bound above its upper bound, with the two bounds as converted to
    the dtype; otherwise the spec stores the shape, the dtype, the name
    and the two converted bounds, not stretched. *)
Theorem BoundedArray_init_outcome shp d minimum maximum name
    (Hmin : np.sized minimum) (Hmax : np.sized maximum) :
  let lo := jnp.asarray_dtype minimum d in
  let hi := jnp.asarray_dtype maximum d in
  let made := specs.BoundedArray.__init__ shp d minimum maximum name in
  match jnp.broadcast_to lo shp, jnp.broadcast_to hi shp with
  | Raise _, _ =>
      made = Raise (ValueError "`minimum` is incompatible with `shape`" [])
  | Ok _, Raise _ =>
      made = Raise (ValueError "`maximum` is incompatible with `shape`" [])
  | Ok bmin, Ok bmax =>
      (conformance.exceeds bmin bmax /\
       made = Raise (ValueError specs.BoundedArray.crossing_bounds
                       [AArray lo; AArray hi]))
      \/ (~ conformance.exceeds bmin bmax /\
          made = Ok {| specs.BoundedArray.super := specs.Array.__init__ shp d name;
                       specs.BoundedArray._minimum := lo;
                       specs.BoundedArray._maximum := hi |})
  end.
Proof. exact (BoundedArray_init_cases shp d minimum maximum name Hmin Hmax). Qed.

Lemma scalar_gt_lt (x y : np.scalar) : jnp.scalar_gt x y = jnp.scalar_lt y x.
Proof.
  destruct x as [a|a|a], y as [b|b|b]; simpl; try done.
  - by rewrite andb_comm.
  - by rewrite Z.gtb_ltb.
  - destruct (SFcompare a b) as [c|] eqn:E.
    + rewrite (SFcompare_antisym _ _ _ E). by destruct c.
    + destruct (SFcompare b a) as [c|] eqn:E'; [|done].
      by rewrite (SFcompare_antisym _ _ _ E') in E.
Qed.

Lemma scalar_gt_irrefl (x : np.scalar) : jnp.scalar_gt x x = false.
Proof. by rewrite scalar_gt_lt, scalar_lt_irrefl. Qed.

(** X7. The two bounds of a [BoundedArray] are values of it: stretched to
    the shape of the spec, [minimum] and [maximum] both pass
    [validate]. *)
Theorem BoundedArray_bounds_validate shp d minimum maximum name b
    (Hv : conformance.valid_dtypes)
    (Hmin : np.sized minimum) (Hmax : np.sized maximum)
    (Hb : specs.BoundedArray.__init__ shp d minimum maximum name = Ok b) :
  exists bmin bmax,
    jnp.broadcast_to (specs.BoundedArray.minimum b) (specs.BoundedArray.shape b) = Ok bmin
    /\ jnp.broadcast_to (specs.BoundedArray.maximum b) (specs.BoundedArray.shape b) = Ok bmax
    /\ specs.BoundedArray.validate b bmin = Ok bmin
    /\ specs.BoundedArray.validate b bmax = Ok bmax.
Proof.
  destruct (BoundedArray_init_Ok _ _ _ _ _ _ Hmin Hmax Hb)
    as (bmin & bmax & -> & E1 & E2 & Hle).
  exists bmin, bmax. split; [done|]. split; [done|].
  destruct (broadcast_to_sized _ _ _ (asarray_dtype_sized _ d Hmin) E1)
    as (Hs1 & Hsh1 & Hd1).
  destruct (broadcast_to_sized _ _ _ (asarray_dtype_sized _ d Hmax) E2)
    as (Hs2 & Hsh2 & Hd2).
  rewrite asarray_dtype_dtype in Hd1, Hd2.
  split.
  - destruct (BoundedArray_validate_built shp d minimum maximum name bmin bmax bmin
                Hv Hs1 E1 E2) as [(Hok & _)|(_ & Hnot)]; [done|].
    destruct Hnot. repeat split; try done. apply pointwise_irrefl.
  - destruct (BoundedArray_validate_built shp d minimum maximum name bmin bmax bmax
                Hv Hs2 E1 E2) as [(Hok & _)|(_ & Hnot)]; [done|].
    destruct Hnot. repeat split; try done.
    + intros i x l Hx Hl. rewrite <- scalar_gt_lt. by apply (Hle i l x).
    + intros i x h Hx Hh. rewrite Hx in Hh. injection Hh as <-.
      by rewrite scalar_gt_irrefl.
Qed.

(** X8. A [BoundedArray] generates its lower bound: [generate_value]
    returns [minimum] stretched to the shape of the spec, not an array of
    zeros, so that the value lies within bounds that exclude zero. *)
Theorem BoundedArray_generates_minimum shp d minimum maximum name b
    (Hv : conformance.valid_dtypes) (Hc : conformance.conversions_typed)
    (Hmin : np.wf minimum) (Hmax : np.sized maximum)
    (Hb : specs.BoundedArray.__init__ shp d minimum maximum name = Ok b) :
  exists bmin,
    jnp.broadcast_to (specs.BoundedArray.minimum b) (specs.BoundedArray.shape b) = Ok bmin
    /\ specs.BoundedArray.generate_value b = Ok bmin.
Proof.
  destruct (BoundedArray_init_Ok _ _ _ _ _ _ (proj1 Hmin) Hmax Hb)
    as (bmin & bmax & -> & E1 & E2 & Hle).
  exists bmin. split; [done|].
  exact (BoundedArray_generate_built shp d minimum maximum name bmin Hv Hc Hmin E1).
Qed.

End Constructors.

(** ** [DiscreteArray] *)

Section Discrete.
Context {J : jnp.Jax} {H : types.Helpers}.

Lemma asarray_dtype_of_int (z : Z) (d : np.DType) :
  conversions.keeps_integers ->
  np.has_dtype (jnp.canonicalize d) (np.SInt z) = true ->
  jnp.asarray_dtype (jnp.of_int z) d =
  {| np.shape := []; np.dtype := jnp.canonicalize d; np.data := [np.SInt z] |}.
Proof.
  intros Hc Hz. unfold jnp.asarray_dtype, jnp.of_int. simpl.
  destruct (decide _) as [->|_]; [done|].
  unfold jnp.convert_element_type. simpl. by rewrite Hc.
Qed.

Lemma integer_holds_0 (d : np.DType) :
  np.is_integer d = true -> np.has_dtype d (np.SInt 0) = true.
Proof. by destruct d. Qed.

Lemma integer_holds (d : np.DType) (x : np.scalar) :
  np.is_integer d = true -> np.has_dtype d x = true -> exists z, x = np.SInt z.
Proof. destruct d, x as [b|z|f]; try done; by eexists. Qed.

(** X9. The outcome of [DiscreteArray.__init__]: a number of values that
    is not positive is reported first, then a dtype that is not integral;
    otherwise, when the dtype holds [num_values - 1] and conversions keep
    the integers that fit, the spec is made, with no dimension and the
    bounds 0 and [num_values - 1]. *)
Theorem DiscreteArray_init_outcome (n : Z) (d : np.DType) (name : string)
    (Hc : conversions.keeps_integers) :
  let made := specs.DiscreteArray.__init__ n d name in
  if bool_decide (n <= 0)%Z
  then made = Raise (ValueError "`num_values` must be a positive integer, got {}."
                       [AInt n])
  else if negb (np.is_integer d)
  then made = Raise (ValueError "`dtype` must be integral, got {}." [ADType d])
  else np.has_dtype (jnp.canonicalize d) (np.SInt (n - 1)) = true ->
       exists x,
         made = Ok x
         /\ specs.DiscreteArray.num_values x = n
         /\ specs.DiscreteArray.shape x = []
         /\ specs.DiscreteArray.minimum x =
            {| np.shape := []; np.dtype := jnp.canonicalize d; np.data := [np.SInt 0] |}
         /\ specs.DiscreteArray.maximum x =
            {| np.shape := []; np.dtype := jnp.canonicalize d;
               np.data := [np.SInt (n - 1)] |}.
Proof.
  intros made. unfold made, specs.DiscreteArray.__init__.
  case_bool_decide as Hpos; [done|].
  destruct (np.is_integer d) eqn:Hi; [|done]. simpl. intros Hn.
  pose proof (BoundedArray_init_cases [] d (jnp.of_int 0) (jnp.of_int (n - 1)) name
                eq_refl eq_refl) as Hout.
  simpl in Hout.
  rewrite !asarray_dtype_of_int in Hout
    by (try done; apply integer_holds_0; by rewrite is_integer_canonicalize).
  cbn in Hout. destruct Hout as [(Hex & _)|(_ & ->)].
  - destruct Hex as (i & l & h & Hl & Hh & Hgt).
    destruct i as [|i]; [|done]. simpl in Hl, Hh.
    injection Hl as <-. injection Hh as <-. simpl in Hgt. lia.
  - simpl. by eexists.
Qed.

(** X10. A [DiscreteArray] of [n] values accepts the integers from 0 to
    [n - 1] of its dtype, without dimension, and nothing else: on every
    other well-formed array [validate] raises [ValueError]. *)
Theorem DiscreteArray_validate (n : Z) (d : np.DType) (name : string)
    (x : specs.DiscreteArray.t) (v : np.ndarray)
    (Hv : conformance.valid_dtypes) (Hc : conversions.keeps_integers)
    (Hn : np.has_dtype (jnp.canonicalize d) (np.SInt (n - 1)) = true)
    (Hx : specs.DiscreteArray.__init__ n d name = Ok x)
    (Hwf : np.wf v) :
  let accepted :=
    np.shape v = [] /\ np.dtype v = jnp.canonicalize d
    /\ exists z, np.data v = [np.SInt z] /\ (0 <= z < n)%Z in
  (specs.validate (specs.IsDiscreteArray x) v = Ok v /\ accepted)
  \/ ((exists text args,
         specs.validate (specs.IsDiscreteArray x) v = Raise (ValueError text args))
      /\ ~ accepted).
Proof.
  intros accepted.
  destruct (DiscreteArray_init_fields _ _ _ _ Hx) as (Hpos & Hi & _ & Hb).
  pose proof (BoundedArray_init_fields _ _ _ _ _ _ Hb) as Hf.
  unfold specs.validate. cbn [specs.as_BoundedArray]. rewrite Hf.
  assert (np.has_dtype (jnp.canonicalize d) (np.SInt 0) = true) as H0
    by (apply integer_holds_0; by rewrite is_integer_canonicalize).
  set (lo := {| np.shape := []; np.dtype := jnp.canonicalize d;
                np.data := [np.SInt 0] |}).
  set (hi := {| np.shape := []; np.dtype := jnp.canonicalize d;
                np.data := [np.SInt (n - 1)] |}).
  assert (jnp.broadcast_to (jnp.asarray_dtype (jnp.of_int 0) d) [] = Ok lo) as E1
    by by rewrite asarray_dtype_of_int.
  assert (jnp.broadcast_to (jnp.asarray_dtype (jnp.of_int (n - 1)) d) [] = Ok hi) as E2
    by by rewrite asarray_dtype_of_int.
  destruct Hwf as [Hsized Htyped].
  assert (np.shape v = [] -> np.dtype v = jnp.canonicalize d ->
          conformance.within v lo hi <->
          exists z, np.data v = [np.SInt z] /\ (0 <= z < n)%Z) as Hwithin.
  { intros Hsh Hd. unfold np.sized in Hsized. rewrite Hsh in Hsized. simpl in Hsized.
    destruct (np.data v) as [|s [|? ?]] eqn:Edata; try done.
    apply Forall_cons in Htyped as [Hs _]. rewrite Hd in Hs.
    destruct (integer_holds _ _ (eq_trans (is_integer_canonicalize d) Hi) Hs)
      as (z & ->).
    unfold conformance.within, conformance.pointwise. rewrite Edata. simpl. split.
    - intros [Hlo Hhi]. exists z. split; [done|].
      specialize (Hlo 0 _ _ eq_refl eq_refl). specialize (Hhi 0 _ _ eq_refl eq_refl).
      simpl in Hlo, Hhi. lia.
    - intros (z' & [= <-] & Hz). split; intros [|i] a b; simpl; try done;
        intros [= <-] [= <-]; simpl; lia. }
  destruct (BoundedArray_validate_built [] d (jnp.of_int 0) (jnp.of_int (n - 1)) name
              lo hi v Hv Hsized E1 E2) as [(Hok & Hsh & Hd & Hw)|(Hraise & Hnot)].
  - left. split; [done|]. repeat split; try done. by apply Hwithin.
  - right. split; [done|]. intros (Hsh & Hd & Hz). apply Hnot.
    repeat split; try done; by apply Hwithin.
Qed.

End Discrete.

(** ** What [validate] returns *)

Section Returned.
Context {J : jnp.Jax} {H : types.Helpers}.

Lemma BoundedArray_validate_returned (b : specs.BoundedArray.t) (v r : np.ndarray) :
  specs.BoundedArray.validate b v = Ok r ->
  r = v /\ specs.Array.validate (specs.BoundedArray.super b) v = Ok v.
Proof.
  unfold specs.BoundedArray.validate.
  destruct (specs.Array.validate _ v) as [v'|e] eqn:Ev; [|done].
  apply Array_validate_Ok in Ev as (-> & Hsh & Hd). simpl.
  destruct (jnp.less v _) as [below|e]; [|done]. simpl.
  destruct (jnp.any below); simpl.
  - destruct (Array_fail_validation_ValueError (A := np.ndarray)
                (specs.BoundedArray.super b)
                "Values were not all within bounds {} <= {} <= {}"
                [AArray (specs.BoundedArray.minimum b); AArray v;
                 AArray (specs.BoundedArray.maximum b)]) as (t & a & ->). done.
  - destruct (jnp.greater v _) as [above|e]; [|done]. simpl.
    destruct (jnp.any above).
    + destruct (Array_fail_validation_ValueError (A := np.ndarray)
                  (specs.BoundedArray.super b)
                  "Values were not all within bounds {} <= {} <= {}"
                  [AArray (specs.BoundedArray.minimum b); AArray v;
                   AArray (specs.BoundedArray.maximum b)]) as (t & a & ->). done.
    + by intros [= <-].
Qed.

Lemma validate_returned (s : specs.ArraySpec) (v r : np.ndarray) :
  specs.validate s v = Ok r -> r = v.
Proof.
  unfold specs.validate. destruct (specs.as_BoundedArray s) as [b|].
  - intros Hb. by apply BoundedArray_validate_returned in Hb as [-> _].
  - intros Ha. by apply Array_validate_Ok in Ha as [-> _].
Qed.

(** X11. [validate] of an [Array], a [BoundedArray] or a [DiscreteArray]
    returns [jnp.asarray(value)], the value that it is given as a jax
    array, and never another array; what it returns has the shape and
    the dtype of the spec and passes [validate] again, which returns it
    as it is. *)
Theorem validate_returns_asarray (s : specs.ArraySpec) (v r : np.ndarray)
    (Hr : specs.validate s v = Ok r) :
  r = jnp.asarray v
  /\ np.shape r = specs.Array.shape (specs.as_Array s)
  /\ np.dtype r = specs.Array.dtype (specs.as_Array s)
  /\ specs.validate s r = Ok r.
Proof.
  pose proof (validate_returned _ _ _ Hr) as ->. split; [done|].
  unfold specs.validate in *. destruct s as [a|b|x]; simpl in *.
  - by pose proof (proj1 (Array_validate_Ok _ _ _) Hr) as (_ & ? & ?).
  - pose proof (BoundedArray_validate_returned _ _ _ Hr) as (_ & Ha).
    by apply Array_validate_Ok in Ha as (_ & ? & ?).
  - pose proof (BoundedArray_validate_returned _ _ _ Hr) as (_ & Ha).
    by apply Array_validate_Ok in Ha as (_ & ? & ?).
Qed.

(** X12. [ObservationSpec.validate] of Connect4 returns an observation
    exactly when the board passes the spec of the board and the action
    mask passes the spec of the mask, and then it returns the observation
    that it is given. An error of the board is raised first, whatever the
    mask is. *)
Theorem connect4_validate (o : connect4.ObservationSpec.t)
    (v : connect4.Observation) :
  let board := specs.validate (connect4.ObservationSpec.board_obs o) (connect4.board v) in
  let mask :=
    specs.validate (connect4.ObservationSpec.action_mask o) (connect4.action_mask v) in
  match board, mask with
  | Raise e, _ => connect4.ObservationSpec.validate o v = Raise e
  | Ok _, Raise e => connect4.ObservationSpec.validate o v = Raise e
  | Ok _, Ok _ => connect4.ObservationSpec.validate o v = Ok v
  end.
Proof.
  intros board mask. unfold connect4.ObservationSpec.validate. fold board mask.
  destruct board as [b|e] eqn:Eb; [|done].
  destruct mask as [m|e] eqn:Em; [|done]. simpl.
  apply validate_returned in Eb as ->. apply validate_returned in Em as ->.
  by destruct v.
Qed.

(** X13. [ObservationSpec.replace] of Connect4 keeps the part that is not
    replaced, and the new spec still generates values that it accepts
    when its parts have been made by their constructors. *)
Theorem connect4_replace_generates (o : connect4.ObservationSpec.t)
    (board_obs : specs.ArraySpec)
    (Hv : conformance.valid_dtypes) (Hc : conformance.conversions_typed)
    (Hboard : conformance.constructed board_obs)
    (Hmask : conformance.constructed (connect4.ObservationSpec.action_mask o)) :
  let o' := connect4_replace.replace o (Some board_obs) None in
  connect4.ObservationSpec.board_obs o' = board_obs
  /\ connect4.ObservationSpec.action_mask o' = connect4.ObservationSpec.action_mask o
  /\ exists v, connect4.ObservationSpec.generate_value o' = Ok v
               /\ connect4.ObservationSpec.validate o' v = Ok v.
Proof.
  intros o'. split; [done|]. split; [done|].
  destruct (constructed_generates_conforming _ Hv Hc Hboard) as (b & Hgb & Hvb).
  destruct (constructed_generates_conforming _ Hv Hc Hmask) as (m & Hgm & Hvm).
  exists (connect4.mk_Observation b m).
  unfold connect4.ObservationSpec.generate_value, connect4.ObservationSpec.validate.
  simpl. rewrite Hgb, Hgm. simpl. by rewrite Hvb, Hvm.
Qed.

End Returned.

(** ** The earlier copy of [Array] *)

Section Earlier.
Context {J : jnp.Jax}.

(** X14. The earlier copy of [Array] ([jumanji/jax/specs.py]) stores the
    dtype as it is given, while [jnp.zeros] makes an array of the dtype
    that JAX narrows it to: the spec accepts the value that it generates
    exactly when JAX keeps the dtype, and raises [ValueError] on it
    otherwise. *)
Theorem jax_specs_generated_value shp (d : np.DType) (name : string) :
  let s := jax_specs.Array.__init__ shp d name in
  if decide (jnp.canonicalize d = d)
  then jax_specs.Array.validate s (jax_specs.Array.generate_value s) =
       Ok (jax_specs.Array.generate_value s)
  else exists text args,
         jax_specs.Array.validate s (jax_specs.Array.generate_value s) =
         Raise (ValueError text args).
Proof.
  intros s. destruct (decide _) as [Hd|Hd].
  - apply jax_Array_validate_Ok. by repeat split.
  - apply jax_Array_validate_Raise. by right.
Qed.

End Earlier.

(** ** Stacks of wrappers *)

Section Stacks.
Context {J : jnp.Jax} {H : types.Helpers} {S : env.Signature}.

(** X15. [AutoResetWrapper] and [MultiToSingleWrapper] commute: whichever
    of the two is put around the other, with any aggregators, [reset] and
    [step] return the same state and the same timestep. *)
Theorem AutoReset_MultiToSingle_commute (e : wrappers.Env)
    (ra da : np.ndarray -> np.ndarray) :
  let outside := wrappers.AutoResetWrapper (wrappers.MultiToSingleWrapper e ra da) in
  let inside := wrappers.MultiToSingleWrapper (wrappers.AutoResetWrapper e) ra da in
  (forall key, wrappers.reset outside key = wrappers.reset inside key)
  /\ (forall state action,
        wrappers.step outside state action = wrappers.step inside state action).
Proof.
  split; [done|]. intros state action. simpl.
  destruct (wrappers.step e state action) as [state' timestep].
  unfold wrappers.cond, types.last. simpl.
  case_bool_decide; [|done].
  unfold wrappers.auto_reset. simpl.
  by destruct (wrappers.reset e (env.key state')) as [state'' first].
Qed.

Lemma step_AutoResetWrapper_never_last (e : wrappers.Env) :
  (forall key, types.last (wrappers.reset e key).2 = false) ->
  forall state action,
    types.last (wrappers.step (wrappers.AutoResetWrapper e) state action).2 = false.
Proof.
  intros Hreset state action.
  destruct (types.last (wrappers.step e state action).2) eqn:Hlast.
  - rewrite (step_AutoResetWrapper_last _ _ _ Hlast). unfold wrappers.auto_reset.
    specialize (Hreset (env.key (wrappers.step e state action).1)).
    by destruct (wrappers.reset e _) as [state' first].
  - by rewrite (step_AutoResetWrapper_not_last _ _ _ Hlast).
Qed.

(** X16. When [reset] of the wrapped environment never returns a last
    timestep, [step] of [AutoResetWrapper] never returns one either, and a
    second [AutoResetWrapper] around the first changes nothing. *)
Theorem AutoResetWrapper_never_last (e : wrappers.Env)
    (Hreset : forall key, types.last (wrappers.reset e key).2 = false) :
  forall state action,
    types.last (wrappers.step (wrappers.AutoResetWrapper e) state action).2 = false
    /\ wrappers.step (wrappers.AutoResetWrapper (wrappers.AutoResetWrapper e))
         state action =
       wrappers.step (wrappers.AutoResetWrapper e) state action.
Proof.
  intros state action.
  pose proof (step_AutoResetWrapper_never_last e Hreset state action) as Hnever.
  split; [done|]. by apply step_AutoResetWrapper_not_last.
Qed.

Lemma observation_spec_innermost (e : wrappers.Env) :
  wrappers.observation_spec e = env.observation_spec (wrappers.innermost e).
Proof. induction e; simpl; auto. Qed.

Lemma action_spec_innermost (e : wrappers.Env) :
  wrappers.action_spec e = env.action_spec (wrappers.innermost e).
Proof. induction e; simpl; auto. Qed.

(** X17. No wrapper changes the specs: under any stack of [Wrapper],
    [MultiToSingleWrapper], [VmapWrapper] and [AutoResetWrapper] the
    observation spec and the action spec are those of the innermost
    environment (also under [VmapWrapper], whose states and timesteps are
    batches, and under [MultiToSingleWrapper], which aggregates the
    rewards), and [JumanjiToDMEnvWrapper] converts these. *)
Theorem specs_of_a_stack (e : wrappers.Env) (key : option env.PRNGKey) :
  wrappers.observation_spec e = env.observation_spec (wrappers.innermost e)
  /\ wrappers.action_spec e = env.action_spec (wrappers.innermost e)
  /\ wrappers.dm_observation_spec (wrappers.JumanjiToDMEnvWrapper__init__ e key) =
     specs.jumanji_specs_to_dm_env_specs (env.observation_spec (wrappers.innermost e))
  /\ wrappers.dm_action_spec (wrappers.JumanjiToDMEnvWrapper__init__ e key) =
     specs.jumanji_specs_to_dm_env_specs (env.action_spec (wrappers.innermost e)).
Proof.
  unfold wrappers.dm_observation_spec, wrappers.dm_action_spec. simpl.
  by rewrite observation_spec_innermost, action_spec_innermost.
Qed.

(** ** Episodes through [JumanjiToDMEnvWrapper] *)

Lemma dm_steps_from (w : wrappers.JumanjiToDMEnvWrapper) (state : env.State)
    (actions : list env.Action) :
  wrappers.dm_state w = Some state ->
  episodes.dm_steps w actions =
  Ok (map episodes.dm_timestep (episodes.trace (wrappers.dm_env_ w) state actions),
      {| wrappers.dm_env_ := wrappers.dm_env_ w;
         wrappers.dm_key := wrappers.dm_key w;
         wrappers.dm_state :=
           Some (episodes.run (wrappers.dm_env_ w) state actions) |}).
Proof.
  revert w state. induction actions as [|action actions IH]; intros w state Hw; simpl.
  - destruct w. simpl in *. by rewrite Hw.
  - unfold wrappers.dm_step. rewrite Hw. unfold wrappers.jit.
    destruct (wrappers.step (wrappers.dm_env_ w) state action) as [state' timestep]
      eqn:Estep.
    simpl. by rewrite (IH _ state').
Qed.

(** X18. [JumanjiToDMEnvWrapper] follows the environment that it wraps.
    Before the first [reset] every [step] raises [AttributeError]. After a
    [reset], [step] raises nothing, for any list of actions: the
    timesteps returned are those of the wrapped environment from the
    state of its [reset], rewards and discounts included, the state kept
    is the one that it reaches, and the key is not used again. *)
Theorem dm_env_episode (e : wrappers.Env) (key : option env.PRNGKey)
    (w : wrappers.JumanjiToDMEnvWrapper) (action : env.Action)
    (actions : list env.Action) :
  let fresh := wrappers.reset (wrappers.dm_env_ w) (env.random_split (wrappers.dm_key w)).1 in
  (exists text args,
     episodes.dm_steps (wrappers.JumanjiToDMEnvWrapper__init__ e key) (action :: actions) =
     Raise (AttributeError text args))
  /\ (wrappers.dm_reset w).1 = dm_env.restart (types.observation fresh.2)
  /\ episodes.dm_steps (wrappers.dm_reset w).2 actions =
     Ok (map episodes.dm_timestep (episodes.trace (wrappers.dm_env_ w) fresh.1 actions),
         {| wrappers.dm_env_ := wrappers.dm_env_ w;
            wrappers.dm_key := (env.random_split (wrappers.dm_key w)).2;
            wrappers.dm_state :=
              Some (episodes.run (wrappers.dm_env_ w) fresh.1 actions) |}).
Proof.
  intros fresh. split; [by eexists _, _|].
  unfold fresh, wrappers.dm_reset, wrappers.jit.
  destruct (env.random_split (wrappers.dm_key w)) as [reset_key key'].
  simpl. destruct (wrappers.reset (wrappers.dm_env_ w) reset_key) as [state first].
  simpl. split; [done|]. by rewrite (dm_steps_from _ state).
Qed.

End Stacks.

(** ** [JumanjiToGymWrapper] *)

Section Gym.
Context {J : jnp.Jax} {H : types.Helpers} {S : env.Signature}.
Variable vars : env.NestedSpec -> list (string * option gym.SpecObject).
Variable py_object : env.Observation -> gym_obs.PyObject.

(** X19. [reset(seed=s)] of [JumanjiToGymWrapper] can be repeated: on two
    wrappers of one environment, whatever their keys and states are, it
    returns the same observation or raises the same error, and it leaves
    the same key and the same state; it is [seed(s)] followed by
    [reset()]. The observation is the one that [reset] of the
    environment returns for the first half of the key of the seed. *)
Theorem gym_reset_seed (w w' : gym_wrapper.JumanjiToGymWrapper) (s : Z)
    (return_info : bool)
    (Henv : gym_wrapper._env w = gym_wrapper._env w') :
  let r := gym_wrapper.reset py_object w (Some s) return_info in
  let r' := gym_wrapper.reset py_object w' (Some s) return_info in
  let key := env.random_split (env.random_PRNGKey s) in
  let fresh := wrappers.reset (gym_wrapper._env w) key.1 in
  r.1 = r'.1
  /\ gym_wrapper._key r.2 = gym_wrapper._key r'.2
  /\ gym_wrapper._state r.2 = gym_wrapper._state r'.2
  /\ gym_wrapper._key r.2 = key.2
  /\ gym_wrapper._state r.2 = Some fresh.1
  /\ r = gym_wrapper.reset py_object (gym_wrapper.seed w s) None return_info
  /\ match r.1 with
     | gym_obs.Converted (gym_wrapper.Obs obs) =>
         return_info = false
         /\ gym_obs.jumanji_to_gym_obs (py_object (types.observation fresh.2)) =
            gym_obs.Converted obs
     | gym_obs.Converted (gym_wrapper.ObsInfo obs info) =>
         return_info = true /\ info = types.extras fresh.2
         /\ gym_obs.jumanji_to_gym_obs (py_object (types.observation fresh.2)) =
            gym_obs.Converted obs
     | gym_obs.NotImplementedError _ =>
         gym_obs.supported (py_object (types.observation fresh.2)) = false
     end.
Proof.
  intros r r' key fresh. unfold r, r', fresh, key, gym_wrapper.reset.
  unfold gym_wrapper.seed, gym_wrapper._reset, wrappers.jit. simpl.
  rewrite <- Henv.
  destruct (env.random_split (env.random_PRNGKey s)) as [reset_key key'].
  simpl. destruct (wrappers.reset (gym_wrapper._env w) reset_key) as [state first].
  simpl.
  pose proof (to_gym_obs_cases (py_object (types.observation first)))
    as Hobs.
  destruct (gym_obs.jumanji_to_gym_obs (py_object (types.observation first)))
    as [obs|text] eqn:Eobs.
  - destruct return_info; simpl; repeat split; done.
  - simpl. repeat split.
    destruct (gym_obs.supported _); [|done]. by destruct Hobs as (g & ? & _).
Qed.

End Gym.

Section GymInit.
Context {J : jnp.Jax} {H : types.Helpers} {S : env.Signature}
  {G : gym.Constructors}.
Variable vars : env.NestedSpec -> list (string * option gym.SpecObject).
Variable py_object : env.Observation -> gym_obs.PyObject.

(** X20. [JumanjiToGymWrapper(env, seed)] converts the observation spec
    and then the action spec of the innermost environment under [env].
    It raises what the first conversion that fails raises, as when
    [gym.spaces] refuses a space. Otherwise the object holds the two
    spaces, the key of the seed and no state, [unwrapped] is [env], and
    its first [reset()] is [reset(seed=seed)]. *)
Theorem gym_wrapper_init (e : wrappers.Env) (s : Z) (backend : option string) :
  let made := gym_wrapper.__init__ vars e s backend in
  let observation :=
    gym.jumanji_specs_to_gym_spaces
      (gym_wrapper.spec_object vars (env.observation_spec (wrappers.innermost e))) in
  let action :=
    gym.jumanji_specs_to_gym_spaces
      (gym_wrapper.spec_object vars (env.action_spec (wrappers.innermost e))) in
  match observation, action with
  | Raise exception, _ => made = Raise exception
  | Ok _, Raise exception => made = Raise exception
  | Ok observation_space, Ok action_space =>
      exists w,
        made = Ok w
        /\ gym_wrapper.observation_space w = observation_space
        /\ gym_wrapper.action_space w = action_space
        /\ gym_wrapper._key w = env.random_PRNGKey s
        /\ gym_wrapper._state w = None
        /\ gym_wrapper.unwrapped w = e
        /\ forall return_info,
             gym_wrapper.reset py_object w None return_info =
             gym_wrapper.reset py_object w (Some s) return_info
  end.
Proof.
  intros made observation action. unfold made, observation, action.
  unfold gym_wrapper.__init__.
  rewrite <- observation_spec_innermost, <- action_spec_innermost.
  destruct (gym.jumanji_specs_to_gym_spaces
              (gym_wrapper.spec_object vars (wrappers.observation_spec e)))
    as [observation_space|exception]; [|done].
  destruct (gym.jumanji_specs_to_gym_spaces
              (gym_wrapper.spec_object vars (wrappers.action_spec e)))
    as [action_space|exception]; [|done].
  simpl. eexists. by repeat split.
Qed.

End GymInit.

(** ** The specs of the Connector environment *)

Section ConnectorSpecs.
Context {J : jnp.Jax} {H : types.Helpers} {D : connector.Deps}.

Lemma compatible_ones (shp : list nat) :
  jnp.compatible (replicate (length shp) 1) shp = true.
Proof.
  induction shp as [|m shp IH]; simpl; [done|].
  rewrite IH, andb_true_r. apply orb_true_iff. by right.
Qed.

Lemma size_ones (k : nat) : np.size (replicate k 1) = 1.
Proof. induction k as [|k IH]; simpl; [done|]. rewrite IH. done. Qed.

Lemma concat_replicate_replicate {A} (m k : nat) (x : A) :
  concat (replicate m (replicate k x)) = replicate (m * k) x.
Proof.
  induction m as [|m IH]; simpl; [done|]. by rewrite IH, replicate_add.
Qed.

Lemma broadcast_data_scalar {A} (shp : list nat) (x : A) :
  jnp.broadcast_data (replicate (length shp) 1) shp [x] = replicate (np.size shp) x.
Proof.
  induction shp as [|m shp IH]; simpl; [done|].
  destruct (decide (1 = m)) as [<-|Hm].
  - simpl. rewrite size_ones. simpl. rewrite IH.
    rewrite app_nil_r. f_equal. unfold np.size. simpl. lia.
  - rewrite IH. apply concat_replicate_replicate.
Qed.

(** An array of no dimension is stretched to any shape. *)
Lemma broadcast_to_scalar (d : np.DType) (x : np.scalar) (shp : list nat) :
  jnp.broadcast_to {| np.shape := []; np.dtype := d; np.data := [x] |} shp =
  Ok {| np.shape := shp; np.dtype := d; np.data := replicate (np.size shp) x |}.
Proof.
  unfold jnp.broadcast_to, jnp.pad_shape. simpl.
  rewrite Nat.sub_0_r, app_nil_r, compatible_ones.
  by rewrite broadcast_data_scalar.
Qed.

Lemma BoundedArray_init_scalars shp d (lo hi : np.scalar) name :
  jnp.scalar_gt lo hi = false ->
  let minimum := {| np.shape := []; np.dtype := jnp.canonicalize d; np.data := [lo] |} in
  let maximum := {| np.shape := []; np.dtype := jnp.canonicalize d; np.data := [hi] |} in
  specs.BoundedArray.__init__ shp d minimum maximum name =
  Ok {| specs.BoundedArray.super := specs.Array.__init__ shp d name;
        specs.BoundedArray._minimum := minimum;
        specs.BoundedArray._maximum := maximum |}.
Proof.
  intros Hgt. cbv zeta.
  pose proof (BoundedArray_init_cases shp d
                {| np.shape := []; np.dtype := jnp.canonicalize d; np.data := [lo] |}
                {| np.shape := []; np.dtype := jnp.canonicalize d; np.data := [hi] |}
                name eq_refl eq_refl) as Hout.
  cbv zeta in Hout.
  rewrite !asarray_dtype_same in Hout by done.
  rewrite !broadcast_to_scalar in Hout.
  destruct Hout as [(Hex & _)|(_ & Hok)]; [|exact Hok].
  destruct Hex as (i & l & h & Hl & Hh & Hlh). simpl in Hl, Hh.
  apply lookup_replicate in Hl as [-> _]. apply lookup_replicate in Hh as [-> _].
  by rewrite Hgt in Hlh.
Qed.

Lemma BoundedArray_init_ints shp (lo hi : Z) name :
  (lo <= hi)%Z ->
  specs.BoundedArray.__init__ shp np.int64 (jnp.of_int lo) (jnp.of_int hi) name =
  Ok {| specs.BoundedArray.super := specs.Array.__init__ shp np.int64 name;
        specs.BoundedArray._minimum := jnp.of_int lo;
        specs.BoundedArray._maximum := jnp.of_int hi |}.
Proof.
  intros Hle. apply (BoundedArray_init_scalars shp np.int64 (np.SInt lo) (np.SInt hi)).
  simpl. lia.
Qed.

Lemma float_0_below_1 :
  jnp.scalar_gt (jnp.zero (jnp.canonicalize np.float64))
    (jnp.one (jnp.canonicalize np.float64)) = false.
Proof. unfold jnp.canonicalize. by destruct jnp.jax_enable_x64. Qed.

(** X21. The specs of the Connector environment are made without an
    error when their integer bounds are not negative and fit the default
    integer dtype: [observation_spec] builds its three specs whenever
    [3 * num_agents + AGENT_INITIAL_VALUE] and the horizon are such, and
    [discount_spec] always does; each one has the shape that goes with
    the number of agents and stores its bounds without stretching
    them. *)
Theorem connector_specs_made (AGENT_INITIAL_VALUE : Z) (self : connector.t)
    (Hgrid : (0 <= Z.of_nat (connector._num_agents self) * 3 + AGENT_INITIAL_VALUE)%Z)
    (Hgrid_fits :
       np.has_dtype (jnp.canonicalize np.int64)
         (np.SInt (Z.of_nat (connector._num_agents self) * 3 + AGENT_INITIAL_VALUE)) = true)
    (Hhorizon : (0 <= connector._horizon self)%Z)
    (Hhorizon_fits :
       np.has_dtype (jnp.canonicalize np.int64)
         (np.SInt (connector._horizon self)) = true) :
  let n := connector._num_agents self in
  let size := connector._size self in
  connector_specs.observation_spec AGENT_INITIAL_VALUE self =
  Ok ({| specs.BoundedArray.super :=
           specs.Array.__init__ [n; size; size] np.int64 "observation";
         specs.BoundedArray._minimum := jnp.of_int 0;
         specs.BoundedArray._maximum :=
           jnp.of_int (Z.of_nat n * 3 + AGENT_INITIAL_VALUE) |},
      {| specs.BoundedArray.super := specs.Array.__init__ [n; 5] np.bool_ "action_mask";
         specs.BoundedArray._minimum := connector_specs.of_bool false;
         specs.BoundedArray._maximum := connector_specs.of_bool true |},
      {| specs.BoundedArray.super := specs.Array.__init__ [] np.int64 "step";
         specs.BoundedArray._minimum := jnp.of_int 0;
         specs.BoundedArray._maximum :=
           jnp.of_int (connector._horizon self) |})
  /\ connector_specs.discount_spec self =
     Ok {| specs.BoundedArray.super := specs.Array.__init__ [n] np.float64 "discount";
           specs.BoundedArray._minimum := connector_specs.float_0;
           specs.BoundedArray._maximum := connector_specs.float_1 |}.
Proof.
  intros n size. unfold connector_specs.observation_spec,
    connector_specs.grid_spec, connector_specs.action_mask_spec,
    connector_specs.step_spec, connector_specs.discount_spec.
  rewrite !BoundedArray_init_ints by lia. simpl. split.
  - pose proof (BoundedArray_init_scalars [connector._num_agents self; 5] np.bool_
                  (np.SBool false) (np.SBool true) "action_mask" eq_refl) as Hmask.
    simpl in Hmask. rewrite canonicalize_bool in Hmask.
    unfold connector_specs.of_bool. by rewrite Hmask.
  - apply (BoundedArray_init_scalars _ np.float64 _ _ "discount" float_0_below_1).
Qed.

Lemma get_action_mask_data (self : connector.t) (agent : connector.Agent)
    (grid : connector.Grid) :
  exists b1 b2 b3 b4,
    np.data (connector._get_action_mask self agent grid) =
    [np.SBool true; np.SBool b1; np.SBool b2; np.SBool b3; np.SBool b4].
Proof.
  unfold connector._get_action_mask, jnp.at_set, jnp.ones.
  rewrite canonicalize_bool. by eexists _, _, _, _.
Qed.

Lemma stacked_masks (self : connector.t) (grid : connector.Grid)
    (agents : list connector.Agent) :
  length (concat (map np.data
            (map (fun agent => connector._get_action_mask self agent grid) agents)))
  = length agents * 5
  /\ Forall (fun x => exists b, x = np.SBool b)
       (concat (map np.data
          (map (fun agent => connector._get_action_mask self agent grid) agents))).
Proof.
  induction agents as [|agent agents [IHl IHf]]; [done|].
  rewrite !map_cons, concat_cons.
  split.
  - rewrite length_app, IHl.
    by destruct (get_action_mask_data self agent grid) as (? & ? & ? & ? & ->).
  - destruct (get_action_mask_data self agent grid) as (? & ? & ? & ? & ->).
    simpl. repeat (apply Forall_cons; split; [by eexists|]). done.
Qed.

Lemma get_action_mask_header (self : connector.t) (agent : connector.Agent)
    (grid : connector.Grid) :
  np.shape (connector._get_action_mask self agent grid) = [5]
  /\ np.dtype (connector._get_action_mask self agent grid) = np.bool_.
Proof.
  unfold connector._get_action_mask, jnp.at_set, jnp.ones.
  by rewrite canonicalize_bool.
Qed.

(** X22. The action masks that [reset] of the Connector environment
    returns conform to the spec of the action mask: when the generator
    yields [num_agents] agents, at least one, the masks that
    [_get_action_mask] computes, stacked, make a well-formed array of
    booleans of shape [(num_agents, 5)], which passes [validate] of the
    [action_mask_spec] that [observation_spec] builds. *)
Theorem connector_reset_action_mask_conforms (self : connector.t)
    (key : connector.PRNGKey)
    (Hv : conformance.valid_dtypes)
    (Hrestart : forall (O : Type) (o : O) shp,
        types.observation (connector.restart O o shp) = o)
    (Hsome : 0 < connector._num_agents self)
    (Hagents :
       length (connector.agents
                 (connector._generator self (connector.random_split key).1)) =
       connector._num_agents self) :
  exists spec mask,
    connector_specs.action_mask_spec self = Ok spec
    /\ connector_specs.stacked_action_mask
         (types.observation (connector.reset self key).2) = Some mask
    /\ np.wf mask
    /\ np.shape mask = [connector._num_agents self; 5]
    /\ np.dtype mask = np.bool_
    /\ specs.BoundedArray.validate spec mask = Ok mask.
Proof.
  pose proof (BoundedArray_init_scalars [connector._num_agents self; 5] np.bool_
                (np.SBool false) (np.SBool true) "action_mask" eq_refl) as Hspec.
  simpl in Hspec. rewrite canonicalize_bool in Hspec.
  unfold connector_specs.action_mask_spec, connector_specs.of_bool.
  rewrite Hspec. eexists.
  unfold connector.reset.
  destruct (connector.random_split key) as [generator_key key'] eqn:Ekey.
  simpl in Hagents. simpl. rewrite Hrestart.
  unfold connector_specs.stacked_action_mask. simpl.
  set (state := connector._generator self generator_key) in *.
  destruct (stacked_masks self (connector.grid state) (connector.agents state))
    as [Hlen Hbool].
  set (masks := map (fun agent =>
                       connector._get_action_mask self agent (connector.grid state))
                  (connector.agents state)) in *.
  assert (length masks = connector._num_agents self) as Hmasks
    by (unfold masks; by rewrite length_map).
  assert (exists mask,
            connector_specs.stack masks = Some mask
            /\ np.shape mask = [connector._num_agents self; 5]
            /\ np.dtype mask = np.bool_
            /\ np.data mask = concat (map np.data masks))
    as (v & -> & Hshape & Hdtype & Hdata).
  { unfold masks in *. destruct (connector.agents state) as [|agent agents];
      [simpl in Hmasks; lia|].
    eexists. split; [reflexivity|]. cbn [np.shape np.dtype np.data].
    destruct (get_action_mask_header self agent (connector.grid state)) as [-> ->].
    by rewrite Hmasks. }
  exists v. split; [done|]. split; [done|].
  assert (np.sized v) as Hsized.
  { unfold np.sized. rewrite Hdata, Hshape, Hlen, Hagents.
    unfold np.size. simpl. lia. }
  assert (np.wf v) as Hwf.
  { split; [done|]. rewrite Hdata, Hdtype.
    eapply Forall_impl; [exact Hbool|]. by intros x (b & ->). }
  split; [done|]. split; [done|]. split; [done|].
  set (shp := [connector._num_agents self; 5]) in *.
  pose proof (BoundedArray_validate_built
                shp np.bool_
                (connector_specs.of_bool false) (connector_specs.of_bool true)
                "action_mask"
                {| np.shape := shp; np.dtype := np.bool_;
                   np.data := replicate (np.size shp) (np.SBool false) |}
                {| np.shape := shp; np.dtype := np.bool_;
                   np.data := replicate (np.size shp) (np.SBool true) |}
                v Hv Hsized) as Hbuilt.
  cbv zeta in Hbuilt.
  rewrite !asarray_dtype_same in Hbuilt by (by rewrite canonicalize_bool).
  unfold connector_specs.of_bool in Hbuilt.
  destruct (Hbuilt (broadcast_to_scalar _ _ _) (broadcast_to_scalar _ _ _))
    as [(Hok & _)|(_ & Hnot)]; [done|].
  destruct Hnot. split; [done|split].
  - by rewrite canonicalize_bool.
  - split; intros i x y Hx Hy; simpl in Hy;
      apply lookup_replicate in Hy as [-> _];
      rewrite Hdata in Hx;
      apply list_elem_of_lookup_2 in Hx;
      (eapply Forall_forall in Hbool; [|exact Hx]);
      destruct Hbool as (b & ->); simpl; by destruct b.
Qed.

(** X23. What [reset] of the Connector environment returns, when
    [restart] keeps the observation that it is given: the observation
    holds one grid for each agent id, the grid of the generator seen by
    that agent, one action mask for each agent of the generator, and the
    step of the generated state; the state holds the grid and the agents
    of the generator, the second half of the key, and a step count of 0
    whatever the step of the generated state is. *)
Theorem connector_reset_returns (self : connector.t) (key : connector.PRNGKey)
    (Hrestart : forall (O : Type) (o : O) shp,
        types.observation (connector.restart O o shp) = o) :
  let generated := connector._generator self (connector.random_split key).1 in
  let state := (connector.reset self key).1 in
  let observation := types.observation (connector.reset self key).2 in
  length (connector.obs_grid observation) = connector._num_agents self
  /\ (forall i, i < connector._num_agents self ->
         connector.obs_grid observation !! i =
         Some (connector.switch_perspective (connector.grid generated) i
                 (connector._num_agents self)))
  /\ length (connector.action_mask observation) = length (connector.agents generated)
  /\ (forall i agent, connector.agents generated !! i = Some agent ->
         connector.action_mask observation !! i =
         Some (connector._get_action_mask self agent (connector.grid generated)))
  /\ connector.obs_step observation = connector.step_count generated
  /\ connector.step_count state = connector.int32_0
  /\ connector.grid state = connector.grid generated
  /\ connector.agents state = connector.agents generated
  /\ connector.key state = (connector.random_split key).2.
Proof.
  intros generated state observation.
  unfold observation, state, generated, connector.reset.
  destruct (connector.random_split key) as [generator_key key']. simpl.
  rewrite Hrestart. simpl. unfold connector._obs_from_grid, connector.agent_ids,
    jnp.arange.
  rewrite !length_map, length_seq, Nat.sub_0_r. repeat split.
  - intros i Hi. rewrite list_lookup_fmap, lookup_seq_lt by done. done.
  - intros i agent Hagent. by rewrite list_lookup_fmap, Hagent.
Qed.

End ConnectorSpecs.

(** ** The hypotheses of the statements hold of the examples *)

Lemma examples_keep_integers : conversions.keeps_integers (J := examples.jax32).
Proof.
  intros d d' z Hz. unfold jnp.convert_scalar, examples.jax32. by rewrite Hz.
Qed.

Lemma pickle_round_trip_witness :
  conformance.valid_dtypes (J := examples.jax32) (H := examples.helpers)
  /\ pickling.reconstruct (J := examples.jax32) (H := examples.helpers)
       (pickling.__reduce__
          (specs.IsArray
             (specs.Array.__init__ (H := examples.helpers) [6; 7] np.float64 "board"))) =
     Ok (specs.IsArray
           (specs.Array.__init__ (H := examples.helpers) [6; 7] np.float64 "board")).
Proof.
  split; [exact examples_valid_dtypes|].
  exact (proj1 (pickle_round_trip (J := examples.jax32) (H := examples.helpers)
                  examples_valid_dtypes) [6; 7] np.float64 "board").
Defined.

Lemma replace_is_construction_witness :
  conformance.valid_dtypes (J := examples.jax32) (H := examples.helpers)
  /\ pickling.Array_replace (H := examples.helpers)
       (specs.Array.__init__ (H := examples.helpers) [6; 7] np.float64 "board")
       (Some [3; 3]) None None =
     specs.Array.__init__ (H := examples.helpers) [3; 3] np.float64 "board".
Proof.
  split; [exact examples_valid_dtypes|].
  exact (proj1 (replace_is_construction (J := examples.jax32) (H := examples.helpers)
                  examples_valid_dtypes)
           [6; 7] np.float64 "board" (Some [3; 3]) None None).
Defined.

Lemma dm_env_and_gym_agree_witness :
  let s :=
    specs.IsArray (specs.Array.__init__ (H := examples.helpers) [6; 7] np.float32 "board") in
  conformance.constructed (J := examples.jax32) (H := examples.helpers) s
  /\ exists d,
       specs.jumanji_specs_to_dm_env_specs (Nested := Empty_set) (specs.Leaf s) = Ok d
       /\ gym.agree (G := gym_examples.spaces) d
            (gym.jumanji_specs_to_gym_spaces (G := gym_examples.spaces)
               (gym.OfArraySpec s)).
Proof.
  intros s.
  assert (conformance.constructed (J := examples.jax32) (H := examples.helpers) s)
    as Hs by constructor.
  split; [exact Hs|].
  exact (dm_env_and_gym_agree (J := examples.jax32) (H := examples.helpers)
           (G := gym_examples.spaces) s Hs).
Defined.

Lemma BoundedArray_init_outcome_witness :
  let minimum := examples.int32_array [4; 0]%Z in
  let maximum := examples.scalar_array np.int32 (np.SInt 3) in
  (np.sized minimum /\ np.sized maximum)
  /\ specs.BoundedArray.__init__ (J := examples.jax32) (H := examples.helpers)
       [2] np.int32 minimum maximum "action" =
     Raise (ValueError specs.BoundedArray.crossing_bounds
              [AArray minimum; AArray maximum]).
Proof.
  intros minimum maximum. split; [by split|].
  pose proof (BoundedArray_init_outcome (J := examples.jax32) (H := examples.helpers)
                [2] np.int32 minimum maximum "action" eq_refl eq_refl) as Hout.
  destruct Hout as [[_ Hraise]|[Hnot _]].
  - exact Hraise.
  - destruct Hnot. exists 0, (np.SInt 4), (np.SInt 3). repeat split.
Defined.

Lemma BoundedArray_bounds_validate_witness :
  let minimum := examples.int32_array [0; 1]%Z in
  let maximum := examples.scalar_array np.int32 (np.SInt 3) in
  let b := {| specs.BoundedArray.super :=
                specs.Array.__init__ (H := examples.helpers) [2] np.int32 "action";
              specs.BoundedArray._minimum := minimum;
              specs.BoundedArray._maximum := maximum |} in
  (conformance.valid_dtypes (J := examples.jax32) (H := examples.helpers)
   /\ np.sized minimum /\ np.sized maximum
   /\ specs.BoundedArray.__init__ (J := examples.jax32) (H := examples.helpers)
        [2] np.int32 minimum maximum "action" = Ok b)
  /\ exists bmin bmax,
       jnp.broadcast_to (specs.BoundedArray.minimum b) (specs.BoundedArray.shape b) = Ok bmin
       /\ jnp.broadcast_to (specs.BoundedArray.maximum b) (specs.BoundedArray.shape b) = Ok bmax
       /\ specs.BoundedArray.validate (J := examples.jax32) b bmin = Ok bmin
       /\ specs.BoundedArray.validate (J := examples.jax32) b bmax = Ok bmax.
Proof.
  intros minimum maximum b.
  split; [repeat split; exact examples_valid_dtypes|].
  exact (BoundedArray_bounds_validate (J := examples.jax32) (H := examples.helpers)
           [2] np.int32 minimum maximum "action" b
           examples_valid_dtypes eq_refl eq_refl eq_refl).
Defined.

Lemma BoundedArray_generates_minimum_witness :
  let minimum := examples.int32_array [2; 1]%Z in
  let maximum := examples.scalar_array np.int32 (np.SInt 3) in
  let b := {| specs.BoundedArray.super :=
                specs.Array.__init__ (H := examples.helpers) [2] np.int32 "action";
              specs.BoundedArray._minimum := minimum;
              specs.BoundedArray._maximum := maximum |} in
  (conformance.valid_dtypes (J := examples.jax32) (H := examples.helpers)
   /\ conformance.conversions_typed (J := examples.jax32)
   /\ np.wf minimum /\ np.sized maximum
   /\ specs.BoundedArray.__init__ (J := examples.jax32) (H := examples.helpers)
        [2] np.int32 minimum maximum "action" = Ok b)
  /\ exists bmin,
       jnp.broadcast_to (specs.BoundedArray.minimum b) (specs.BoundedArray.shape b) = Ok bmin
       /\ specs.BoundedArray.generate_value (J := examples.jax32) b = Ok bmin.
Proof.
  intros minimum maximum b.
  assert (np.wf minimum) as Hwf by (split; [done|by repeat constructor]).
  split.
  { split; [exact examples_valid_dtypes|].
    split; [exact examples_conversions_typed|].
    split; [exact Hwf|]. split; reflexivity. }
  exact (BoundedArray_generates_minimum (J := examples.jax32) (H := examples.helpers)
           [2] np.int32 minimum maximum "action" b
           examples_valid_dtypes examples_conversions_typed Hwf eq_refl eq_refl).
Defined.

Lemma DiscreteArray_init_outcome_witness :
  conversions.keeps_integers (J := examples.jax32)
  /\ (np.has_dtype (jnp.canonicalize (J := examples.jax32) np.int32) (np.SInt (7 - 1)) = true ->
      exists x,
        specs.DiscreteArray.__init__ (J := examples.jax32) (H := examples.helpers)
          7 np.int32 "column" = Ok x
        /\ specs.DiscreteArray.num_values x = 7%Z
        /\ specs.DiscreteArray.shape x = []
        /\ specs.DiscreteArray.minimum x =
           {| np.shape := []; np.dtype := jnp.canonicalize (J := examples.jax32) np.int32;
              np.data := [np.SInt 0] |}
        /\ specs.DiscreteArray.maximum x =
           {| np.shape := []; np.dtype := jnp.canonicalize (J := examples.jax32) np.int32;
              np.data := [np.SInt (7 - 1)] |}).
Proof.
  split; [exact examples_keep_integers|].
  exact (DiscreteArray_init_outcome (J := examples.jax32) (H := examples.helpers)
           7 np.int32 "column" examples_keep_integers).
Defined.

Lemma DiscreteArray_validate_witness :
  let x := {| specs.DiscreteArray.super :=
                {| specs.BoundedArray.super :=
                     specs.Array.__init__ (H := examples.helpers) [] np.int32 "column";
                   specs.BoundedArray._minimum := examples.mk_ndarray_int32 0;
                   specs.BoundedArray._maximum := examples.mk_ndarray_int32 6 |};
              specs.DiscreteArray._num_values := 7 |} in
  let v := examples.mk_ndarray_int32 7 in
  (conformance.valid_dtypes (J := examples.jax32) (H := examples.helpers)
   /\ conversions.keeps_integers (J := examples.jax32)
   /\ np.has_dtype (jnp.canonicalize (J := examples.jax32) np.int32) (np.SInt (7 - 1)) = true
   /\ specs.DiscreteArray.__init__ (J := examples.jax32) (H := examples.helpers)
        7 np.int32 "column" = Ok x
   /\ np.wf v)
  /\ exists text args,
       specs.validate (J := examples.jax32) (specs.IsDiscreteArray x) v =
       Raise (ValueError text args).
Proof.
  intros x v.
  assert (np.wf v) as Hwf by (split; [done|by repeat constructor]).
  split.
  { split; [exact examples_valid_dtypes|]. split; [exact examples_keep_integers|].
    split; [reflexivity|]. split; [reflexivity|exact Hwf]. }
  destruct (DiscreteArray_validate (J := examples.jax32) (H := examples.helpers)
              7 np.int32 "column" x v
              examples_valid_dtypes examples_keep_integers eq_refl eq_refl Hwf)
    as [[_ (_ & _ & z & Hz & Hrange)]|[Hraise _]].
  - injection Hz as <-. lia.
  - exact Hraise.
Defined.

Lemma validate_returns_asarray_witness :
  let s := specs.IsArray (specs.Array.mk "count" [] np.int32) in
  let v := examples.mk_ndarray_int32 3 in
  specs.validate (J := examples.jax32) s v = Ok v
  /\ (v = jnp.asarray v
      /\ np.shape v = specs.Array.shape (specs.as_Array s)
      /\ np.dtype v = specs.Array.dtype (specs.as_Array s)
      /\ specs.validate (J := examples.jax32) s v = Ok v).
Proof.
  intros s v. split; [reflexivity|].
  exact (validate_returns_asarray (J := examples.jax32) s v v eq_refl).
Defined.

Lemma connect4_replace_generates_witness :
  let board :=
    specs.IsArray (specs.Array.__init__ (H := examples.helpers) [6; 7] np.int32 "board") in
  let mask :=
    specs.IsArray (specs.Array.__init__ (H := examples.helpers) [7] np.bool_ "mask") in
  let small :=
    specs.IsArray (specs.Array.__init__ (H := examples.helpers) [3; 3] np.int32 "small") in
  let o := connect4.ObservationSpec.__init__ board mask in
  let o' := connect4_replace.replace o (Some small) None in
  (conformance.valid_dtypes (J := examples.jax32) (H := examples.helpers)
   /\ conformance.conversions_typed (J := examples.jax32)
   /\ conformance.constructed (J := examples.jax32) (H := examples.helpers) small
   /\ conformance.constructed (J := examples.jax32) (H := examples.helpers)
        (connect4.ObservationSpec.action_mask o))
  /\ connect4.ObservationSpec.board_obs o' = small
  /\ connect4.ObservationSpec.action_mask o' = mask
  /\ exists v, connect4.ObservationSpec.generate_value (J := examples.jax32) o' = Ok v
               /\ connect4.ObservationSpec.validate (J := examples.jax32) o' v = Ok v.
Proof.
  intros board mask small o o'.
  assert (conformance.constructed (J := examples.jax32) (H := examples.helpers) small)
    as Hsmall by constructor.
  assert (conformance.constructed (J := examples.jax32) (H := examples.helpers)
            (connect4.ObservationSpec.action_mask o)) as Hmask by constructor.
  split.
  { split; [exact examples_valid_dtypes|].
    split; [exact examples_conversions_typed|]. by split. }
  exact (connect4_replace_generates (J := examples.jax32) (H := examples.helpers)
           o small examples_valid_dtypes examples_conversions_typed Hsmall Hmask).
Defined.

Lemma AutoResetWrapper_never_last_witness :
  let e := wrappers.Base (S := examples.counting) examples.counter in
  (forall key, types.last (wrappers.reset e key).2 = false)
  /\ types.last (wrappers.step (wrappers.AutoResetWrapper e) 2%Z 1%Z).2 = false
  /\ wrappers.step (wrappers.AutoResetWrapper (wrappers.AutoResetWrapper e)) 2%Z 1%Z =
     wrappers.step (wrappers.AutoResetWrapper e) 2%Z 1%Z.
Proof.
  intros e. split; [reflexivity|].
  exact (AutoResetWrapper_never_last (S := examples.counting) e
           (fun key => eq_refl) 2%Z 1%Z).
Defined.

Lemma gym_reset_seed_witness :
  let py_object (z : Z) := gym_obs.JaxArray (examples.mk_ndarray_int32 z) in
  let space := gym.Box gym.minus_inf gym.plus_inf [] np.int32 in
  let w := gym_wrapper.mk (S := examples.counting)
             (wrappers.Base examples.counter) [] 5%Z None None space space in
  let w' := gym_wrapper.mk (S := examples.counting)
              (wrappers.Base examples.counter) [] 8%Z None (Some 2%Z) space space in
  gym_wrapper._env w = gym_wrapper._env w'
  /\ (gym_wrapper.reset (S := examples.counting) py_object w (Some 3%Z) false).1 =
     (gym_wrapper.reset (S := examples.counting) py_object w' (Some 3%Z) false).1
  /\ gym_wrapper._key (gym_wrapper.reset (S := examples.counting) py_object w (Some 3%Z) false).2 = 7%Z
  /\ gym_wrapper._state (gym_wrapper.reset (S := examples.counting) py_object w (Some 3%Z) false).2 = Some 6%Z.
Proof.
  intros py_object space w w'. split; [reflexivity|].
  pose proof (gym_reset_seed (S := examples.counting) py_object w w' 3%Z false eq_refl)
    as (Hr & _ & _ & Hkey & Hstate & _).
  split; [exact Hr|]. split; [exact Hkey|exact Hstate].
Defined.

Lemma connector_specs_made_witness :
  ((0 <= Z.of_nat (connector._num_agents examples.corner_connector) * 3 + 2)%Z
   /\ np.has_dtype (jnp.canonicalize (J := examples.jax32) np.int64)
        (np.SInt (Z.of_nat (connector._num_agents examples.corner_connector) * 3 + 2)) = true
   /\ (0 <= connector._horizon examples.corner_connector)%Z
   /\ np.has_dtype (jnp.canonicalize (J := examples.jax32) np.int64)
        (np.SInt (connector._horizon examples.corner_connector)) = true)
  /\ connector_specs.discount_spec (J := examples.jax32) (H := examples.helpers)
       examples.corner_connector =
     Ok {| specs.BoundedArray.super :=
             specs.Array.__init__ (H := examples.helpers) [1] np.float64 "discount";
           specs.BoundedArray._minimum := connector_specs.float_0 (J := examples.jax32);
           specs.BoundedArray._maximum := connector_specs.float_1 (J := examples.jax32) |}.
Proof.
  split; [repeat split; vm_compute; discriminate|].
  exact (proj2 (connector_specs_made (J := examples.jax32) (H := examples.helpers)
                  (D := examples.on_grid) 2%Z examples.corner_connector
                  ltac:(vm_compute; discriminate) eq_refl
                  ltac:(vm_compute; discriminate) eq_refl)).
Defined.

Lemma connector_reset_action_mask_conforms_witness :
  let self := examples.corner_connector in
  (conformance.valid_dtypes (J := examples.jax32) (H := examples.helpers)
   /\ (forall (O : Type) (o : O) shp,
         types.observation (connector.restart (Deps := examples.on_grid) O o shp) = o)
   /\ 0 < connector._num_agents self
   /\ length (connector.agents
                (connector._generator self
                   (connector.random_split (Deps := examples.on_grid) 4%Z).1)) =
      connector._num_agents self)
  /\ exists spec mask,
       connector_specs.action_mask_spec (J := examples.jax32) (H := examples.helpers) self =
       Ok spec
       /\ connector_specs.stacked_action_mask
            (types.observation (connector.reset (J := examples.jax32) self 4%Z).2) =
          Some mask
       /\ np.wf mask
       /\ np.shape mask = [connector._num_agents self; 5]
       /\ np.dtype mask = np.bool_
       /\ specs.BoundedArray.validate (J := examples.jax32) spec mask = Ok mask.
Proof.
  intros self.
  split; [split; [exact examples_valid_dtypes|repeat split; vm_compute; lia]|].
  exact (connector_reset_action_mask_conforms (J := examples.jax32)
           (H := examples.helpers) (D := examples.on_grid) self 4%Z
           examples_valid_dtypes (fun O o shp => eq_refl)
           ltac:(vm_compute; lia) eq_refl).
Defined.

Lemma connector_reset_returns_witness :
  let self := examples.corner_connector in
  (forall (O : Type) (o : O) shp,
     types.observation (connector.restart (Deps := examples.on_grid) O o shp) = o)
  /\ length (connector.obs_grid
               (types.observation (connector.reset (J := examples.jax32) self 4%Z).2)) = 1
  /\ connector.step_count (connector.reset (J := examples.jax32) self 4%Z).1 =
     connector.int32_0
  /\ connector.key (connector.reset (J := examples.jax32) self 4%Z).1 = 9%Z.
Proof.
  intros self. split; [reflexivity|].
  pose proof (connector_reset_returns (J := examples.jax32) (D := examples.on_grid)
                self 4%Z (fun O o shp => eq_refl))
    as (Hlen & _ & _ & _ & _ & Hstep & _ & _ & Hkey).
  split; [exact Hlen|]. split; [exact Hstep|exact Hkey].
Defined.
